(** * excel-merger: the reconciliation and normalization engine

    A shallow embedding of [src/core/processor.py], [src/core/normalizer.py]
    and [src/core/controller.py], and the properties of the specification
    that were checked against it.

    Conventions of the embedding.
    - A Python [str] is the list of its Unicode code points ([pystr]).
    - A Python [int] is a [Z]; a Python [float] is a binary64 [float] of the
      kernel ([PrimFloat]), with the conversions that Python rounds
      correctly (decimal text, integers, quotients of integers) computed
      exactly through [SpecFloat].
    - A cell of a sheet or of a pandas column is a [cell]; a column is the
      list of its cells (an object-dtype Series with a [RangeIndex]).
    - A [dict] whose order of insertion the program relies on is an
      association list with Python's update discipline ([dict_set]).
    - The mutable [change_logs] list of the normalizer and the reads of the
      wall clock are threaded explicitly (state [nstate]).
    - Exceptions are [option] results: [None] stands for the exception the
      caller catches at that place. *)

From Stdlib Require Import ZArith NArith List String Ascii Bool Lia.
From Stdlib Require Import PrimFloat SpecFloat FloatOps.
Import ListNotations.

Set Warnings "-inexact-float".
Local Open Scope Z_scope.

(* ================================================================== *)
(** * Python strings *)
(* ================================================================== *)

Module PyStr.

(** A string is its sequence of code points. *)
Definition pystr := list N.

Definition cp_eqb : N -> N -> bool := N.eqb.

Fixpoint str_eqb (a b : pystr) : bool :=
  match a, b with
  | [], [] => true
  | x :: a', y :: b' => cp_eqb x y && str_eqb a' b'
  | _, _ => false
  end.

(** [len(s)] *)
Definition len (s : pystr) : Z := Z.of_nat (List.length s).

(** Truth value of a string: [not s] holds exactly of the empty string. *)
Definition nonempty (s : pystr) : bool :=
  match s with [] => false | _ :: _ => true end.

(** ** Literals: UTF-8 text of the development to code points *)

Fixpoint bytes_of_string (s : string) : list N :=
  match s with
  | EmptyString => []
  | String c s' => N_of_ascii c :: bytes_of_string s'
  end.

Fixpoint utf8_decode (bs : list N) : pystr :=
  match bs with
  | [] => []
  | b0 :: r0 =>
    if (b0 <? 128)%N then b0 :: utf8_decode r0
    else if (b0 <? 224)%N then
      match r0 with
      | b1 :: r1 => ((b0 - 192) * 64 + (b1 - 128))%N :: utf8_decode r1
      | _ => []
      end
    else if (b0 <? 240)%N then
      match r0 with
      | b1 :: b2 :: r2 =>
        ((b0 - 224) * 4096 + (b1 - 128) * 64 + (b2 - 128))%N :: utf8_decode r2
      | _ => []
      end
    else
      match r0 with
      | b1 :: b2 :: b3 :: r3 =>
        ((b0 - 240) * 262144 + (b1 - 128) * 4096 + (b2 - 128) * 64
         + (b3 - 128))%N :: utf8_decode r3
      | _ => []
      end
  end.

Definition py (s : string) : pystr := utf8_decode (bytes_of_string s).

(** ** Character classes that do not depend on letter data *)

(** [str.isspace] of one code point, which is also [\s] of [re] and what
    [str.strip] removes. *)
Definition is_space (c : N) : bool :=
  ((9 <=? c) && (c <=? 13) || (28 <=? c) && (c <=? 32)
   || (c =? 133) || (c =? 160) || (c =? 5760)
   || (8192 <=? c) && (c <=? 8202) || (c =? 8232) || (c =? 8233)
   || (c =? 8239) || (c =? 8287) || (c =? 12288))%N.

(** First code point of every block of ten decimal digits (category Nd,
    Unicode 14): [\d] of [re] and the digits [int] and [float] accept. *)
Definition digit_zeros : list N :=
  [48; 1632; 1776; 1984; 2406; 2534; 2662; 2790; 2918; 3046; 3174; 3302;
   3430; 3558; 3664; 3792; 3872; 4160; 4240; 6112; 6160; 6470; 6608; 6784;
   6800; 6992; 7088; 7232; 7248; 42528; 43216; 43264; 43472; 43504; 43600;
   44016; 65296; 66720; 68912; 69734; 69872; 69942; 70096; 70384; 70736;
   70864; 71248; 71360; 71472; 71904; 72016; 72784; 73040; 73120; 92768;
   92864; 93008; 120782; 120792; 120802; 120812; 120822; 123200; 123632;
   125264; 130032]%N.

Fixpoint digit_in (zs : list N) (c : N) : option Z :=
  match zs with
  | [] => None
  | z :: zs' =>
    if ((z <=? c) && (c <? z + 10))%N then Some (Z.of_N (c - z))
    else digit_in zs' c
  end.

(** Value of a decimal digit, [None] for any other code point. *)
Definition digit_value (c : N) : option Z := digit_in digit_zeros c.

Definition is_digit (c : N) : bool :=
  match digit_value c with Some _ => true | None => false end.

Definition is_ascii_digit (c : N) : bool := ((48 <=? c) && (c <=? 57))%N.

(** No character of [s] is white space. *)
Definition no_space (s : pystr) : Prop :=
  Forall (fun c => is_space c = false) s.

(** ** Slicing and searching *)

Fixpoint lstrip (s : pystr) : pystr :=
  match s with
  | c :: s' => if is_space c then lstrip s' else s
  | [] => []
  end.

Definition rstrip (s : pystr) : pystr := rev (lstrip (rev s)).

(** [s.strip()] *)
Definition strip (s : pystr) : pystr := rstrip (lstrip s).

Fixpoint starts_with (p s : pystr) : bool :=
  match p, s with
  | [], _ => true
  | x :: p', y :: s' => cp_eqb x y && starts_with p' s'
  | _ :: _, [] => false
  end.

(** [needle in hay] on strings: substring test. *)
Fixpoint contains (needle hay : pystr) : bool :=
  starts_with needle hay
  || match hay with
     | [] => false
     | _ :: hay' => contains needle hay'
     end.

(** [s.replace(c, '')] for a one-character [c]. *)
Definition remove_char (c : N) (s : pystr) : pystr :=
  filter (fun x => negb (cp_eqb x c)) s.

(** [re.sub(r'\s+', ' ', s)]: every maximal run of white space becomes one
    space ([in_run]: the previous character was white space). *)
Fixpoint collapse_from (s : pystr) (in_run : bool) : pystr :=
  match s with
  | [] => []
  | c :: s' =>
    if is_space c then
      if in_run then collapse_from s' true else 32%N :: collapse_from s' true
    else c :: collapse_from s' false
  end.

Definition collapse_spaces (s : pystr) : pystr := collapse_from s false.

(** [re.search(r'\s{2,}', s)]: two white-space characters in a row. *)
Fixpoint has_space_run (s : pystr) : bool :=
  match s with
  | c :: ((d :: _) as s') => is_space c && is_space d || has_space_run s'
  | _ => false
  end.

(** [re.findall(cls+, s)] for a character class [cls]: the maximal runs. *)
Fixpoint runs_of (cls : N -> bool) (s : pystr) (cur : pystr)
  : list pystr :=
  match s with
  | [] => match cur with [] => [] | _ => [rev cur] end
  | c :: s' =>
    if cls c then runs_of cls s' (c :: cur)
    else match cur with
         | [] => runs_of cls s' []
         | _ => rev cur :: runs_of cls s' []
         end
  end.

Definition findall (cls : N -> bool) (s : pystr) : list pystr :=
  runs_of cls s [].

(** ** Numbers as text *)

(** The decimal digits of [n >= 0] before [acc], at most [fuel] of them. *)
Fixpoint digits_of (fuel : nat) (n : Z) (acc : pystr) : pystr :=
  let acc' := (48 + Z.to_N (n mod 10))%N :: acc in
  match fuel with
  | O => acc'
  | S fuel' => if n <? 10 then acc' else digits_of fuel' (n / 10) acc'
  end.

(** [str(n)] of an integer. *)
Definition of_Z (z : Z) : pystr :=
  if z <? 0 then 45%N :: digits_of (Z.to_nat (Z.log2 (- z))) (- z) []
  else digits_of (Z.to_nat (Z.log2 z)) z [].

Fixpoint zeros (n : nat) : pystr :=
  match n with O => [] | S n' => 48%N :: zeros n' end.

(** A non-negative integer padded with zeros on the left to [w] digits. *)
Definition zpad (w : nat) (z : Z) : pystr :=
  let d := of_Z z in zeros (w - List.length d) ++ d.

(** [int(s)] of a run of decimal digits, most significant first. *)
Fixpoint digits_value (s : pystr) (acc : Z) : option Z :=
  match s with
  | [] => Some acc
  | c :: s' =>
    match digit_value c with
    | Some d => digits_value s' (10 * acc + d)
    | None => None
    end
  end.

Definition int_of_digits (s : pystr) : option Z :=
  match s with [] => None | _ => digits_value s 0 end.

(** ** Methods that consult the case and letter data of Unicode

    [str.lower] and its relatives and the class [\w] of [re] are decided by
    the Unicode character database of the interpreter.  The program is
    verified against any such database; the one of the Basic Latin block
    ([latin], below) runs the examples, all of whose text is ASCII or
    caseless Hangul. *)
Class PyUnicode := {
  lower : pystr -> pystr;
  upper : pystr -> pystr;
  title : pystr -> pystr;
  isupper : pystr -> bool;
  islower : pystr -> bool;
  istitle : pystr -> bool;
  is_word : N -> bool
}.

Definition ascii_upper_cp (c : N) : bool := ((65 <=? c) && (c <=? 90))%N.
Definition ascii_lower_cp (c : N) : bool := ((97 <=? c) && (c <=? 122))%N.
Definition ascii_cased (c : N) : bool := ascii_upper_cp c || ascii_lower_cp c.
Definition to_lower_cp (c : N) : N := if ascii_upper_cp c then (c + 32)%N else c.
Definition to_upper_cp (c : N) : N := if ascii_lower_cp c then (c - 32)%N else c.

(** [str.isupper]: some cased character, and none of them lowercase. *)
Definition latin_isupper (s : pystr) : bool :=
  existsb ascii_cased s && negb (existsb ascii_lower_cp s).

Definition latin_islower (s : pystr) : bool :=
  existsb ascii_cased s && negb (existsb ascii_upper_cp s).

(** [str.istitle]: uppercase only after an uncased character, lowercase
    only after a cased one, and some cased character. *)
Fixpoint istitle_from (s : pystr) (prev_cased seen : bool) : bool :=
  match s with
  | [] => seen
  | c :: s' =>
    if ascii_upper_cp c then
      if prev_cased then false else istitle_from s' true true
    else if ascii_lower_cp c then
      if prev_cased then istitle_from s' true true else false
    else istitle_from s' false seen
  end.

(** [str.title]: uppercase after an uncased character, lowercase after a
    cased one. *)
Fixpoint title_from (s : pystr) (prev_cased : bool) : pystr :=
  match s with
  | [] => []
  | c :: s' =>
    (if prev_cased then to_lower_cp c else to_upper_cp c)
      :: title_from s' (ascii_cased c)
  end.

(** Word characters known to [latin]: ASCII letters and digits, the
    underscore, and the Hangul syllables. *)
Definition latin_is_word (c : N) : bool :=
  ascii_cased c || is_ascii_digit c || (c =? 95)%N
  || ((44032 <=? c) && (c <=? 55203))%N.

Definition latin : PyUnicode := {|
  lower := map to_lower_cp;
  upper := map to_upper_cp;
  title := fun s => title_from s false;
  isupper := latin_isupper;
  islower := latin_islower;
  istitle := fun s => istitle_from s false false;
  is_word := latin_is_word
|}.

End PyStr.

(* ================================================================== *)
(** * Python floats *)
(* ================================================================== *)

Module PyFloat.
Import PyStr.

(** Nearest integer to [p / q] for [0 < q], ties to the even one. *)
Definition div_half_even (p q : Z) : Z :=
  let d := p / q in
  match 2 * (p mod q) ?= q with
  | Lt => d
  | Gt => d + 1
  | Eq => if Z.even d then d else d + 1
  end.

Definition SF_of_Z (z : Z) : spec_float :=
  match z with
  | Z0 => S754_zero false
  | Zpos p => S754_finite false p 0
  | Zneg p => S754_finite true p 0
  end.

(** [float(n)] of an integer, correctly rounded. *)
Definition of_int (z : Z) : float :=
  SF2Prim (binary_normalize prec emax z 0 false).

(** [a / b] of two integers: the correctly rounded quotient. *)
Definition truediv (a b : Z) : float :=
  SF2Prim (SFdiv prec emax (SF_of_Z a) (SF_of_Z b)).

(** The float nearest to [(-1)^neg * m * 10^e10], for [0 <= m]. *)
Definition of_decimal (neg : bool) (m e10 : Z) : float :=
  match m with
  | Zpos p =>
    if 0 <=? e10 then
      SF2Prim (binary_normalize prec emax (cond_Zopp neg (m * 10 ^ e10)) 0 false)
    else
      SF2Prim (SFdiv prec emax (S754_finite neg p 0) (SF_of_Z (10 ^ (- e10))))
  | _ => if neg then neg_zero else zero
  end.

(** Exact comparison of a float with an integer ([None] for a NaN). *)
Definition cmp_int (x : float) (z : Z) : option comparison :=
  match Prim2SF x with
  | S754_nan => None
  | S754_infinity s => Some (if s then Lt else Gt)
  | S754_zero _ => Some (0 ?= z)
  | S754_finite s m e =>
    let v := cond_Zopp s (Zpos m) in
    if 0 <=? e then Some (v * 2 ^ e ?= z) else Some (v ?= z * 2 ^ (- e))
  end.

(** [z <= x] and [x <= z], false on a NaN as in Python. *)
Definition int_le_float (z : Z) (x : float) : bool :=
  match cmp_int x z with Some Gt | Some Eq => true | _ => false end.

Definition float_le_int (x : float) (z : Z) : bool :=
  match cmp_int x z with Some Lt | Some Eq => true | _ => false end.

Definition float_eq_int (x : float) (z : Z) : bool :=
  match cmp_int x z with Some Eq => true | _ => false end.

(** [round(x, nd)]: the decimal with [nd] places nearest to the exact value
    of [x] (ties to even), converted back to the nearest float. *)
Definition round_ndigits (x : float) (nd : Z) : float :=
  match Prim2SF x with
  | S754_finite s m e =>
    if 323 <? nd then x
    else if nd <? -308 then (zero * x)%float
    else
      let p := Zpos m * (if 0 <=? e then 2 ^ e else 1)
                      * (if 0 <=? nd then 10 ^ nd else 1) in
      let q := (if 0 <=? e then 1 else 2 ^ (- e))
               * (if 0 <=? nd then 1 else 10 ^ (- nd)) in
      of_decimal s (div_half_even p q) (- nd)
  | _ => x
  end.

(** ** [repr(x)]: the shortest decimal text that reads back as [x] *)

(** Number of decimal digits of a positive integer. *)
Definition ndigits (z : Z) : Z := Z.of_nat (List.length (of_Z z)).

(** Least [j] in [1 ..] with [p * 10^j >= q], searched with fuel. *)
Fixpoint lead_zeros (fuel : nat) (p q : Z) (j : Z) : Z :=
  match fuel with
  | O => j
  | S fuel' => if q <=? p * 10 ^ j then j else lead_zeros fuel' p q (j + 1)
  end.

(** [k] with [10^(k-1) <= p/q < 10^k], for [0 < p] and [0 < q]. *)
Definition decimal_point (p q : Z) : Z :=
  if q <=? p then ndigits (p / q) else 1 - lead_zeros 400 p q 1.

(** [p/q * 10^(-s)] as a fraction. *)
Definition scale10 (p q s : Z) : Z * Z :=
  if 0 <=? s then (p, q * 10 ^ s) else (p * 10 ^ (- s), q).

(** The shortest digit string [(d, k)], [x = 0.d * 10^k] rounded to [n]
    digits, that converts back to [x]; [n] runs from [17 - fuel + 1]. *)
Fixpoint shortest (fuel : nat) (x : float) (p q k : Z) (n : Z) : Z * Z :=
  let '(ps, qs) := scale10 p q (k - n) in
  let d := div_half_even ps qs in
  let lo := ps / qs in
  let other := if d =? lo then lo + 1 else lo in
  match fuel with
  | O => (d, k - n)
  | S fuel' =>
    if (of_decimal false d (k - n) =? x)%float then (d, k - n)
    else if (0 <? other) && (of_decimal false other (k - n) =? x)%float
    then (other, k - n)
    else shortest fuel' x p q k (n + 1)
  end.

Fixpoint strip_zeros_digits (fuel : nat) (d e : Z) : Z * Z :=
  match fuel with
  | O => (d, e)
  | S fuel' =>
    if (d mod 10 =? 0) && negb (d =? 0)
    then strip_zeros_digits fuel' (d / 10) (e + 1) else (d, e)
  end.

Definition repr_finite (neg : bool) (m : positive) (e : Z) : pystr :=
  let p := Zpos m * (if 0 <=? e then 2 ^ e else 1) in
  let q := if 0 <=? e then 1 else 2 ^ (- e) in
  let k := decimal_point p q in
  let '(d0, e0) := shortest 16 (SF2Prim (S754_finite false m e)) p q k 1 in
  let '(d, e10) := strip_zeros_digits 20 d0 e0 in
  let ds := of_Z d in
  let n := len ds in
  let decpt := e10 + n in
  let body :=
    if (-4 <? decpt) && (decpt <=? 16) then
      if decpt <=? 0 then py "0." ++ zeros (Z.to_nat (- decpt)) ++ ds
      else if n <=? decpt then ds ++ zeros (Z.to_nat (decpt - n)) ++ py ".0"
      else firstn (Z.to_nat decpt) ds ++ py "." ++ skipn (Z.to_nat decpt) ds
    else
      let ex := decpt - 1 in
      firstn 1 ds
        ++ (if 1 <? n then py "." ++ skipn 1 ds else [])
        ++ py "e" ++ (if ex <? 0 then py "-" else py "+")
        ++ zpad 2 (Z.abs ex)
  in (if neg then py "-" else []) ++ body.

(** [repr(x)], which is also [str(x)]. *)
Definition repr (x : float) : pystr :=
  match Prim2SF x with
  | S754_nan => py "nan"
  | S754_infinity s => if s then py "-inf" else py "inf"
  | S754_zero s => if s then py "-0.0" else py "0.0"
  | S754_finite s m e => repr_finite s m e
  end.

(** ** [float(s)] of a string *)

(** Digits and white space of any script are read as their ASCII
    counterparts before parsing. *)
Definition to_ascii_cp (c : N) : N :=
  match digit_value c with
  | Some d => (48 + Z.to_N d)%N
  | None => if is_space c then 32%N else c
  end.

(** An underscore stands between two digits only; [prev] is the previous
    character. *)
Fixpoint drop_underscores (s : pystr) (prev : N) : option pystr :=
  match s with
  | [] => if (prev =? 95)%N then None else Some []
  | c :: s' =>
    if (c =? 95)%N then
      if is_ascii_digit prev then drop_underscores s' c else None
    else if (prev =? 95)%N && negb (is_ascii_digit c) then None
    else option_map (cons c) (drop_underscores s' c)
  end.

(** The longest prefix of ASCII digits, and what follows it. *)
Fixpoint span_digits (s : pystr) : pystr * pystr :=
  match s with
  | c :: s' =>
    if is_ascii_digit c then let '(d, r) := span_digits s' in (c :: d, r)
    else ([], s)
  | [] => ([], [])
  end.

Definition value_of (d : pystr) : Z :=
  match digits_value d 0 with Some v => v | None => 0 end.

(** An optional sign. *)
Definition take_sign (s : pystr) : bool * pystr :=
  match s with
  | 45%N :: r => (true, r)
  | 43%N :: r => (false, r)
  | _ => (false, s)
  end.

(** The exponent part [e[+-]digits], when all of [s] is one. *)
Definition parse_exponent (s : pystr) : option Z :=
  match s with
  | [] => Some 0
  | c :: r =>
    if (c =? 101)%N || (c =? 69)%N then
      let '(neg, r1) := take_sign r in
      match span_digits r1 with
      | (d, []) =>
        if nonempty d then Some (if neg then - value_of d else value_of d)
        else None
      | _ => None
      end
    else None
  end.

(** The unsigned decimal part: digits, an optional point and fraction, an
    optional exponent, and nothing after them. *)
Definition parse_decimal (neg : bool) (s : pystr) : option float :=
  let '(ip, r) := span_digits s in
  let '(fp, r1) :=
    match r with
    | 46%N :: r' => span_digits r'
    | _ => ([], r)
    end in
  match ip ++ fp with
  | [] => None
  | ds =>
    match parse_exponent r1 with
    | Some ex => Some (of_decimal neg (value_of ds) (ex - len fp))
    | None => None
    end
  end.

(** [float(s)]; [None] is the [ValueError] of Python. *)
Definition float_of_str (s : pystr) : option float :=
  match drop_underscores (strip (map to_ascii_cp s)) 0%N with
  | None => None
  | Some t =>
    let '(neg, body) := take_sign t in
    let low := map to_lower_cp body in
    if str_eqb low (py "inf") || str_eqb low (py "infinity")
    then Some (if neg then neg_infinity else infinity)
    else if str_eqb low (py "nan") then Some nan
    else parse_decimal neg body
  end.

End PyFloat.

(* ================================================================== *)
(** * Dates: [datetime], [timedelta], [strftime] and [strptime] *)
(* ================================================================== *)

Module PyDate.
Import PyStr PyFloat.

Record datetime := mkdt {
  year : Z; month : Z; day : Z;
  hour : Z; minute : Z; second : Z; microsecond : Z
}.

(** ** The proleptic Gregorian calendar, as [datetime.py] computes it *)

Definition is_leap (y : Z) : bool :=
  (y mod 4 =? 0) && (negb (y mod 100 =? 0) || (y mod 400 =? 0)).

Definition days_before_year (y : Z) : Z :=
  let p := y - 1 in p * 365 + p / 4 - p / 100 + p / 400.

Definition DAYS_IN_MONTH (m : Z) : Z :=
  match m with
  | 1 => 31 | 2 => 28 | 3 => 31 | 4 => 30 | 5 => 31 | 6 => 30
  | 7 => 31 | 8 => 31 | 9 => 30 | 10 => 31 | 11 => 30 | 12 => 31
  | _ => 0
  end.

Definition DAYS_BEFORE_MONTH (m : Z) : Z :=
  match m with
  | 1 => 0 | 2 => 31 | 3 => 59 | 4 => 90 | 5 => 120 | 6 => 151
  | 7 => 181 | 8 => 212 | 9 => 243 | 10 => 273 | 11 => 304 | 12 => 334
  | _ => 0
  end.

Definition days_in_month (y m : Z) : Z :=
  if (m =? 2) && is_leap y then 29 else DAYS_IN_MONTH m.

Definition days_before_month (y m : Z) : Z :=
  DAYS_BEFORE_MONTH m + (if (2 <? m) && is_leap y then 1 else 0).

(** Ordinal of a date: 1 for 0001-01-01. *)
Definition ymd2ord (y m d : Z) : Z :=
  days_before_year y + days_before_month y m + d.

Definition DI400Y : Z := 146097.
Definition DI100Y : Z := 36524.
Definition DI4Y : Z := 1461.
Definition MAXORDINAL : Z := 3652059.

(** The date of an ordinal. *)
Definition ord2ymd (n0 : Z) : Z * Z * Z :=
  let n := n0 - 1 in
  let n400 := n / DI400Y in
  let n := n mod DI400Y in
  let n100 := n / DI100Y in
  let n := n mod DI100Y in
  let n4 := n / DI4Y in
  let n := n mod DI4Y in
  let n1 := n / 365 in
  let n := n mod 365 in
  let y := n400 * 400 + 1 + n100 * 100 + n4 * 4 + n1 in
  if (n1 =? 4) || (n100 =? 4) then (y - 1, 12, 31)
  else
    let leapyear := (n1 =? 3) && (negb (n4 =? 24) || (n100 =? 3)) in
    let m := Z.shiftr (n + 50) 5 in
    let preceding :=
      DAYS_BEFORE_MONTH m + (if (2 <? m) && leapyear then 1 else 0) in
    if n <? preceding then
      let m' := m - 1 in
      let preceding' :=
        preceding
        - (DAYS_IN_MONTH m' + (if (m' =? 2) && leapyear then 1 else 0)) in
      (y, m', n - preceding' + 1)
    else (y, m, n - preceding + 1).

(** [datetime(y, m, d, H, M, S, us)]; [None] is its [ValueError]. *)
Definition make_datetime (y m d H M S us : Z) : option datetime :=
  if (1 <=? y) && (y <=? 9999) && (1 <=? m) && (m <=? 12)
     && (1 <=? d) && (d <=? days_in_month y m)
     && (0 <=? H) && (H <=? 23) && (0 <=? M) && (M <=? 59)
     && (0 <=? S) && (S <=? 59) && (0 <=? us) && (us <=? 999999)
  then Some (mkdt y m d H M S us) else None.

Definition toordinal (t : datetime) : Z := ymd2ord (year t) (month t) (day t).

(** [f] holds of the [n] integers from [lo] on. *)
Fixpoint all_from (f : Z -> bool) (lo : Z) (n : nat) : bool :=
  match n with
  | O => true
  | S n' => f lo && all_from f (lo + 1) n'
  end.

(** The month and the day [ord2ymd] reads off the day [n] of a year,
    counted from 0. *)
Definition month_day (n : Z) (leapyear : bool) : Z * Z :=
  let m := Z.shiftr (n + 50) 5 in
  let preceding :=
    DAYS_BEFORE_MONTH m + (if (2 <? m) && leapyear then 1 else 0) in
  if n <? preceding then
    let m' := m - 1 in
    let preceding' :=
      preceding
      - (DAYS_IN_MONTH m' + (if (m' =? 2) && leapyear then 1 else 0)) in
    (m', n - preceding' + 1)
  else (m, n - preceding + 1).

(** Year [1 + 100 a + 4 b + c] of a cycle of four hundred years: whether
    it is a leap year, and the days before it. *)
Definition year_ok (a b c : Z) : bool :=
  let y := 1 + 100 * a + 4 * b + c in
  Bool.eqb (is_leap y) ((c =? 3) && (negb (b =? 24) || (a =? 3)))
  && (days_before_year y =? DI100Y * a + DI4Y * b + 365 * c).

(** Day [n] of a year: the month and the day [month_day] gives it. *)
Definition day_ok (leapyear : bool) (n : Z) : bool :=
  let '(m, d) := month_day n leapyear in
  (1 <=? m) && (m <=? 12) && (1 <=? d)
  && (d <=? (if (m =? 2) && leapyear then 29 else DAYS_IN_MONTH m))
  && (DAYS_BEFORE_MONTH m + (if (2 <? m) && leapyear then 1 else 0) + d
      =? n + 1).

(** The year, month and day of [t] name a day of the calendar. *)
Definition valid_date (t : datetime) : bool :=
  (1 <=? year t) && (year t <=? 9999) && (1 <=? month t) && (month t <=? 12)
  && (1 <=? day t) && (day t <=? days_in_month (year t) (month t)).

(** ** Durations: a [timedelta] is its number of microseconds *)

Definition timedelta := Z.

Definition US_PER_DAY : Z := 86400000000.

(** The constructor refuses more than 999999999 days ([OverflowError]). *)
Definition check_delta (us : Z) : option timedelta :=
  let d := us / US_PER_DAY in
  if (-999999999 <=? d) && (d <=? 999999999) then Some us else None.

(** [timedelta(days=n)] for an integer [n]. *)
Definition timedelta_days (n : Z) : option timedelta :=
  check_delta (n * US_PER_DAY).

(** [modf]: the integral part, and the fractional part as a float. *)
Definition modf (x : float) : Z * float :=
  match Prim2SF x with
  | S754_finite s m e =>
    if 0 <=? e then (cond_Zopp s (Zpos m * 2 ^ e), if s then neg_zero else zero)
    else
      let q := 2 ^ (- e) in
      (cond_Zopp s (Zpos m / q),
       SF2Prim (binary_normalize prec emax (cond_Zopp s (Zpos m mod q)) e s))
  | _ => (0, x)
  end.

(** Nearest integer to [n + x], ties to even, for an integer [n] and a
    float [x] of magnitude below one. *)
Definition add_rounded (n : Z) (x : float) : Z :=
  match Prim2SF x with
  | S754_finite s m e =>
    if 0 <=? e then n + cond_Zopp s (Zpos m * 2 ^ e)
    else let q := 2 ^ (- e) in div_half_even (n * q + cond_Zopp s (Zpos m)) q
  | _ => n
  end.

(** [timedelta(days=x)] for a finite float [x]: the whole days exactly,
    the fraction of a day through one float product, rounded to the
    nearest microsecond. *)
Definition timedelta_days_float (x : float) : option timedelta :=
  let '(whole, frac) := modf x in
  let sum := whole * US_PER_DAY in
  if (frac =? zero)%float then check_delta sum
  else
    let '(us, leftover) := modf (of_int US_PER_DAY * frac)%float in
    check_delta (add_rounded (sum + us) leftover).

(** [t + delta]; [None] is the [OverflowError] of a date out of range. *)
Definition datetime_add (t : datetime) (delta : timedelta) : option datetime :=
  let total :=
    toordinal t * US_PER_DAY
    + ((hour t * 60 + minute t) * 60 + second t) * 1000000 + microsecond t
    + delta in
  let days := total / US_PER_DAY in
  let rest := total mod US_PER_DAY in
  let secs := rest / 1000000 in
  if (0 <? days) && (days <=? MAXORDINAL) then
    let '(y, m, d) := ord2ymd days in
    Some (mkdt y m d (secs / 3600) (secs mod 3600 / 60) (secs mod 60)
               (rest mod 1000000))
  else None.

(** The day before the first day of the serial dates of a spreadsheet. *)
Definition epoch : datetime := mkdt 1899 12 30 0 0 0 0.

(** The date [n] days after the date of [t], at midnight. *)
Definition plus_days (t : datetime) (n : Z) : datetime :=
  let '(y, m, d) := ord2ymd (toordinal t + n) in mkdt y m d 0 0 0 0.

(** ** [strftime] *)

Definition month_names : list pystr :=
  map py ["january"; "february"; "march"; "april"; "may"; "june"; "july";
          "august"; "september"; "october"; "november"; "december"]%string.

Definition month_name (m : Z) : pystr :=
  title_from (nth (Z.to_nat (m - 1)) month_names []) false.

(** The text of one directive [%c].  Years have four digits, as the
    library documents them; a directive outside the ones the program uses
    is left as it stands. *)
Definition format_directive (c : N) (t : datetime) : pystr :=
  if (c =? 89)%N then zpad 4 (year t)                     (* %Y *)
  else if (c =? 109)%N then zpad 2 (month t)              (* %m *)
  else if (c =? 100)%N then zpad 2 (day t)                (* %d *)
  else if (c =? 72)%N then zpad 2 (hour t)                (* %H *)
  else if (c =? 77)%N then zpad 2 (minute t)              (* %M *)
  else if (c =? 83)%N then zpad 2 (second t)              (* %S *)
  else if (c =? 121)%N then zpad 2 (year t mod 100)       (* %y *)
  else if (c =? 66)%N then month_name (month t)           (* %B *)
  else if (c =? 98)%N then firstn 3 (month_name (month t)) (* %b *)
  else if (c =? 102)%N then zpad 6 (microsecond t)        (* %f *)
  else if (c =? 37)%N then [37%N]                         (* %% *)
  else [37%N; c].

Fixpoint strftime_from (fmt : pystr) (t : datetime) : pystr :=
  match fmt with
  | [] => []
  | c :: r =>
    if (c =? 37)%N then
      match r with
      | d :: r' => format_directive d t ++ strftime_from r' t
      | [] => [c]
      end
    else c :: strftime_from r t
  end.

(** [t.strftime(fmt)] *)
Definition strftime (t : datetime) (fmt : pystr) : pystr :=
  strftime_from fmt t.

(** [str(t)]: ISO text with a space between date and time. *)
Definition isoformat (t : datetime) : pystr :=
  strftime t (py "%Y-%m-%d %H:%M:%S")
  ++ (if microsecond t =? 0 then [] else py "." ++ zpad 6 (microsecond t)).

(** ** [strptime]

    The library turns the format into a regular expression, takes the first
    way the expression matches a prefix of the text (alternatives in their
    order, with backtracking), and refuses the text when something is left
    after the match. *)

(** One character of an alternative of a directive. *)
Inductive cls :=
| CRange (lo hi : N)   (* an ASCII digit between two digits *)
| CDigit               (* [\d]: a decimal digit of any script *)
| CChar (c : N).

Definition cls_match (k : cls) (c : N) : bool :=
  match k with
  | CRange lo hi => ((48 + lo <=? c) && (c <=? 48 + hi))%N
  | CDigit => is_digit c
  | CChar x => cp_eqb x c
  end.

(** The text an alternative matches at the head of [s], and the rest. *)
Fixpoint alt_match (alt : list cls) (s : pystr) : option (pystr * pystr) :=
  match alt, s with
  | [], _ => Some ([], s)
  | k :: alt', c :: s' =>
    if cls_match k c then
      match alt_match alt' s' with
      | Some (t, r) => Some (c :: t, r)
      | None => None
      end
    else None
  | _ :: _, [] => None
  end.

(** The alternatives of the numeric directives, in the library's order. *)
Definition numeric_alts (d : N) : option (list (list cls)) :=
  if (d =? 89)%N then Some [[CDigit; CDigit; CDigit; CDigit]]
  else if (d =? 121)%N then Some [[CDigit; CDigit]]
  else if (d =? 109)%N then
    Some [[CRange 1 1; CRange 0 2]; [CRange 0 0; CRange 1 9]; [CRange 1 9]]
  else if (d =? 100)%N then
    Some [[CRange 3 3; CRange 0 1]; [CRange 1 2; CDigit];
          [CRange 0 0; CRange 1 9]; [CRange 1 9]; [CChar 32; CRange 1 9]]
  else if (d =? 72)%N then
    Some [[CRange 2 2; CRange 0 3]; [CRange 0 1; CDigit]; [CDigit]]
  else if (d =? 77)%N then Some [[CRange 0 5; CDigit]; [CDigit]]
  else if (d =? 83)%N then
    Some [[CRange 6 6; CRange 0 1]; [CRange 0 5; CDigit]; [CDigit]]
  else None.

(** Month names as the expression lists them: longest first for [%B]. *)
Definition full_month_alts : list (pystr * Z) :=
  [(py "september", 9); (py "february", 2); (py "november", 11);
   (py "december", 12); (py "january", 1); (py "october", 10);
   (py "august", 8); (py "march", 3); (py "april", 4); (py "june", 6);
   (py "july", 7); (py "may", 5)].

Definition abbr_month_alts : list (pystr * Z) :=
  [(py "jan", 1); (py "feb", 2); (py "mar", 3); (py "apr", 4); (py "may", 5);
   (py "jun", 6); (py "jul", 7); (py "aug", 8); (py "sep", 9); (py "oct", 10);
   (py "nov", 11); (py "dec", 12)].

(** A lowercase name at the head of [s], letter case ignored. *)
Fixpoint name_match (name s : pystr) : option pystr :=
  match name, s with
  | [], _ => Some s
  | x :: name', c :: s' =>
    if cp_eqb x (to_lower_cp c) then name_match name' s' else None
  | _ :: _, [] => None
  end.

(** The fields a match has filled in, with the library's defaults. *)
Record fields := mkfields {
  f_year : Z; f_month : Z; f_day : Z;
  f_hour : Z; f_minute : Z; f_second : Z
}.

Definition default_fields : fields := mkfields 1900 1 1 0 0 0.

Definition set_field (d : N) (v : Z) (f : fields) : fields :=
  if (d =? 89)%N then
    mkfields v (f_month f) (f_day f) (f_hour f) (f_minute f) (f_second f)
  else if (d =? 121)%N then
    mkfields (if v <=? 68 then 2000 + v else 1900 + v)
             (f_month f) (f_day f) (f_hour f) (f_minute f) (f_second f)
  else if (d =? 109)%N || (d =? 66)%N || (d =? 98)%N then
    mkfields (f_year f) v (f_day f) (f_hour f) (f_minute f) (f_second f)
  else if (d =? 100)%N then
    mkfields (f_year f) (f_month f) v (f_hour f) (f_minute f) (f_second f)
  else if (d =? 72)%N then
    mkfields (f_year f) (f_month f) (f_day f) v (f_minute f) (f_second f)
  else if (d =? 77)%N then
    mkfields (f_year f) (f_month f) (f_day f) (f_hour f) v (f_second f)
  else if (d =? 83)%N then
    mkfields (f_year f) (f_month f) (f_day f) (f_hour f) (f_minute f) v
  else f.

(** [int(text)] of the text a numeric alternative matched. *)
Definition int_text (t : pystr) : Z :=
  match digits_value (lstrip t) 0 with Some v => v | None => 0 end.

(** An item of the expression of a format. *)
Inductive ritem :=
| RLit (c : N)     (* a character of the format, letter case ignored *)
| RSpaces          (* white space of the format: [\s+] *)
| RDir (d : N).    (* a directive [%d] *)

(** The expression of a format; [None] for a format the library refuses
    (a stray [%]) and for a directive outside the ones the program uses. *)
Fixpoint to_regex (fmt : pystr) (in_space : bool) : option (list ritem) :=
  match fmt with
  | [] => Some []
  | c :: r =>
    if is_space c then
      if in_space then to_regex r true
      else option_map (cons RSpaces) (to_regex r true)
    else if (c =? 37)%N then
      match r with
      | d :: r' =>
        if (d =? 37)%N then option_map (cons (RLit 37%N)) (to_regex r' false)
        else
          match numeric_alts d with
          | Some _ => option_map (cons (RDir d)) (to_regex r' false)
          | None =>
            if (d =? 66)%N || (d =? 98)%N
            then option_map (cons (RDir d)) (to_regex r' false)
            else None
          end
      | [] => None
      end
    else option_map (cons (RLit c)) (to_regex r false)
  end.

(** Every non-empty prefix of the white space at the head of [s], the
    longest first, with what follows it. *)
Fixpoint space_splits (s : pystr) : list pystr :=
  match s with
  | c :: s' => if is_space c then space_splits s' ++ [s'] else []
  | [] => []
  end.

(** The ways one item matches at the head of [s], in order. *)
Definition step (it : ritem) (s : pystr) (f : fields)
  : list (fields * pystr) :=
  match it with
  | RLit c =>
    match s with
    | x :: s' => if cp_eqb (to_lower_cp c) (to_lower_cp x) then [(f, s')] else []
    | [] => []
    end
  | RSpaces => map (fun r => (f, r)) (space_splits s)
  | RDir d =>
    match numeric_alts d with
    | Some alts =>
      flat_map (fun alt =>
                  match alt_match alt s with
                  | Some (t, r) => [(set_field d (int_text t) f, r)]
                  | None => []
                  end) alts
    | None =>
      flat_map (fun '(name, m) =>
                  match name_match name s with
                  | Some r => [(set_field d m f, r)]
                  | None => []
                  end)
               (if (d =? 66)%N then full_month_alts else abbr_month_alts)
    end
  end.

(** All the ways the items match a prefix of [s], first match first. *)
Fixpoint matches (items : list ritem) (s : pystr) (f : fields)
  : list (fields * pystr) :=
  match items with
  | [] => [(f, s)]
  | it :: items' =>
    flat_map (fun '(f', r) => matches items' r f') (step it s f)
  end.

(** [datetime.strptime(s, fmt)]; [None] is its [ValueError]. *)
Definition strptime (s fmt : pystr) : option datetime :=
  match to_regex fmt false with
  | None => None
  | Some items =>
    match matches items s default_fields with
    | (f, rest) :: _ =>
      if nonempty rest then None
      else make_datetime (f_year f) (f_month f) (f_day f)
                         (f_hour f) (f_minute f) (f_second f) 0
    | [] => None
    end
  end.




End PyDate.

(* ================================================================== *)
(** * Cells and dictionaries *)
(* ================================================================== *)

Module Cell.
Import PyStr PyFloat PyDate.

(** A value of a sheet: empty, a truth value, a number, text or a date. *)
Inductive cell :=
| VNone
| VBool (b : bool)
| VInt (z : Z)
| VFloat (x : float)
| VStr (s : pystr)
| VDate (t : datetime).

(** [pd.isna(v)] *)
Definition isna (v : cell) : bool :=
  match v with
  | VNone => true
  | VFloat x => is_nan x
  | _ => false
  end.

(** [v is None] *)
Definition is_none (v : cell) : bool :=
  match v with VNone => true | _ => false end.

(** [isinstance(v, str)] *)
Definition is_str (v : cell) : bool :=
  match v with VStr _ => true | _ => false end.

(** Truth value of a cell, as [any] and [if] take it. *)
Definition truthy (v : cell) : bool :=
  match v with
  | VNone => false
  | VBool b => b
  | VInt z => negb (z =? 0)
  | VFloat x => negb (x =? zero)%float
  | VStr s => nonempty s
  | VDate _ => true
  end.

(** [str(v)] *)
Definition str_of (v : cell) : pystr :=
  match v with
  | VNone => py "None"
  | VBool b => if b then py "True" else py "False"
  | VInt z => of_Z z
  | VFloat x => repr x
  | VStr s => s
  | VDate t => isoformat t
  end.

Definition datetime_eqb (a b : datetime) : bool :=
  (year a =? year b) && (month a =? month b) && (day a =? day b)
  && (hour a =? hour b) && (minute a =? minute b)
  && (second a =? second b) && (microsecond a =? microsecond b).

Definition Z_of_bool (b : bool) : Z := if b then 1 else 0.

(** [a == b]: numbers compare by value across [bool], [int] and [float];
    a NaN equals nothing. *)
Definition py_eq (a b : cell) : bool :=
  match a, b with
  | VNone, VNone => true
  | VBool x, VBool y => Bool.eqb x y
  | VBool x, VInt z | VInt z, VBool x => Z_of_bool x =? z
  | VBool x, VFloat f | VFloat f, VBool x => float_eq_int f (Z_of_bool x)
  | VInt x, VInt y => x =? y
  | VInt z, VFloat f | VFloat f, VInt z => float_eq_int f z
  | VFloat x, VFloat y => (x =? y)%float
  | VStr x, VStr y => str_eqb x y
  | VDate x, VDate y => datetime_eqb x y
  | _, _ => false
  end.

(** The elements of [set(l)]: one representative of every class of equal
    values. *)
Definition distinct (l : list cell) : list cell :=
  fold_left (fun seen v => if existsb (py_eq v) seen then seen
                           else seen ++ [v]) l [].

End Cell.

Module Dict.
Import PyStr.

(** A [dict] with string keys, in insertion order. *)
Definition dict (V : Type) := list (pystr * V).

Fixpoint dict_get {V} (d : dict V) (k : pystr) : option V :=
  match d with
  | [] => None
  | (k', v) :: d' => if str_eqb k' k then Some v else dict_get d' k
  end.

Definition dict_mem {V} (d : dict V) (k : pystr) : bool :=
  match dict_get d k with Some _ => true | None => false end.

(** [d[k] = v]: an existing key keeps its place. *)
Fixpoint dict_set {V} (d : dict V) (k : pystr) (v : V) : dict V :=
  match d with
  | [] => [(k, v)]
  | (k', v') :: d' =>
    if str_eqb k' k then (k', v) :: d' else (k', v') :: dict_set d' k v
  end.

End Dict.

(* ================================================================== *)
(** * [difflib.SequenceMatcher(None, a, b).ratio()] *)
(* ================================================================== *)

Module Difflib.
Import PyStr PyFloat.

Section Matcher.
Variables a b : pystr.

Definition count_in (x : N) (s : pystr) : Z :=
  Z.of_nat (List.length (filter (cp_eqb x) s)).

(** With 200 elements or more, an element that makes up more than one
    per cent of [b] is dropped from the index. *)
Definition popular (x : N) : bool :=
  (200 <=? len b) && (len b / 100 + 1 <? count_in x b).

Fixpoint indices_from (s : pystr) (x : N) (j : Z) : list Z :=
  match s with
  | [] => []
  | c :: s' => (if cp_eqb c x then [j] else []) ++ indices_from s' x (j + 1)
  end.

(** [b2j.get(x, [])]: the places of [x] in [b], ascending. *)
Definition b2j (x : N) : list Z :=
  if popular x then [] else indices_from b x 0.

Definition at_ (s : pystr) (i : Z) : N := nth (Z.to_nat i) s 0%N.

Definition lookup_len (j2len : list (Z * Z)) (j : Z) : Z :=
  match find (fun p => fst p =? j) j2len with
  | Some (_, k) => k
  | None => 0
  end.

Fixpoint range (lo : Z) (n : nat) : list Z :=
  match n with O => [] | S n' => lo :: range (lo + 1) n' end.

(** The scan of [find_longest_match] over row [i]. *)
Definition scan_row (blo bhi : Z) (j2len : list (Z * Z))
    (best : Z * Z * Z) (i : Z) : list (Z * Z) * (Z * Z * Z) :=
  fold_left
    (fun '(newj2len, (besti, bestj, bestsize)) j =>
       if (j <? blo) || (bhi <=? j) then (newj2len, (besti, bestj, bestsize))
       else
         let k := lookup_len j2len (j - 1) + 1 in
         ((j, k) :: newj2len,
          if bestsize <? k then (i - k + 1, j - k + 1, k)
          else (besti, bestj, bestsize)))
    (b2j (at_ a i)) ([], best).

Fixpoint extend_left (fuel : nat) (alo blo : Z) (m : Z * Z * Z) : Z * Z * Z :=
  let '(besti, bestj, bestsize) := m in
  match fuel with
  | O => m
  | S fuel' =>
    if (alo <? besti) && (blo <? bestj)
       && cp_eqb (at_ a (besti - 1)) (at_ b (bestj - 1))
    then extend_left fuel' alo blo (besti - 1, bestj - 1, bestsize + 1)
    else m
  end.

Fixpoint extend_right (fuel : nat) (ahi bhi : Z) (m : Z * Z * Z) : Z * Z * Z :=
  let '(besti, bestj, bestsize) := m in
  match fuel with
  | O => m
  | S fuel' =>
    if (besti + bestsize <? ahi) && (bestj + bestsize <? bhi)
       && cp_eqb (at_ a (besti + bestsize)) (at_ b (bestj + bestsize))
    then extend_right fuel' ahi bhi (besti, bestj, bestsize + 1)
    else m
  end.

Definition find_longest_match (alo ahi blo bhi : Z) : Z * Z * Z :=
  let '(_, best) :=
    fold_left (fun '(j2len, best) i => scan_row blo bhi j2len best i)
              (range alo (Z.to_nat (ahi - alo))) ([], (alo, blo, 0)) in
  extend_right (List.length a) ahi bhi
    (extend_left (List.length a) alo blo best).

(** Total size of the matching blocks of [a[alo:ahi]] and [b[blo:bhi]]. *)
Fixpoint matched (fuel : nat) (alo ahi blo bhi : Z) : Z :=
  match fuel with
  | O => 0
  | S fuel' =>
    let '(i, j, k) := find_longest_match alo ahi blo bhi in
    if k =? 0 then 0
    else
      k
      + (if (alo <? i) && (blo <? j) then matched fuel' alo i blo j else 0)
      + (if (i + k <? ahi) && (j + k <? bhi)
         then matched fuel' (i + k) ahi (j + k) bhi else 0)
  end.

(** [ratio()]: twice the matched characters over the two lengths. *)
Definition ratio : float :=
  let total := len a + len b in
  if total =? 0 then 1.0%float
  else
    (2.0 * of_int (matched (S (List.length a)) 0 (len a) 0 (len b))
     / of_int total)%float.

End Matcher.
End Difflib.

(* ================================================================== *)
(** * [config.py] and [core/processor.py] *)
(* ================================================================== *)

Module Config.
Definition SIMILARITY_THRESHOLD : float := 0.6%float.
Definition COLUMN_SIMILARITY_THRESHOLD : float := 0.5%float.
End Config.

Module Processor.
Import PyStr PyFloat PyDate Cell Dict.

Record SheetInfo := mkSheetInfo {
  name : pystr;
  header_row : Z;
  data_start_row : Z;
  columns : list pystr;
  row_count : Z;
  data_types : dict pystr;
  sample_data : list (list cell)
}.

Record FileStructure := mkFileStructure {
  file_path : pystr;
  file_name : pystr;
  sheets : list SheetInfo;
  error_message : option pystr
}.

(** [if structure.error_message:] *)
Definition has_error (fs : FileStructure) : bool :=
  match error_message fs with
  | Some m => nonempty m
  | None => false
  end.

(** ** Header-row detection *)

(** [[cell for cell in row_data if cell is not None]] *)
Definition non_empty_cells (row_data : list cell) : list cell :=
  filter (fun cell => negb (is_none cell)) row_data.

(** The score of one row, [None] when the loop skips the row. *)
Definition row_score (row_idx : Z) (row_data : list cell) : option float :=
  if negb (existsb truthy row_data) then None
  else
    let non_empty_cells := non_empty_cells row_data in
    let n := Z.of_nat (List.length non_empty_cells) in
    if n <? 2 then None
    else
      let text_count := Z.of_nat (List.length (filter is_str non_empty_cells)) in
      let text_ratio := truediv text_count n in
      let unique_values := distinct non_empty_cells in
      let unique_ratio := truediv (Z.of_nat (List.length unique_values)) n in
      let empty_count := Z.of_nat (List.length (filter is_none row_data)) in
      let empty_ratio :=
        truediv empty_count (Z.of_nat (List.length row_data)) in
      let position_score := truediv (10 - row_idx) 10 in
      Some (text_ratio * 0.4 + unique_ratio * 0.3
            + (1 - empty_ratio) * 0.2 + position_score * 0.1)%float.

(** The loop over the rows, from row [row_idx] on. *)
Fixpoint header_loop (rows : list (list cell)) (row_idx : Z)
    (best_row : Z) (best_score : float) : Z * float :=
  match rows with
  | [] => (best_row, best_score)
  | row_data :: rows' =>
    match row_score row_idx row_data with
    | None => header_loop rows' (row_idx + 1) best_row best_score
    | Some total_score =>
      if (best_score <? total_score)%float
      then header_loop rows' (row_idx + 1) row_idx total_score
      else header_loop rows' (row_idx + 1) best_row best_score
    end
  end.

(** Index of the header row, [-1] when there is none. *)
Definition _detect_header_row (data : list (list cell)) : Z :=
  match data with
  | [] => -1
  | _ =>
    let '(best_row, best_score) := header_loop (firstn 10 data) 0 (-1) 0 in
    if (0.5 <? best_score)%float then best_row else -1
  end.

(** ** Similarity of two identifiers *)

Definition synonym_dict : dict (list pystr) :=
  map (fun '(k, vs) => (py k, map py vs))
  [ ("이름", ["성명"; "name"; "성함"; "이름"]);
    ("성명", ["이름"; "name"; "성함"]);
    ("name", ["이름"; "성명"; "성함"]);
    ("나이", ["연령"; "age"; "연세"]);
    ("연령", ["나이"; "age"; "연세"]);
    ("age", ["나이"; "연령"; "연세"]);
    ("부서", ["부서명"; "department"; "소속"; "소속부서"; "팀"]);
    ("부서명", ["부서"; "department"; "소속"; "소속부서"]);
    ("department", ["부서"; "부서명"; "소속"; "소속부서"]);
    ("소속부서", ["부서"; "부서명"; "department"]);
    ("입사일", ["입사일자"; "hire_date"; "hiredate"; "입사_일"; "채용일"]);
    ("입사일자", ["입사일"; "hire_date"; "hiredate"; "입사_일"]);
    ("hire_date", ["입사일"; "입사일자"; "채용일"]);
    ("hiredate", ["입사일"; "입사일자"; "채용일"]);
    ("연봉", ["급여"; "salary"; "월급"; "연봉정보"; "급료"]);
    ("급여", ["연봉"; "salary"; "월급"; "급료"]);
    ("salary", ["연봉"; "급여"; "월급"; "급료"]);
    ("월급", ["연봉"; "급여"; "salary"; "급료"]);
    ("직원정보", ["employee_info"; "employee info"; "사원정보"; "직원 정보"]);
    ("employee_info", ["직원정보"; "사원정보"; "직원 정보"]);
    ("employee info", ["직원정보"; "사원정보"; "직원 정보"]) ]%string.

Section Similarity.
Context {U : PyUnicode}.

(** The characters [normalize_string] deletes: [[\s\-_\(\)\[\]\.]]. *)
Definition is_separator (c : N) : bool :=
  is_space c
  || existsb (cp_eqb c) [45; 95; 40; 41; 91; 93; 46]%N.

Definition normalize_string (s : pystr) : pystr :=
  filter (fun c => negb (is_separator c)) (strip (lower s)).

(** [str2_lower in [s.lower() for s in synonym_dict[str1_lower]]], false
    when [str1_lower] is no key. *)
Definition direct_synonym (str1_lower str2_lower : pystr) : bool :=
  match dict_get synonym_dict str1_lower with
  | Some synonyms => existsb (str_eqb str2_lower) (map lower synonyms)
  | None => false
  end.

(** Both strings contain a word of the cluster of one key. *)
Definition partial_synonym (str1_lower str2_lower : pystr) : bool :=
  existsb
    (fun '(key, synonyms) =>
       let words := lower key :: map lower synonyms in
       existsb (fun word => contains word str1_lower) words
       && existsb (fun word => contains word str2_lower) words)
    synonym_dict.

Definition _check_synonyms (str1 str2 : pystr) : float :=
  let str1_lower := strip (lower str1) in
  let str2_lower := strip (lower str2) in
  if direct_synonym str1_lower str2_lower then 0.95%float
  else if direct_synonym str2_lower str1_lower then 0.95%float
  else if partial_synonym str1_lower str2_lower then 0.8%float
  else 0.0%float.

(** [set(re.findall(r'\w+', s.lower()))] *)
Definition word_set (s : pystr) : list pystr :=
  fold_left (fun seen w => if existsb (str_eqb w) seen then seen
                           else seen ++ [w])
            (findall is_word (lower s)) [].

Definition calculate_similarity (str1 str2 : pystr) : float :=
  if negb (nonempty str1) || negb (nonempty str2) then 0.0%float
  else
    let normalized_str1 := normalize_string str1 in
    let normalized_str2 := normalize_string str2 in
    if str_eqb normalized_str1 normalized_str2 then 1.0%float
    else
      let synonym_score := _check_synonyms str1 str2 in
      if (0 <? synonym_score)%float then synonym_score
      else if contains normalized_str1 normalized_str2
              || contains normalized_str2 normalized_str1 then
        let shorter_len := Z.min (len normalized_str1) (len normalized_str2) in
        let longer_len := Z.max (len normalized_str1) (len normalized_str2) in
        (truediv shorter_len longer_len * 0.9)%float
      else
        let basic_similarity :=
          Difflib.ratio normalized_str1 normalized_str2 in
        let words1 := word_set str1 in
        let words2 := word_set str2 in
        match words1, words2 with
        | _ :: _, _ :: _ =>
          let common_words :=
            filter (fun w => existsb (str_eqb w) words2) words1 in
          let word_similarity :=
            truediv (Z.of_nat (List.length common_words))
                    (Z.max (Z.of_nat (List.length words1))
                           (Z.of_nat (List.length words2))) in
          (basic_similarity * 0.7 + word_similarity * 0.3)%float
        | _, _ => basic_similarity
        end.

(** ** Matching sheets and columns *)

(** The inner loop of both matchers: the first candidate of the highest
    score among those [skip] lets through, when that score reaches the
    threshold. *)
Fixpoint best_candidate (skip : pystr -> bool) (threshold : float)
    (ref : pystr) (targets : list pystr)
    (best_match : option pystr) (best_score : float) : option pystr :=
  match targets with
  | [] => best_match
  | target :: targets' =>
    if skip target then
      best_candidate skip threshold ref targets' best_match best_score
    else
      let score := calculate_similarity ref target in
      if (best_score <? score)%float && (threshold <=? score)%float
      then best_candidate skip threshold ref targets' (Some target) score
      else best_candidate skip threshold ref targets' best_match best_score
  end.

(** [if best_match:] *)
Definition found (best_match : option pystr) : option pystr :=
  match best_match with
  | Some t => if nonempty t then Some t else None
  | None => None
  end.

Definition match_sheets (reference_sheets target_sheets : list pystr)
    (threshold : option float) : dict pystr :=
  let threshold :=
    match threshold with
    | Some t => t
    | None => Config.SIMILARITY_THRESHOLD
    end in
  fold_left
    (fun matches ref_sheet =>
       match found (best_candidate (fun _ => false) threshold ref_sheet
                                   target_sheets None 0) with
       | Some best_match => dict_set matches ref_sheet best_match
       | None => matches
       end)
    reference_sheets [].

(** The candidate [match_sheets] chooses for one reference sheet. *)
Definition sheet_choice (threshold : float) (targets : list pystr)
    (ref : pystr) : option pystr :=
  found (best_candidate (fun _ => false) threshold ref targets None 0).

(** One turn of the outer loop of [match_columns] on the pair of the
    mapping and the set of used targets. *)
Definition match_column_step (target_columns : list pystr)
    (threshold : float) (st : dict pystr * list pystr) (ref_col : pystr)
  : dict pystr * list pystr :=
  let '(matches, used_targets) := st in
  match found (best_candidate (fun t => existsb (str_eqb t) used_targets)
                              threshold ref_col target_columns None 0) with
  | Some best_match =>
    (dict_set matches ref_col best_match, best_match :: used_targets)
  | None => st
  end.

(** What the outer loop of [match_columns] keeps true: every matched
    target is marked as used, and no target is matched to two columns. *)
Definition columns_invariant (st : dict pystr * list pystr) : Prop :=
  (forall k v, dict_get (fst st) k = Some v -> In v (snd st))
  /\ (forall k1 k2 v1 v2,
        k1 <> k2 -> dict_get (fst st) k1 = Some v1 ->
        dict_get (fst st) k2 = Some v2 -> v1 <> v2).

Definition match_columns (reference_columns target_columns : list pystr)
    (threshold : option float) : dict pystr :=
  let threshold :=
    match threshold with
    | Some t => t
    | None => Config.COLUMN_SIMILARITY_THRESHOLD
    end in
  fst (fold_left (match_column_step target_columns threshold)
                 reference_columns ([], [])).

End Similarity.

(** ** Data types of the columns *)

(** One position of the date patterns of [_is_date_string]: a digit, an
    optional digit (the second of [\d{1,2}]), or a given character. *)
Inductive pitem := PD | PDopt | PC (c : N).

(** [re.match] of a pattern at the head of [s]. *)
Fixpoint pmatch (p : list pitem) (s : pystr) : bool :=
  match p with
  | [] => true
  | PD :: p' =>
    match s with
    | c :: s' => is_digit c && pmatch p' s'
    | [] => false
    end
  | PDopt :: p' =>
    match s with
    | c :: s' => is_digit c && pmatch p' s'
    | [] => false
    end || pmatch p' s
  | PC x :: p' =>
    match s with
    | c :: s' => cp_eqb c x && pmatch p' s'
    | [] => false
    end
  end.

Definition d4 : list pitem := [PD; PD; PD; PD].
Definition d12 : list pitem := [PD; PDopt].

Definition date_patterns : list (list pitem) :=
  [ d4 ++ [PC 45] ++ d12 ++ [PC 45] ++ d12;      (* YYYY-MM-DD *)
    d4 ++ [PC 47] ++ d12 ++ [PC 47] ++ d12;      (* YYYY/MM/DD *)
    d12 ++ [PC 47] ++ d12 ++ [PC 47] ++ d4;      (* MM/DD/YYYY *)
    d12 ++ [PC 45] ++ d12 ++ [PC 45] ++ d4;      (* MM-DD-YYYY *)
    d4 ++ [PC 46] ++ d12 ++ [PC 46] ++ d12 ]%N.  (* YYYY.MM.DD *)

Definition _is_date_string (value : pystr) : bool :=
  existsb (fun pattern => pmatch pattern (strip value)) date_patterns.

(** The three classes [_infer_data_type] counts. *)
Inductive sample_class := NumberSample | DateSample | TextSample.

Definition classify_sample (value : cell) : sample_class :=
  match value with
  | VBool _ | VInt _ | VFloat _ => NumberSample
  | VDate _ => DateSample
  | VStr s =>
    match float_of_str (remove_char 44%N s) with
    | Some _ => NumberSample
    | None => if _is_date_string s then DateSample else TextSample
    end
  | VNone => TextSample
  end.

Definition count_class (k : sample_class) (sample_values : list cell) : Z :=
  Z.of_nat
    (List.length
       (filter (fun v => match classify_sample v, k with
                         | NumberSample, NumberSample => true
                         | DateSample, DateSample => true
                         | TextSample, TextSample => true
                         | _, _ => false
                         end) sample_values)).

(** [_infer_data_type]; [None] is the [ZeroDivisionError] of an empty
    list of samples. *)
Definition _infer_data_type (sample_values : list cell) : option pystr :=
  let number_count := count_class NumberSample sample_values in
  let date_count := count_class DateSample sample_values in
  let total := Z.of_nat (List.length sample_values) in
  if total =? 0 then None
  else if (0.7 <? truediv number_count total)%float then Some (py "number")
  else if (0.5 <? truediv date_count total)%float then Some (py "date")
  else Some (py "text").

(** The samples of column [col_idx]: the cells that are not [None] in the
    ten rows after the header. *)
Definition column_samples (data : list (list cell)) (data_start : Z)
    (col_idx : nat) : list cell :=
  flat_map (fun row => match nth_error row col_idx with
                       | Some VNone | None => []
                       | Some v => [v]
                       end)
           (firstn 10 (skipn (Z.to_nat data_start) data)).

(** The loop of [_analyze_data_types] from column [col_idx] on. *)
Fixpoint data_types_loop (data : list (list cell)) (data_start : Z)
    (columns : list pystr) (col_idx : nat) (data_types : dict pystr)
  : dict pystr :=
  match columns with
  | [] => data_types
  | col_name :: rest =>
    let sample_values := column_samples data data_start col_idx in
    data_types_loop data data_start rest (S col_idx)
      (dict_set data_types col_name
         match sample_values with
         | [] => py "text"
         | _ => match _infer_data_type sample_values with
                | Some t => t
                | None => py "text"
                end
         end)
  end.

Definition _analyze_data_types (data : list (list cell)) (header_row : Z)
    (columns : list pystr) : dict pystr :=
  data_types_loop data (header_row + 1) columns O [].

(** ** Analysis of one sheet *)

(** What [_analyze_sheet] reads of a worksheet: its extent and its cell
    values, rows and columns counted from 1. *)
Record Worksheet := mkWorksheet {
  max_row : Z;
  max_column : Z;
  cell_value : Z -> Z -> cell
}.

(** A cell as [_analyze_sheet] keeps it: blank text counts as empty. *)
Definition processed_cell (v : cell) : cell :=
  match v with
  | VStr s => if nonempty (strip s) then v else VNone
  | _ => v
  end.

Fixpoint count_from (lo : Z) (n : nat) : list Z :=
  match n with
  | O => []
  | S n' => lo :: count_from (lo + 1) n'
  end.

(** The rows [iter_rows] yields, processed. *)
Definition sheet_data (ws : Worksheet) (rows cols : Z) : list (list cell) :=
  map (fun r => map (fun c => processed_cell (cell_value ws r c))
                    (count_from 1 (Z.to_nat cols)))
      (count_from 1 (Z.to_nat rows)).

(** The names of the columns: the text of the header cell, or the word
    for column and the position for an empty one. *)
Fixpoint column_names (headers : list cell) (i : Z) : list pystr :=
  match headers with
  | [] => []
  | h :: rest =>
    (if is_none h then py "열" ++ of_Z (i + 1) else str_of h)
      :: column_names rest (i + 1)
  end.

Definition _analyze_sheet (ws : Worksheet) (sheet_name : pystr)
  : option SheetInfo :=
  let rows := if max_row ws =? 0 then 0 else Z.min (max_row ws) 100 in
  let cols := if max_column ws =? 0 then 0 else Z.min (max_column ws) 50 in
  if (rows =? 0) || (cols =? 0) then None
  else
    let data := sheet_data ws rows cols in
    let header_row := _detect_header_row data in
    if header_row =? -1 then None
    else
      let headers := nth (Z.to_nat header_row) data [] in
      let columns := column_names headers 0 in
      let data_start_row := header_row + 1 in
      let actual_row_count := max_row ws in
      Some (mkSheetInfo sheet_name header_row data_start_row columns
              (actual_row_count - data_start_row)
              (_analyze_data_types data header_row columns)
              (if data_start_row <? Z.of_nat (List.length data)
               then firstn 5 (skipn (Z.to_nat data_start_row) data)
               else [])).

End Processor.

(* ================================================================== *)
(** * [core/normalizer.py] *)
(* ================================================================== *)

Module Normalizer.
Import PyStr PyFloat PyDate Cell Dict.

(** The values of the ['change_type'] key of a log entry. *)
Inductive change_type :=
| number_format | date_format | text_format
| remove_empty_rows | sheet_mapping | column_mapping.

(** One entry of [change_logs]. *)
Record log_entry := mklog {
  file_name : pystr;
  sheet_name : pystr;
  row_index : Z;
  column_name : pystr;
  kind : change_type;
  original_value : cell;
  new_value : cell;
  timestamp : pystr
}.

(** What the normalizer mutates: its [change_logs] list, and how many
    times the wall clock has been read. *)
Record nstate := mkstate {
  change_logs : list log_entry;
  ticks : nat
}.

(** An entry written by the normalization of cells or by the removal of
    empty rows, as opposed to one the controller writes for a mapping. *)
Definition cell_level (e : log_entry) : Prop :=
  kind e <> sheet_mapping /\ kind e <> column_mapping.

Definition only_cell_level (st : nstate) : Prop :=
  Forall cell_level (change_logs st).

(** A format standard: the [dict] of one column, every key optional. *)
Record standard := mkstandard {
  std_type : option pystr;
  std_decimal_places : option Z;
  std_thousands_separator : option bool;
  std_format : option pystr;
  std_trim_whitespace : option bool;
  std_normalize_spaces : option bool;
  std_case : option pystr
}.

Definition empty_standard : standard :=
  mkstandard None None None None None None None.

(** [d.get(key, default)] *)
Definition get {A} (o : option A) (default : A) : A :=
  match o with Some v => v | None => default end.

(** A data frame: its columns in order, every column with one cell per row
    and no name twice. *)
Definition DataFrame := list (pystr * list cell).

Section WithClock.
(** [now n] is the time the wall clock shows when it is read for the
    [n]-th time. *)
Variable now : nat -> datetime.
Context {U : PyUnicode}.

(** ** Logging *)

(** [_log_change_dict]: appends one entry.  The call of [_log_change] that
    follows it does nothing, the class defining no [change_log]. *)
Definition _log_change_dict (st : nstate) (file_name sheet_name : pystr)
    (row_index : Z) (column_name : pystr) (change : change_type)
    (original_value new_value : cell) : nstate :=
  let log_entry :=
    mklog file_name sheet_name row_index column_name change
          original_value new_value
          (strftime (now (ticks st)) (py "%Y-%m-%d %H:%M:%S")) in
  mkstate (change_logs st ++ [log_entry]) (S (ticks st)).

(** The loop [for idx, value in series.items()] with its assignments to
    [result.iloc[idx]]: [body] gives the new cell and the new state. *)
Fixpoint series_loop (body : Z -> cell -> nstate -> cell * nstate)
    (series : list cell) (idx : Z) (st : nstate) : list cell * nstate :=
  match series with
  | [] => ([], st)
  | value :: rest =>
    let '(v, st1) := body idx value st in
    let '(vs, st2) := series_loop body rest (idx + 1) st1 in
    (v :: vs, st2)
  end.

(** What every branch does once it has a converted value: store it, and
    log it when its text differs from the text of the original. *)
Definition store (st : nstate) (file_name sheet_name : pystr) (idx : Z)
    (column_name : pystr) (change : change_type)
    (original_value converted_value : cell) : cell * nstate :=
  (converted_value,
   if negb (str_eqb (str_of original_value) (str_of converted_value))
   then _log_change_dict st file_name sheet_name idx column_name change
                         original_value converted_value
   else st).

(** ** Numbers *)

(** The converted value of a cell, [None] when there is none or the
    conversion raises. *)
Definition convert_number (decimal_places : Z) (value : cell) : option float :=
  let rounded x :=
    if 0 <=? decimal_places then round_ndigits x decimal_places else x in
  match value with
  | VStr s => option_map rounded (float_of_str (remove_char 44%N s))
  | VBool b => Some (rounded (of_int (Z_of_bool b)))
  | VInt z => Some (rounded (of_int z))
  | VFloat x => Some (rounded x)
  | _ => None
  end.

Definition _normalize_numbers_cell (standard : standard)
    (column_name file_name sheet_name : pystr)
    (idx : Z) (value : cell) (st : nstate) : cell * nstate :=
  let decimal_places := get (std_decimal_places standard) 2 in
  if isna value then (value, st)
  else
    match convert_number decimal_places value with
    | Some converted_value =>
      store st file_name sheet_name idx column_name number_format
            value (VFloat converted_value)
    | None => (value, st)
    end.

Definition _normalize_numbers (series : list cell) (standard : standard)
    (column_name file_name sheet_name : pystr) (st : nstate)
  : list cell * nstate :=
  series_loop
    (_normalize_numbers_cell standard column_name file_name sheet_name)
    series 0 st.

(** ** Dates *)

Definition date_formats : list pystr :=
  map py
  [ "%Y-%m-%d"; "%Y/%m/%d"; "%m/%d/%Y"; "%d/%m/%Y";
    "%Y.%m.%d"; "%m.%d.%Y"; "%d.%m.%Y";
    "%Y-%m-%d %H:%M:%S"; "%Y/%m/%d %H:%M:%S";
    "%Y.%m.%d %H:%M:%S"; "%m.%d.%Y %H:%M:%S";
    "%Y년 %m월 %d일"; "%Y년%m월%d일";
    "%y-%m-%d"; "%y/%m/%d"; "%m/%d/%y"; "%d/%m/%y";
    "%y.%m.%d"; "%m.%d.%y"; "%d.%m.%y";
    "%d.%m.%Y"; "%d.%m.%y";
    "%Y%m%d"; "%y%m%d";
    "%B %d, %Y"; "%b %d, %Y" ]%string.

Definition _is_target_format (date_str target_format : pystr) : bool :=
  match strptime date_str target_format with
  | Some parsed => str_eqb (strftime parsed target_format) date_str
  | None => false
  end.

(** [int(numbers[i])], 0 for an index out of range (never consulted: three
    numbers are there). *)
Definition int_at (numbers : list pystr) (i : nat) : Z :=
  match nth_error numbers i with
  | Some n => value_of n
  | None => 0
  end.

Definition len_at (numbers : list pystr) (i : nat) : Z :=
  match nth_error numbers i with
  | Some n => len n
  | None => 0
  end.

(** The year, month and day [_parse_date_with_regex] reads off the runs of
    digits, three of them at least. *)
Definition infer_ymd (numbers : list pystr) : Z * Z * Z :=
  let last := (List.length numbers - 1)%nat in
  if len_at numbers 0 =? 4 then
    (int_at numbers 0, int_at numbers 1, int_at numbers 2)
  else if len_at numbers last =? 4 then
    (int_at numbers 2, int_at numbers 0, int_at numbers 1)
  else if len_at numbers 1 =? 4 then
    (int_at numbers 1, int_at numbers 2, int_at numbers 0)
  else
    let year_candidate :=
      if len_at numbers last =? 2 then int_at numbers last
      else int_at numbers 0 in
    let year :=
      if year_candidate <? 50 then 2000 + year_candidate
      else 1900 + year_candidate in
    if (len_at numbers 0 =? 2) && (year_candidate =? int_at numbers 0)
    then (year, int_at numbers 1, int_at numbers 2)
    else (year, int_at numbers 0, int_at numbers 1).

Definition _parse_date_with_regex (date_str target_format : pystr)
  : option pystr :=
  let numbers := findall is_digit date_str in
  if 3 <=? Z.of_nat (List.length numbers) then
    let '(year, month, day) := infer_ymd numbers in
    if (1 <=? month) && (month <=? 12) && (1 <=? day) && (day <=? 31)
       && (1900 <=? year) && (year <=? 2100)
    then
      match make_datetime year month day 0 0 0 0 with
      | Some parsed_date => Some (strftime parsed_date target_format)
      | None => None
      end
    else None
  else None.

(** The first of [formats] that parses [value_str], rendered in the
    target format. *)
Fixpoint try_formats (formats : list pystr) (value_str target_format : pystr)
  : option pystr :=
  match formats with
  | [] => None
  | fmt :: formats' =>
    match strptime value_str fmt with
    | Some parsed_date => Some (strftime parsed_date target_format)
    | None => try_formats formats' value_str target_format
    end
  end.

(** A serial day number of a spreadsheet as a date. *)
Definition excel_date (delta : option timedelta) : option datetime :=
  match delta with
  | Some d => datetime_add (mkdt 1900 1 1 0 0 0 0) d
  | None => None
  end.

(** The converted value of a cell, [None] when the loop leaves the cell as
    it is. *)
Definition convert_date (target_format : pystr) (value : cell)
  : option pystr :=
  let serial (in_range : bool) (delta : option timedelta) :=
    if in_range then
      option_map (fun t => strftime t target_format) (excel_date delta)
    else None in
  match value with
  | VDate t => Some (strftime t target_format)
  | VBool b =>
    let n := Z_of_bool b in
    serial ((1 <=? n) && (n <=? 2958465)) (timedelta_days (n - 2))
  | VInt n =>
    serial ((1 <=? n) && (n <=? 2958465)) (timedelta_days (n - 2))
  | VFloat x =>
    serial (int_le_float 1 x && float_le_int x 2958465)
           (timedelta_days_float (x - 2)%float)
  | VStr s =>
    let value_str := strip s in
    if negb (nonempty value_str) then None
    else if _is_target_format value_str target_format then Some value_str
    else
      match try_formats date_formats value_str target_format with
      | Some converted_value => Some converted_value
      | None => _parse_date_with_regex value_str target_format
      end
  | VNone => None
  end.

Definition _normalize_dates_cell (standard : standard)
    (column_name file_name sheet_name : pystr)
    (idx : Z) (value : cell) (st : nstate) : cell * nstate :=
  let target_format := get (std_format standard) (py "%Y-%m-%d") in
  if isna value then (value, st)
  else
    match convert_date target_format value with
    | Some converted_value =>
      store st file_name sheet_name idx column_name date_format
            value (VStr converted_value)
    | None => (value, st)
    end.

Definition _normalize_dates (series : list cell) (standard : standard)
    (column_name file_name sheet_name : pystr) (st : nstate)
  : list cell * nstate :=
  series_loop
    (_normalize_dates_cell standard column_name file_name sheet_name)
    series 0 st.

(** ** Text *)

Definition case_is (case_normalization : option pystr) (s : string) : bool :=
  match case_normalization with
  | Some c => str_eqb c (py s)
  | None => false
  end.

Definition _normalize_text_cell (standard : standard)
    (column_name file_name sheet_name : pystr)
    (idx : Z) (value : cell) (st : nstate) : cell * nstate :=
  let trim_whitespace := get (std_trim_whitespace standard) true in
  let normalize_spaces := get (std_normalize_spaces standard) true in
  let case_normalization := std_case standard in
  if isna value then (value, st)
  else
    let converted_value := str_of value in
    let converted_value :=
      if trim_whitespace then strip converted_value else converted_value in
    let converted_value :=
      if normalize_spaces then collapse_spaces converted_value
      else converted_value in
    let converted_value :=
      if case_is case_normalization "upper" then upper converted_value
      else if case_is case_normalization "lower" then lower converted_value
      else if case_is case_normalization "title" then title converted_value
      else converted_value in
    store st file_name sheet_name idx column_name text_format
          value (VStr converted_value).

Definition _normalize_text (series : list cell) (standard : standard)
    (column_name file_name sheet_name : pystr) (st : nstate)
  : list cell * nstate :=
  series_loop
    (_normalize_text_cell standard column_name file_name sheet_name)
    series 0 st.

(** ** A column, and a data frame *)

Definition _normalize_column (series : list cell) (standard : standard)
    (column_name file_name sheet_name : pystr) (st : nstate)
  : list cell * nstate :=
  let data_type := get (std_type standard) (py "text") in
  if str_eqb data_type (py "number") then
    _normalize_numbers series standard column_name file_name sheet_name st
  else if str_eqb data_type (py "date") then
    _normalize_dates series standard column_name file_name sheet_name st
  else if str_eqb data_type (py "text") then
    _normalize_text series standard column_name file_name sheet_name st
  else (series, st).

(** [len(df)]: with no duplicate name every column has this length. *)
Definition nrows (df : DataFrame) : nat :=
  match df with
  | [] => O
  | (_, series) :: _ => List.length series
  end.

(** Row [i] is empty: every column is missing there. *)
Definition row_all_na (df : DataFrame) (i : nat) : bool :=
  forallb (fun '(_, series) => isna (nth i series VNone)) df.

(** [series] without the rows that are empty in [df]. *)
Fixpoint keep_rows (df : DataFrame) (series : list cell) (i : nat)
  : list cell :=
  match series with
  | [] => []
  | v :: rest =>
    if row_all_na df i then keep_rows df rest (S i)
    else v :: keep_rows df rest (S i)
  end.

(** [df.dropna(how='all')] and [reset_index(drop=True)] *)
Definition dropna_all (df : DataFrame) : DataFrame :=
  map (fun '(c, series) => (c, keep_rows df series O)) df.

Definition _clean_data (df : DataFrame) (file_name sheet_name : pystr)
    (st : nstate) : DataFrame * nstate :=
  let empty_rows_before := nrows df in
  let cleaned_df := dropna_all df in
  let empty_rows_after := nrows cleaned_df in
  (cleaned_df,
   if negb (Nat.eqb empty_rows_before empty_rows_after) then
     _log_change_dict st file_name sheet_name (-1) (py "ALL_COLUMNS")
       remove_empty_rows
       (VStr (of_Z (Z.of_nat empty_rows_before) ++ py "행"))
       (VStr (of_Z (Z.of_nat empty_rows_after) ++ py "행"))
   else st).

(** The loop of [normalize_data] over the columns of the frame. *)
Fixpoint normalize_columns (df : DataFrame)
    (format_standards : dict standard) (file_name sheet_name : pystr)
    (st : nstate) : DataFrame * nstate :=
  match df with
  | [] => ([], st)
  | (column, series) :: df' =>
    let '(series', st1) :=
      match dict_get format_standards column with
      | Some standard =>
        _normalize_column series standard column file_name sheet_name st
      | None => (series, st)
      end in
    let '(rest, st2) :=
      normalize_columns df' format_standards file_name sheet_name st1 in
    ((column, series') :: rest, st2)
  end.

(** [normalize_data]: starts from an empty [change_logs], normalizes every
    column that has a standard, then drops the empty rows. *)
Definition normalize_data (df : DataFrame) (format_standards : dict standard)
    (file_name sheet_name : pystr) (st : nstate) : DataFrame * nstate :=
  let st0 := mkstate [] (ticks st) in
  let '(normalized_df, st1) :=
    normalize_columns df format_standards file_name sheet_name st0 in
  _clean_data normalized_df file_name sheet_name st1.

(** ** Format standards of the reference *)

Definition common_formats : list pystr :=
  map py ["%Y-%m-%d"; "%Y/%m/%d"; "%m/%d/%Y"; "%d/%m/%Y"; "%Y.%m.%d"]%string.

(** The first of the common formats that parses a sample. *)
Definition first_format (value : pystr) : option pystr :=
  find (fun fmt => match strptime (strip value) fmt with
                   | Some _ => true
                   | None => false
                   end) common_formats.

Definition format_count (sample_data : list cell) (fmt : pystr) : nat :=
  List.length
    (filter (fun v =>
               match v with
               | VStr s => match first_format s with
                           | Some f => str_eqb f fmt
                           | None => false
                           end
               | VDate _ => str_eqb fmt (py "%Y-%m-%d")
               | _ => false
               end) sample_data).

(** [max(format_counts, key=format_counts.get)]: the first format of the
    highest count. *)
Definition _analyze_date_format (sample_data : list cell) : standard :=
  let best_format :=
    fold_left (fun best fmt =>
                 if Nat.ltb (format_count sample_data best)
                            (format_count sample_data fmt)
                 then fmt else best)
              common_formats (py "%Y-%m-%d") in
  mkstandard None None None (Some best_format) None None None.

(** One turn of the case analysis of [_analyze_text_format]. *)
Definition case_step (case_pattern : option pystr) (value : pystr)
  : option pystr :=
  let not_mixed := negb (case_is case_pattern "mixed") in
  let next (c : string) :=
    match case_pattern with
    | None => Some (py c)
    | Some _ => Some (py "mixed")
    end in
  if isupper value && not_mixed then next "upper"%string
  else if islower value && not_mixed then next "lower"%string
  else if istitle value && not_mixed then next "title"%string
  else Some (py "mixed").

Definition text_samples (sample_data : list cell) : list pystr :=
  flat_map (fun v => match v with VStr s => [s] | _ => [] end) sample_data.

Definition _analyze_text_format (sample_data : list cell) : standard :=
  let samples := text_samples sample_data in
  let has_leading_trailing_spaces :=
    existsb (fun value => negb (str_eqb value (strip value))) samples in
  let has_multiple_spaces := existsb has_space_run samples in
  let case_pattern := fold_left case_step samples None in
  mkstandard None None None None
    (Some has_leading_trailing_spaces) (Some has_multiple_spaces)
    (if case_is case_pattern "mixed" then None else case_pattern).

End WithClock.

(** ** Summary of the log *)

(** The text of a change type, as the entries hold it. *)
Definition change_type_name (k : change_type) : pystr :=
  match k with
  | number_format => py "number_format"
  | date_format => py "date_format"
  | text_format => py "text_format"
  | remove_empty_rows => py "remove_empty_rows"
  | sheet_mapping => py "sheet_mapping"
  | column_mapping => py "column_mapping"
  end.

(** [get_change_summary]: how many entries every change type has. *)
Definition get_change_summary (st : nstate) : dict Z :=
  fold_left
    (fun summary change =>
       let change_type := change_type_name (kind change) in
       dict_set summary change_type (get (dict_get summary change_type) 0 + 1))
    (change_logs st) [].

(** The rows at which two series differ as text, counted from [idx]: the
    cells whose change [store] logs. *)
Fixpoint changed_rows (series result : list cell) (idx : Z) : list Z :=
  match series, result with
  | v :: series', v' :: result' =>
    (if negb (str_eqb (str_of v) (str_of v')) then [idx] else [])
    ++ changed_rows series' result' (idx + 1)
  | _, _ => []
  end.

(** How many entries of the log have the change type [k]. *)
Definition entries_of (k : change_type) (st : nstate) : Z :=
  Z.of_nat
    (List.length
       (filter (fun e => str_eqb (change_type_name (kind e))
                                 (change_type_name k))
               (change_logs st))).

(** Every column of the frame has [n] rows. *)
Definition rows_are (n : nat) (df : DataFrame) : Prop :=
  Forall (fun column => List.length (snd column) = n) df.



(** The rows of [df], from row [i] on, that are not empty. *)
Definition kept_rows (df : DataFrame) (i n : nat) : list nat :=
  filter (fun j => negb (row_all_na df j)) (seq i n).

End Normalizer.

(* ================================================================== *)
(** * [core/controller.py] *)
(* ================================================================== *)

Module Controller.
Import PyStr PyFloat PyDate Cell Dict Processor Normalizer.

(** The stages of a run, as [_update_progress] announces them. *)
Inductive stage :=
| AnalyzeReference
| ValidateCompatibility
| ExtractFormatStandards
| ProcessFile (i : nat)
| Combine
| ValidateQuality
| Save.

(** How a run ends. *)
Inductive outcome :=
| Completed
| CompletedWithWarnings
| Cancelled
| Failed (message : pystr).

(** The result [dict] of a validation. *)
Record validation_result := mkvalidation {
  success : bool;
  message : pystr;
  issues : list pystr
}.

(** What a run leaves behind. *)
Record run := mkrun {
  result : outcome;
  progress : list stage;       (* the stages announced, in order *)
  normalizer : nstate;         (* the normalizer, with its [change_logs] *)
  error_log : list pystr       (* [self.change_logs] of the controller *)
}.

Definition nl : pystr := [10%N].

(** [sep.join(parts)] *)
Fixpoint join (sep : pystr) (parts : list pystr) : pystr :=
  match parts with
  | [] => []
  | [p] => p
  | p :: rest => p ++ sep ++ join sep rest
  end.

Section WithWorld.
Context {U : PyUnicode}.
(** The collaborators of the controller that read and write files:
    - [read_file_structure path]: the analysis of a file by the processor;
    - [read_sheet_data path sheet]: the data of a sheet, or the message of
      the exception it raises;
    - [path_name path]: [Path(path).name];
    - [now]: the wall clock; [is_cancelled n]: the flag [cancel_merge]
      sets from the interface, as read at the [n]-th poll;
    - [combine], [validate_merged], [save]: the last three stages, which
      concatenate frames with pandas, inspect the result and write it. *)
Variable read_file_structure : pystr -> FileStructure.
Variable read_sheet_data : pystr -> pystr -> pystr + DataFrame.
Variable path_name : pystr -> pystr.
Variable now : nat -> datetime.
Variable is_cancelled : nat -> bool.
Variable combine :
  dict (list DataFrame) -> FileStructure -> nstate -> pystr + dict DataFrame.
Variable validate_merged : dict DataFrame -> FileStructure -> validation_result.
Variable save : dict DataFrame -> pystr -> option pystr.

Definition sheet_names (fs : FileStructure) : list pystr :=
  map name (sheets fs).

(** ** Compatibility validation *)

(** The issue the loop records for one candidate file, if any; [i] counts
    the files from 1. *)
Definition compatibility_issue (ref_sheet_names : list pystr)
    (i : Z) (merge_file : pystr) : option pystr :=
  let file_structure := read_file_structure merge_file in
  let label :=
    py "파일 " ++ of_Z i ++ py " (" ++ path_name merge_file ++ py "): " in
  if has_error file_structure then Some (label ++ py "구조 분석 실패")
  else
    let merge_sheet_names := sheet_names file_structure in
    let sheet_mappings := match_sheets ref_sheet_names merge_sheet_names None in
    match sheet_mappings with
    | [] => Some (label ++ py "매칭되는 시트가 없음")
    | _ => None
    end.

Fixpoint compatibility_issues (ref_sheet_names : list pystr) (i : Z)
    (merge_files : list pystr) : list pystr :=
  match merge_files with
  | [] => []
  | merge_file :: rest =>
    match compatibility_issue ref_sheet_names i merge_file with
    | Some issue => [issue]
    | None => []
    end ++ compatibility_issues ref_sheet_names (i + 1) rest
  end.

(** The text of at most five issues, and how many more there are. *)
Definition issues_text (all : list pystr) : pystr :=
  join nl (map (fun issue => py "  - " ++ issue) (firstn 5 all))
  ++ (if 5 <? Z.of_nat (List.length all)
      then nl ++ py "  - ... 및 " ++ of_Z (Z.of_nat (List.length all) - 5)
              ++ py "개 추가 문제"
      else []).

Definition _validate_files_compatibility (reference_file : pystr)
    (merge_files : list pystr) : validation_result :=
  let ref_structure := read_file_structure reference_file in
  if has_error ref_structure then
    mkvalidation false
      (py "원본 파일 분석 실패: " ++ get (error_message ref_structure) [])
      []
  else
    let ref_sheet_names := sheet_names ref_structure in
    let compatibility_issues :=
      compatibility_issues ref_sheet_names 1 merge_files in
    match compatibility_issues with
    | _ :: _ =>
      mkvalidation false
        (py "호환성 문제가 발견되었습니다:" ++ nl
         ++ issues_text compatibility_issues)
        compatibility_issues
    | [] => mkvalidation true (py "호환성 검수 통과") []
    end.

(** ** Format standards of the reference *)

(** [df[column].dropna().head(10).tolist()] *)
Definition samples (series : list cell) : list cell :=
  firstn 10 (filter (fun v => negb (isna v)) series).

(** The text after the last ['.'] of [s]. *)
Definition after_last_dot (s : pystr) : pystr :=
  fold_left (fun acc c => if (c =? 46)%N then [] else acc ++ [c]) s [].

Definition _analyze_number_format (sample_data : list cell) : standard :=
  let has_dot s := existsb (N.eqb 46) s in
  let places s := if has_dot s then len (after_last_dot s) else 0 in
  let decimal_places :=
    fold_left (fun acc v =>
                 match v with
                 | VStr s => Z.max acc (places s)
                 | VFloat x => Z.max acc (places (repr x))
                 | _ => acc
                 end) sample_data 0 in
  let has_thousands_separator :=
    existsb (fun v => match v with
                      | VStr s => existsb (N.eqb 44) s
                      | _ => false
                      end) sample_data in
  mkstandard None (Some decimal_places) (Some has_thousands_separator)
             None None None None.

(** [standard.update(analysis)] on [{'type': data_type}] *)
Definition with_type (data_type : pystr) (s : standard) : standard :=
  mkstandard (Some data_type) (std_decimal_places s)
    (std_thousands_separator s) (std_format s) (std_trim_whitespace s)
    (std_normalize_spaces s) (std_case s).

Definition extract_format_standards (df : DataFrame)
    (data_types : dict pystr) : dict standard :=
  fold_left
    (fun standards '(column, series) =>
       match dict_get data_types column with
       | None => standards
       | Some data_type =>
         let sample_data := samples series in
         let analysis :=
           if str_eqb data_type (py "number")
           then _analyze_number_format sample_data
           else if str_eqb data_type (py "date")
           then _analyze_date_format sample_data
           else if str_eqb data_type (py "text")
           then _analyze_text_format sample_data
           else empty_standard in
         dict_set standards column (with_type data_type analysis)
       end)
    df [].

Definition _extract_format_standards (reference_structure : FileStructure)
  : dict (dict standard) :=
  fold_left
    (fun format_standards sheet =>
       dict_set format_standards (name sheet)
         match read_sheet_data (file_path reference_structure) (name sheet) with
         | inr df => extract_format_standards df (data_types sheet)
         | inl _ =>
           fold_left
             (fun d col =>
                dict_set d col
                  (with_type (get (dict_get (data_types sheet) col) (py "text"))
                             empty_standard))
             (columns sheet) []
         end)
    (sheets reference_structure) [].

(** ** One candidate file *)

(** [df.empty] *)
Definition df_empty (df : DataFrame) : bool :=
  match df with
  | [] => true
  | _ => Nat.eqb (nrows df) 0
  end.

Definition none_column (n : nat) : list cell := repeat VNone n.

(** [_align_columns]: the reference columns in their order, each with the
    data of the candidate column mapped to it, or empty. *)
Definition _align_columns (df : DataFrame) (reference_columns : list pystr)
    (column_mappings : dict pystr) : DataFrame :=
  let n :=
    if existsb (fun ref_col =>
                  match dict_get column_mappings ref_col with
                  | Some source_col => dict_mem df source_col
                  | None => false
                  end) reference_columns
    then nrows df else O in
  fold_left
    (fun aligned_df ref_col =>
       dict_set aligned_df ref_col
         match dict_get column_mappings ref_col with
         | Some source_col => get (dict_get df source_col) (none_column n)
         | None => none_column n
         end)
    reference_columns [].

(** The log entries of the mappings whose two names differ. *)
Definition log_mappings (st : nstate) (mappings : dict pystr)
    (entry : nstate -> pystr -> pystr -> nstate) : nstate :=
  fold_left
    (fun st '(ref_name, target_name) =>
       if negb (str_eqb ref_name target_name)
       then entry st ref_name target_name else st)
    mappings st.

(** The body of the loop over the mapped sheets: the frame of one sheet,
    [None] when the sheet is skipped, or the message of an exception. *)
Definition process_sheet (merge_file file_name : pystr)
    (reference_structure : FileStructure)
    (format_standards : dict (dict standard))
    (ref_sheet_name target_sheet_name : pystr) (st : nstate)
  : (pystr + option DataFrame) * nstate :=
  match find (fun s => str_eqb (name s) ref_sheet_name)
             (sheets reference_structure) with
  | None => (inr None, st)
  | Some ref_sheet =>
    match read_sheet_data merge_file target_sheet_name with
    | inl e => (inl e, st)
    | inr df =>
      if df_empty df then (inr None, st)
      else
        let column_mappings :=
          match_columns (columns ref_sheet) (map fst df) None in
        let st1 :=
          log_mappings st column_mappings
            (fun st ref_col target_col =>
               _log_change_dict now st file_name ref_sheet_name (-1) ref_col
                 column_mapping (VStr target_col) (VStr ref_col)) in
        let aligned_df :=
          _align_columns df (columns ref_sheet) column_mappings in
        match dict_get format_standards ref_sheet_name with
        | None => (inl (py "'" ++ ref_sheet_name ++ py "'"), st1)
        | Some standards =>
          let '(normalized_df, st2) :=
            normalize_data now aligned_df standards file_name
                           ref_sheet_name st1 in
          (inr (Some (dict_set normalized_df (py "_source_file")
                        (repeat (VStr file_name) (nrows normalized_df)))),
           st2)
        end
    end
  end.

Fixpoint process_sheets (merge_file file_name : pystr)
    (reference_structure : FileStructure)
    (format_standards : dict (dict standard))
    (sheet_mappings : dict pystr) (result_data : dict DataFrame)
    (st : nstate) : (pystr + dict DataFrame) * nstate :=
  match sheet_mappings with
  | [] => (inr result_data, st)
  | (ref_sheet_name, target_sheet_name) :: rest =>
    match process_sheet merge_file file_name reference_structure
                        format_standards ref_sheet_name target_sheet_name st
    with
    | (inl e, st1) => (inl e, st1)
    | (inr r, st1) =>
      process_sheets merge_file file_name reference_structure
        format_standards rest
        match r with
        | Some df => dict_set result_data ref_sheet_name df
        | None => result_data
        end
        st1
    end
  end.

(** [_process_merge_file]: the frames of the file by reference sheet, or
    the message of the exception it raises; the normalizer keeps what was
    logged either way. *)
Definition _process_merge_file (merge_file : pystr)
    (reference_structure : FileStructure)
    (format_standards : dict (dict standard)) (st : nstate)
  : (pystr + dict DataFrame) * nstate :=
  let file_name := path_name merge_file in
  let wrap (e : pystr) :=
    py "파일 처리 오류 (" ++ file_name ++ py "): " ++ e in
  let file_structure := read_file_structure merge_file in
  if has_error file_structure then
    (inl (wrap (py "파일 분석 실패: "
                ++ get (error_message file_structure) [])), st)
  else
    let reference_sheet_names := sheet_names reference_structure in
    let target_sheet_names := sheet_names file_structure in
    let sheet_mappings :=
      match_sheets reference_sheet_names target_sheet_names None in
    let st1 :=
      log_mappings st sheet_mappings
        (fun st ref_sheet target_sheet =>
           _log_change_dict now st file_name ref_sheet (-1) (py "SHEET_NAME")
             sheet_mapping (VStr target_sheet) (VStr ref_sheet)) in
    match process_sheets merge_file file_name reference_structure
                         format_standards sheet_mappings [] st1 with
    | (inl e, st2) => (inl (wrap e), st2)
    | (inr result_data, st2) => (inr result_data, st2)
    end.

(** ** The run *)

(** The state of a run between two stages. *)
Record cstate := mkcstate {
  norm : nstate;
  errors : list pystr;     (* [self.change_logs] of the controller *)
  polls : nat;             (* reads of [is_cancelled] so far *)
  trace : list stage
}.

Definition announce (s : stage) (c : cstate) : cstate :=
  mkcstate (norm c) (errors c) (polls c) (trace c ++ [s]).

Definition polled (c : cstate) : cstate :=
  mkcstate (norm c) (errors c) (S (polls c)) (trace c).

Definition finish (o : outcome) (c : cstate) : run :=
  mkrun o (trace c) (norm c) (errors c).

(** [_log_error]: one line with the time in the controller's own log. *)
Definition _log_error (error_message : pystr) (c : cstate) : cstate :=
  let st := norm c in
  let timestamp := strftime (now (ticks st)) (py "%Y-%m-%d %H:%M:%S") in
  mkcstate (mkstate (change_logs st) (S (ticks st)))
           (errors c ++ [py "[" ++ timestamp ++ py "] " ++ error_message])
           (polls c) (trace c).

(** Stage 4: the candidate files one after the other; [None] when the run
    is cancelled after a file. *)
Fixpoint process_files (merge_files : list pystr) (i : nat)
    (reference_structure : FileStructure)
    (format_standards : dict (dict standard))
    (merged_data : dict (list DataFrame)) (c : cstate)
  : option (dict (list DataFrame)) * cstate :=
  match merge_files with
  | [] => (Some merged_data, c)
  | merge_file :: rest =>
    let c := announce (ProcessFile i) c in
    let '(r, st) :=
      _process_merge_file merge_file reference_structure format_standards
                          (norm c) in
    let c := mkcstate st (errors c) (polls c) (trace c) in
    let '(merged_data, c) :=
      match r with
      | inr file_data =>
        (fold_left
           (fun merged '(sheet_name, df) =>
              dict_set merged sheet_name
                       (get (dict_get merged sheet_name) [] ++ [df]))
           file_data merged_data, c)
      | inl e =>
        (merged_data,
         _log_error (py "파일 처리 오류 (" ++ path_name merge_file
                     ++ py "): " ++ e) c)
      end in
    if is_cancelled (polls c) then (None, polled c)
    else process_files rest (S i) reference_structure format_standards
                       merged_data (polled c)
  end.

(** The processing of the file raises an error. *)
Definition file_fails (merge_file : pystr)
    (reference_structure : FileStructure)
    (format_standards : dict (dict standard)) : bool :=
  match fst (_process_merge_file merge_file reference_structure
               format_standards (mkstate [] O)) with
  | inl _ => true
  | inr _ => false
  end.

(** [_merge_process], started with the normalizer in state [st]. *)
Definition _merge_process (reference_file : pystr)
    (merge_files : list pystr) (output_file : pystr) (st : nstate) : run :=
  let c := announce AnalyzeReference (mkcstate st [] O []) in
  let reference_structure := read_file_structure reference_file in
  if has_error reference_structure then
    finish (Failed (py "원본 파일 분석 실패: "
                    ++ get (error_message reference_structure) [])) c
  else
    match sheets reference_structure with
    | [] => finish (Failed (py "원본 파일에 유효한 시트가 없습니다.")) c
    | _ :: _ =>
      if is_cancelled (polls c) then finish Cancelled (polled c)
      else
        let c := announce ValidateCompatibility (polled c) in
        let validation_result :=
          _validate_files_compatibility reference_file merge_files in
        if negb (success validation_result) then
          finish (Failed (py "파일 호환성 검수 실패: "
                          ++ message validation_result)) c
        else if is_cancelled (polls c) then finish Cancelled (polled c)
        else
          let c := announce ExtractFormatStandards (polled c) in
          let format_standards :=
            _extract_format_standards reference_structure in
          if is_cancelled (polls c) then finish Cancelled (polled c)
          else
            match process_files merge_files O reference_structure
                                format_standards [] (polled c) with
            | (None, c) => finish Cancelled c
            | (Some merged_data, c) =>
              let c := announce Combine c in
              match combine merged_data reference_structure (norm c) with
              | inl e => finish (Failed e) c
              | inr combined_data =>
                if is_cancelled (polls c) then finish Cancelled (polled c)
                else
                  let c := announce ValidateQuality (polled c) in
                  let quality :=
                    validate_merged combined_data reference_structure in
                  let c :=
                    if success quality then c
                    else _log_error (py "데이터 품질 검증 경고: "
                                     ++ message quality) c in
                  if is_cancelled (polls c) then finish Cancelled (polled c)
                  else
                    let c := announce Save (polled c) in
                    match save combined_data output_file with
                    | Some e => finish (Failed e) c
                    | None =>
                      finish (if success quality then Completed
                              else CompletedWithWarnings) c
                    end
              end
            end
    end.

End WithWorld.

(** What the standard [std] of a column owes the type [t] the analysis
    gave the column: the type itself, for a number a count of decimal
    places that is not negative and the flag of the thousands separator,
    for a date one of the common formats. *)
Definition follows_type (t : pystr) (std : standard) : Prop :=
  std_type std = Some t
  /\ (t = py "number" ->
      exists places flag,
        std_decimal_places std = Some places /\ 0 <= places
        /\ std_thousands_separator std = Some flag)
  /\ (t = py "date" ->
      exists fmt, std_format std = Some fmt /\ In fmt common_formats).

(** The stages of a run over [n] candidate files that reaches its end:
    six stages and one for every file. *)
Definition all_stages (n : nat) : list stage :=
  [AnalyzeReference; ValidateCompatibility; ExtractFormatStandards]
  ++ map ProcessFile (seq 0 n) ++ [Combine; ValidateQuality; Save].

End Controller.

(* ================================================================== *)
(** * [utils/helpers.py] *)
(* ================================================================== *)

Module Helpers.
Import PyStr.

(** The characters of [forbidden_chars]: angle brackets, colon, double
    quote, slash, backslash, bar, question mark and star. *)
Definition forbidden_chars : list N := [60; 62; 58; 34; 47; 92; 124; 63; 42]%N.

Definition is_forbidden (c : N) : bool := existsb (cp_eqb c) forbidden_chars.

(** The loop of [replace(char, '_')] over the forbidden characters. *)
Definition replace_forbidden (s : pystr) : pystr :=
  map (fun c => if is_forbidden c then 95%N else c) s.

(** [s.replace('__', '_')]: every pair of underscores, taken from the
    left without overlap, becomes one. *)
Fixpoint replace_pairs (s : pystr) : pystr :=
  match s with
  | [] => []
  | c :: s' =>
    match s' with
    | d :: s'' =>
      if (c =? 95)%N && (d =? 95)%N then 95%N :: replace_pairs s''
      else c :: replace_pairs s'
    | [] => [c]
    end
  end.

(** [while '__' in s: s = s.replace('__', '_')], at most [fuel] turns. *)
Fixpoint collapse_underscores (fuel : nat) (s : pystr) : pystr :=
  match fuel with
  | O => s
  | S fuel' =>
    if contains [95; 95]%N s then collapse_underscores fuel' (replace_pairs s)
    else s
  end.

(** [s.strip(' .')] *)
Definition is_space_or_dot (c : N) : bool := (c =? 32)%N || (c =? 46)%N.

Fixpoint lstrip_chars (s : pystr) : pystr :=
  match s with
  | c :: s' => if is_space_or_dot c then lstrip_chars s' else s
  | [] => []
  end.

Definition strip_chars (s : pystr) : pystr :=
  rev (lstrip_chars (rev (lstrip_chars s))).

(** [create_safe_filename]; the loop needs fewer turns than the name has
    characters. *)
Definition create_safe_filename (filename : pystr) : pystr :=
  let safe_name := replace_forbidden filename in
  let safe_name := collapse_underscores (List.length safe_name) safe_name in
  let safe_name := strip_chars safe_name in
  if nonempty safe_name then safe_name else py "unnamed_file".

End Helpers.

(* ================================================================== *)
(** * Two small runs, used as examples *)
(* ================================================================== *)

Module Scenario.
Import PyStr PyFloat PyDate Cell Dict Processor Normalizer Controller.
Local Open Scope string_scope.

Definition clock (n : nat) : datetime := mkdt 2024 1 1 9 0 (Z.of_nat n) 0.

(** [Path(path).name] of a path without directories. *)
Definition base_name (path : pystr) : pystr := path.

Definition never_cancelled (n : nat) : bool := false.

Definition sheet (sheet_name : string) (cols : list string) : SheetInfo :=
  mkSheetInfo (py sheet_name) 0 1 (map py cols) 1
              (map (fun c => (py c, py "text")) cols) [].

Definition unreadable (path : pystr) : FileStructure :=
  mkFileStructure path path [] (Some (py "유효하지 않은 파일입니다.")).

(** A reference file with the sheet [Employees], and two candidates: one
    with the sheet [Inventory], one with the sheet [employees]. *)
Definition files (path : pystr) : FileStructure :=
  if str_eqb path (py "ref.xlsx") then
    mkFileStructure path path [sheet "Employees" ["name"]] None
  else if str_eqb path (py "stock.xlsx") then
    mkFileStructure path path [sheet "Inventory" ["item"]] None
  else if str_eqb path (py "staff.xlsx") then
    mkFileStructure path path [sheet "employees" ["Name"]] None
  else unreadable path.

Definition data (path sheet_name : pystr) : pystr + DataFrame :=
  if str_eqb path (py "ref.xlsx") then inr [(py "name", [VStr (py "bob")])]
  else if str_eqb path (py "staff.xlsx")
  then inr [(py "Name", [VStr (py "ALICE")])]
  else if str_eqb path (py "stock.xlsx")
  then inr [(py "item", [VStr (py "bolt")])]
  else inl (py "시트 데이터 읽기 오류").

(** The last three stages, reduced to their control flow: the frames of
    every sheet are put one after the other, the result passes the quality
    check, and saving succeeds. *)
Definition concat_frames (frames : list DataFrame) : DataFrame :=
  match frames with
  | [] => []
  | first :: _ =>
    map (fun '(column, _) =>
           (column,
            flat_map (fun df => get (dict_get df column)
                                    (none_column (nrows df))) frames))
        first
  end.

Definition combine (merged_data : dict (list DataFrame))
    (reference_structure : FileStructure) (st : nstate)
  : pystr + dict DataFrame :=
  inr (map (fun '(sheet_name, frames) => (sheet_name, concat_frames frames))
           merged_data).

Definition validate_merged (combined_data : dict DataFrame)
    (reference_structure : FileStructure) : validation_result :=
  mkvalidation true (py "데이터 품질 검증 통과") [].

Definition save (combined_data : dict DataFrame) (output_file : pystr)
  : option pystr := None.

(** A run on the files above, started with an empty log. *)
Definition merge (merge_files : list string) : run :=
  @_merge_process latin files data base_name clock never_cancelled
    combine validate_merged save
    (py "ref.xlsx") (map py merge_files) (py "out.xlsx") (mkstate [] 0).

(** The entry the controller logs for the sheet [employees] of
    [staff.xlsx], matched to the reference sheet [Employees]. *)
Definition staff_sheet_mapping : log_entry :=
  mklog (py "staff.xlsx") (py "Employees") (-1) (py "SHEET_NAME")
        sheet_mapping (VStr (py "employees")) (VStr (py "Employees"))
        (py "2024-01-01 09:00:00").

(** A worksheet of three rows and two columns: a header and two rows of
    data. *)
Definition roster : Worksheet :=
  mkWorksheet 3 2
    (fun r c =>
       if (r =? 1)%Z
       then if (c =? 1)%Z then VStr (py "name") else VStr (py "age")
       else if (c =? 1)%Z then VStr (py "kim") else VInt (28 + r)).


End Scenario.

(* ================================================================== *)
(** * Part II: the properties *)
(* ================================================================== *)
(* ================================================================== *)
(** * Facts about strings and dictionaries *)
(* ================================================================== *)

Section StringFacts.
Import PyStr Dict.

Lemma str_eqb_refl (s : pystr) : str_eqb s s = true.
Proof.
  induction s as [|c s IH]; simpl; [reflexivity|].
  unfold cp_eqb. now rewrite N.eqb_refl.
Qed.

Lemma str_eqb_eq (a b : pystr) : str_eqb a b = true <-> a = b.
Proof.
  split.
  - revert b. induction a as [|x a IH]; intros [|y b] H; simpl in H;
      try discriminate; [reflexivity|].
    apply andb_true_iff in H as [Hc Hs].
    apply N.eqb_eq in Hc. apply IH in Hs. now subst.
  - intros ->. apply str_eqb_refl.
Qed.

Lemma str_eqb_neq (a b : pystr) : str_eqb a b = false <-> a <> b.
Proof.
  split.
  - intros H E. apply str_eqb_eq in E. congruence.
  - intros H. destruct (str_eqb a b) eqn:E; [|reflexivity].
    apply str_eqb_eq in E. contradiction.
Qed.

Lemma existsb_str_eqb_In (t : pystr) (l : list pystr) :
  existsb (str_eqb t) l = true <-> In t l.
Proof.
  rewrite existsb_exists. split.
  - intros (x & Hx & E). apply str_eqb_eq in E. now subst.
  - intros H. exists t. split; [assumption|apply str_eqb_refl].
Qed.

Lemma dict_get_set_same {V} (d : dict V) (k : pystr) (v : V) :
  dict_get (dict_set d k v) k = Some v.
Proof.
  induction d as [|[k' v'] d IH]; simpl.
  - now rewrite str_eqb_refl.
  - destruct (str_eqb k' k) eqn:E; simpl; rewrite E; [reflexivity|exact IH].
Qed.

Lemma dict_get_set_other {V} (d : dict V) (k k' : pystr) (v : V) :
  k <> k' -> dict_get (dict_set d k v) k' = dict_get d k'.
Proof.
  intros Hk. induction d as [|[k0 v0] d IH]; simpl.
  - apply str_eqb_neq in Hk. now rewrite Hk.
  - destruct (str_eqb k0 k) eqn:E; simpl.
    + apply str_eqb_eq in E. subst k0.
      apply str_eqb_neq in Hk. now rewrite Hk.
    + destruct (str_eqb k0 k'); [reflexivity|exact IH].
Qed.

(** A string without white space is its own [strip]. *)
Lemma strip_no_space (s : pystr) :
  Forall (fun c => is_space c = false) s -> strip s = s.
Proof.
  intros H.
  assert (L : forall t, Forall (fun c => is_space c = false) t -> lstrip t = t).
  { intros [|c t] Ht; [reflexivity|]. simpl.
    inversion Ht as [|? ? Hc _]; subst. now rewrite Hc. }
  unfold strip, rstrip. rewrite (L s H).
  rewrite L; [apply rev_involutive|].
  apply Forall_rev. exact H.
Qed.

End StringFacts.

(* ================================================================== *)
(** * Similarity and matching ([processor.py]) *)
(* ================================================================== *)

Section SimilarityFacts.
Import PyStr Dict Processor.
Context {U : PyUnicode}.

(** C5. The similarity of a non-empty string with itself is exactly 1.0,
    and the similarity of the empty string with any string, on either
    side, is 0.0. *)
Theorem C5_similarity_self_and_empty (c : N) (a x : pystr) :
  calculate_similarity (c :: a) (c :: a) = 1.0%float
  /\ calculate_similarity [] x = 0.0%float
  /\ calculate_similarity x [] = 0.0%float.
Proof.
  split; [|split].
  - unfold calculate_similarity. simpl nonempty. simpl negb. simpl orb.
    now rewrite str_eqb_refl.
  - reflexivity.
  - unfold calculate_similarity. destruct x; reflexivity.
Qed.

(** The inner loop returns the match it started with or a candidate that
    [skip] let through. *)
Lemma best_candidate_not_skipped skip threshold ref targets best score t :
  best_candidate skip threshold ref targets best score = Some t ->
  best = Some t \/ (skip t = false /\ In t targets).
Proof.
  revert best score.
  induction targets as [|g targets IH]; intros best score H; simpl in H.
  - now left.
  - destruct (skip g) eqn:Hs.
    + apply IH in H as [H|[H1 H2]]; [now left|right; split; [assumption|now right]].
    + destruct (_ && _) in H.
      * apply IH in H as [H|[H1 H2]].
        -- injection H as ->. right. split; [assumption|now left].
        -- right. split; [assumption|now right].
      * apply IH in H as [H|[H1 H2]]; [now left|right; split; [assumption|now right]].
Qed.

Lemma match_column_step_invariant targets threshold st ref_col :
  columns_invariant st ->
  columns_invariant (match_column_step targets threshold st ref_col).
Proof.
  destruct st as [matches used]. intros [Hused Hinj].
  unfold match_column_step.
  destruct (found _) as [best|] eqn:Hf; [|split; assumption].
  assert (Hfresh : ~ In best used).
  { unfold found in Hf.
    destruct (best_candidate _ _ _ _ _ _) as [t|] eqn:Hb; [|discriminate].
    destruct (nonempty t); [|discriminate]. injection Hf as ->.
    apply best_candidate_not_skipped in Hb as [Hb|[Hb _]]; [discriminate|].
    intros Hin. apply existsb_str_eqb_In in Hin. simpl in Hb. congruence. }
  split.
  - intros k v Hk. cbn [fst snd] in *.
    destruct (list_eq_dec N.eq_dec ref_col k) as [->|Hne].
    + rewrite dict_get_set_same in Hk. injection Hk as ->. now left.
    + rewrite dict_get_set_other in Hk by assumption. right. eauto.
  - intros k1 k2 v1 v2 Hne H1 H2. cbn [fst snd] in *.
    destruct (list_eq_dec N.eq_dec ref_col k1) as [E1|N1];
      destruct (list_eq_dec N.eq_dec ref_col k2) as [E2|N2].
    + congruence.
    + subst k1. rewrite dict_get_set_same in H1. injection H1 as <-.
      rewrite dict_get_set_other in H2 by assumption.
      intros ->. eauto.
    + subst k2. rewrite dict_get_set_same in H2. injection H2 as <-.
      rewrite dict_get_set_other in H1 by assumption.
      intros <-. eauto.
    + rewrite dict_get_set_other in H1, H2 by assumption. eauto.
Qed.

Lemma match_columns_loop_invariant targets threshold refs st :
  columns_invariant st ->
  columns_invariant (fold_left (match_column_step targets threshold) refs st).
Proof.
  revert st. induction refs as [|r refs IH]; intros st H; simpl;
    [assumption|].
  apply IH. now apply match_column_step_invariant.
Qed.

(** Column matching never gives one candidate column to two reference
    columns. *)
Lemma match_columns_injective refs targets threshold r1 r2 t1 t2 :
  r1 <> r2 ->
  dict_get (match_columns refs targets threshold) r1 = Some t1 ->
  dict_get (match_columns refs targets threshold) r2 = Some t2 ->
  t1 <> t2.
Proof.
  unfold match_columns.
  set (th := match threshold with Some t => t | None => _ end).
  assert (H : columns_invariant
                (fold_left (match_column_step targets th) refs ([], []))).
  { apply match_columns_loop_invariant. split; simpl; intros; discriminate. }
  destruct H as [_ Hinj]. intros Hne H1 H2. exact (Hinj _ _ _ _ Hne H1 H2).
Qed.

End SimilarityFacts.

Section MatchingClaims.
Import PyStr Dict Processor.

(** C4. For every list of reference columns, list of candidate columns and
    threshold, two distinct reference columns are never mapped to the same
    candidate column; sheet matching has no such exclusivity: the two
    reference sheets [Data] and [data] both map to the candidate sheet
    [DATA]. *)
Theorem C4_columns_exclusive_sheets_shared :
  (forall (U : PyUnicode) refs targets threshold r1 r2 t1 t2,
      r1 <> r2 ->
      dict_get (match_columns refs targets threshold) r1 = Some t1 ->
      dict_get (match_columns refs targets threshold) r2 = Some t2 ->
      t1 <> t2)
  /\ (let m := @match_sheets latin [py "Data"; py "data"] [py "DATA"] None in
      py "Data" <> py "data"
      /\ dict_get m (py "Data") = Some (py "DATA")
      /\ dict_get m (py "data") = Some (py "DATA")).
Proof.
  split.
  - intros U. apply match_columns_injective.
  - cbv zeta. split; [discriminate|]. split; vm_compute; reflexivity.
Qed.

(** The columns of the end-to-end scenario of the specification: every
    reference column finds its own candidate column. *)
Lemma C4_witness :
  let m := @match_columns latin [py "이름"; py "부서"; py "연봉"]
             [py "성명"; py "소속부서"; py "급여"] None in
  dict_get m (py "이름") = Some (py "성명")
  /\ dict_get m (py "부서") = Some (py "소속부서")
  /\ py "성명" <> py "소속부서".
Proof.
  cbv zeta.
  assert (H1 : dict_get (@match_columns latin [py "이름"; py "부서"; py "연봉"]
             [py "성명"; py "소속부서"; py "급여"] None) (py "이름")
          = Some (py "성명")) by (vm_compute; reflexivity).
  assert (H2 : dict_get (@match_columns latin [py "이름"; py "부서"; py "연봉"]
             [py "성명"; py "소속부서"; py "급여"] None) (py "부서")
          = Some (py "소속부서")) by (vm_compute; reflexivity).
  split; [exact H1|]. split; [exact H2|].
  refine (proj1 C4_columns_exclusive_sheets_shared latin _ _ _ _ _ _ _ _ H1 H2).
  vm_compute. discriminate.
Defined.

End MatchingClaims.

(* ================================================================== *)
(** * Header detection ([processor.py]) *)
(* ================================================================== *)

Section HeaderFacts.
Import PyStr Cell Processor.






End HeaderFacts.

(* ================================================================== *)
(** * Text format extraction ([normalizer.py]) *)
(* ================================================================== *)

Section TextFormatFacts.
Import PyStr Cell Normalizer.
Context {U : PyUnicode}.

Lemma case_step_mixed (value : pystr) :
  case_step (Some (py "mixed")) value = Some (py "mixed").
Proof.
  unfold case_step.
  replace (case_is (Some (py "mixed")) "mixed") with true
    by (symmetry; apply str_eqb_refl).
  simpl negb. rewrite !andb_false_r. reflexivity.
Qed.

Lemma case_loop_mixed (samples : list pystr) :
  fold_left case_step samples (Some (py "mixed")) = Some (py "mixed").
Proof.
  induction samples as [|v samples IH]; simpl; [reflexivity|].
  now rewrite case_step_mixed.
Qed.

(** Whatever the pattern found so far, one more string sample makes it
    ['mixed']. *)
Lemma case_step_after_first (c : pystr) (value : pystr) :
  case_step (Some c) value = Some (py "mixed").
Proof.
  unfold case_step.
  destruct (isupper value && _); [reflexivity|].
  destruct (islower value && _); [reflexivity|].
  destruct (istitle value && _); reflexivity.
Qed.

Lemma case_step_first (value : pystr) :
  exists c, case_step None value = Some c.
Proof.
  unfold case_step.
  destruct (isupper value && _); [eauto|].
  destruct (islower value && _); [eauto|].
  destruct (istitle value && _); eauto.
Qed.

(** As soon as two of the samples are strings the profile has no case
    rule, whatever their case. *)
Lemma two_strings_no_case_rule (sample_data : list cell) :
  (2 <= List.length (text_samples sample_data))%nat ->
  std_case (_analyze_text_format sample_data) = None.
Proof.
  intros H. unfold _analyze_text_format. cbn [std_case].
  destruct (text_samples sample_data) as [|v1 [|v2 rest]];
    simpl in H; try lia.
  simpl fold_left.
  destruct (case_step_first v1) as [c ->].
  rewrite case_step_after_first, case_loop_mixed.
  replace (case_is (Some (py "mixed")) "mixed") with true
    by (symmetry; apply str_eqb_refl).
  reflexivity.
Qed.

End TextFormatFacts.

Section TextFormatClaims.
Import PyStr Cell Normalizer.

(** C7. The samples [AB] and [CD] are both uppercase, and yet the profile
    extracted from them has no case rule: the claim that unanimous
    uppercase samples give the rule ['upper'] fails on this input, while
    one uppercase sample alone does give it. *)
Theorem C7_unanimous_upper_samples_lose_the_rule :
  @isupper latin (py "AB") = true /\ @isupper latin (py "CD") = true
  /\ std_case (@_analyze_text_format latin [VStr (py "AB"); VStr (py "CD")])
     = None
  /\ std_case (@_analyze_text_format latin [VStr (py "AB")])
     = Some (py "upper").
Proof.
  repeat split; vm_compute; reflexivity.
Qed.

End TextFormatClaims.

(* ================================================================== *)
(** * Number normalization ([normalizer.py]) *)
(* ================================================================== *)

Section NumberClaims.
Import PyStr PyFloat PyDate Cell Normalizer.

(** C8. Under a number standard with [decimal_places = 2], the string cell
    [1,234.567] becomes the float 1234.57, and exactly one record is
    appended to the log: kind [number_format], original value the string
    [1,234.567], new value 1234.57.  This holds at every row [idx], for
    every prior log and whatever the other keys of the standard; the
    column made of this one cell is the case [idx = 0]. *)
Theorem C8_number_rounding_example
    (now : nat -> datetime) (ty : option pystr) (sep : option bool)
    (fmt : option pystr) (trim spaces : option bool) (case : option pystr)
    (column_name file_name sheet_name : pystr) (idx : Z) (st : nstate) :
  let standard := mkstandard ty (Some 2) sep fmt trim spaces case in
  let value := VStr (py "1,234.567") in
  let record row :=
    mklog file_name sheet_name row column_name number_format
          value (VFloat 1234.57%float)
          (strftime (now (ticks st)) (py "%Y-%m-%d %H:%M:%S")) in
  _normalize_numbers_cell now standard column_name file_name sheet_name
                          idx value st
  = (VFloat 1234.57%float,
     mkstate (change_logs st ++ [record idx]) (S (ticks st)))
  /\ _normalize_numbers now [value] standard column_name file_name
                        sheet_name st
     = ([VFloat 1234.57%float],
        mkstate (change_logs st ++ [record 0]) (S (ticks st))).
Proof.
  cbv zeta.
  unfold _normalize_numbers, series_loop, _normalize_numbers_cell.
  cbn [std_decimal_places get isna].
  replace (convert_number 2 (VStr (py "1,234.567")))
    with (Some 1234.57%float) by (vm_compute; reflexivity).
  unfold store.
  replace (str_eqb (str_of (VStr (py "1,234.567")))
                   (str_of (VFloat 1234.57%float)))
    with false by (vm_compute; reflexivity).
  cbn [negb]. unfold _log_change_dict. split; reflexivity.
Qed.

End NumberClaims.

(* ================================================================== *)
(** * Date normalization ([normalizer.py]) *)
(* ================================================================== *)

Section DateFacts.
Import PyStr PyFloat PyDate Cell Normalizer.

Lemma digit_not_space (d : Z) :
  0 <= d < 10 -> is_space (48 + Z.to_N d)%N = false.
Proof.
  intros H.
  assert (E : d = 0 \/ d = 1 \/ d = 2 \/ d = 3 \/ d = 4 \/ d = 5 \/ d = 6
              \/ d = 7 \/ d = 8 \/ d = 9) by lia.
  repeat (destruct E as [->|E]; [reflexivity|]). now subst.
Qed.

Lemma digits_of_no_space (fuel : nat) :
  forall n acc, no_space acc -> no_space (digits_of fuel n acc).
Proof.
  induction fuel as [|fuel IH]; intros n acc H; simpl.
  - constructor; [|exact H].
    apply digit_not_space. apply Z.mod_pos_bound. lia.
  - assert (H' : no_space ((48 + Z.to_N (n mod 10))%N :: acc)).
    { constructor; [|exact H].
      apply digit_not_space. apply Z.mod_pos_bound. lia. }
    destruct (n <? 10); [exact H'|apply IH, H'].
Qed.

Lemma digits_of_nonempty (fuel : nat) :
  forall n acc, digits_of fuel n acc <> [].
Proof.
  induction fuel as [|fuel IH]; intros n acc; simpl; [discriminate|].
  destruct (n <? 10); [discriminate|apply IH].
Qed.

Lemma of_Z_no_space (z : Z) : no_space (of_Z z) /\ of_Z z <> [].
Proof.
  unfold of_Z. destruct (z <? 0).
  - split; [|discriminate].
    constructor; [reflexivity|]. apply digits_of_no_space. constructor.
  - split; [apply digits_of_no_space; constructor|apply digits_of_nonempty].
Qed.

Lemma zeros_no_space (n : nat) : no_space (zeros n).
Proof. induction n; simpl; constructor; [reflexivity|assumption]. Qed.

Lemma zpad_no_space (w : nat) (z : Z) : no_space (zpad w z) /\ zpad w z <> [].
Proof.
  unfold zpad. destruct (of_Z_no_space z) as [H1 H2]. split.
  - apply Forall_app. split; [apply zeros_no_space|exact H1].
  - intros E. apply app_eq_nil in E as [_ E]. contradiction.
Qed.

(** The text of a date in one of the five patterns a reference column can
    have is not empty and holds no white space. *)
Lemma common_format_text (t : datetime) (target : pystr) :
  In target common_formats ->
  no_space (strftime t target) /\ strftime t target <> [].
Proof.
  intros H.
  assert (Z := fun w z => proj1 (zpad_no_space w z)).
  assert (Z' := fun w z => proj2 (zpad_no_space w z)).
  assert (S1 : forall c s, is_space c = false -> no_space s -> no_space (c :: s))
    by (intros; constructor; assumption).
  assert (A : forall a b, no_space a -> no_space b -> no_space (a ++ b))
    by (intros; apply Forall_app; split; assumption).
  assert (NE : forall a b : pystr, a <> [] -> a ++ b <> []).
  { intros a b Ha E. apply app_eq_nil in E as [E _]. contradiction. }
  assert (Nil : no_space []) by constructor.
  vm_compute in H.
  repeat (destruct H as [<-|H]); try contradiction;
    unfold strftime; cbn [strftime_from N.eqb Pos.eqb];
    unfold format_directive; cbn [N.eqb Pos.eqb];
    (split; [repeat first [exact Nil | apply Z | apply S1; [reflexivity|]
                          | apply A]
            | apply NE, Z']).
Qed.

(** A string that passes the parse-and-reformat check of a common pattern
    has nothing to strip and is not empty. *)
Lemma target_format_is_stripped (s target : pystr) :
  In target common_formats ->
  _is_target_format s target = true ->
  strip s = s /\ nonempty s = true.
Proof.
  intros Hin H. unfold _is_target_format in H.
  destruct (strptime s target) as [parsed|]; [|discriminate].
  apply str_eqb_eq in H.
  destruct (common_format_text parsed target Hin) as [Hs Hne].
  rewrite H in Hs, Hne. split; [now apply strip_no_space|].
  destruct s; [contradiction|reflexivity].
Qed.

(** C9. A string cell that is already exactly in the target pattern of its
    column (it parses under the pattern and formats back to itself) is
    returned unchanged, and nothing is appended to the log; the target
    being any of the patterns a reference column can have. *)
Theorem C9_canonical_date_is_left_alone
    (now : nat -> datetime) (standard : standard)
    (column_name file_name sheet_name : pystr) (idx : Z)
    (s : pystr) (st : nstate) :
  let target := get (std_format standard) (py "%Y-%m-%d") in
  In target common_formats ->
  _is_target_format s target = true ->
  _normalize_dates_cell now standard column_name file_name sheet_name
                        idx (VStr s) st
  = (VStr s, st).
Proof.
  intros target Hin Ht.
  destruct (target_format_is_stripped s target Hin Ht) as [Hs Hne].
  unfold _normalize_dates_cell. fold target. cbn [isna].
  unfold convert_date. rewrite Hs, Hne. cbn [negb]. rewrite Ht.
  unfold store. cbn [str_of]. now rewrite str_eqb_refl.
Qed.

(** The example of the specification: pattern [%Y-%m-%d], input
    [2024-03-05]. *)
Lemma C9_witness :
  _normalize_dates_cell (fun _ => epoch)
    (mkstandard (Some (py "date")) None None (Some (py "%Y-%m-%d"))
                None None None)
    (py "hired") (py "staff.xlsx") (py "Employees") 0
    (VStr (py "2024-03-05")) (mkstate [] 0)
  = (VStr (py "2024-03-05"), mkstate [] 0).
Proof.
  apply C9_canonical_date_is_left_alone.
  - vm_compute. left. reflexivity.
  - vm_compute. reflexivity.
Defined.

(** ** Serial dates *)




(** Whole serials held as a float or as a truth value take the same path:
    45000.0 is 2023-03-15, 1.0 and [True] are 1899-12-31, and the last
    serial 2958465.0 is 9999-12-31. *)
Lemma serial_float_examples :
  map (convert_date (py "%Y-%m-%d"))
      [VFloat 45000%float; VFloat 1%float; VBool true; VFloat 2958465%float]
  = map (fun n => Some (strftime (plus_days epoch n) (py "%Y-%m-%d")))
        [45000; 1; 1; 2958465].
Proof. vm_compute. reflexivity. Qed.

(** The pattern [_analyze_date_format] chooses for a reference column is
    one of the five common patterns. *)
Lemma analyzed_date_format_is_common (sample_data : list cell) :
  exists target,
    std_format (_analyze_date_format sample_data) = Some target
    /\ In target common_formats.
Proof.
  unfold _analyze_date_format. cbn [std_format]. eexists. split; [reflexivity|].
  assert (G : forall l best,
             In best common_formats -> incl l common_formats ->
             In (fold_left (fun best fmt =>
                              if Nat.ltb (format_count sample_data best)
                                         (format_count sample_data fmt)
                              then fmt else best) l best) common_formats).
  { induction l as [|f l IH]; intros best Hb Hl; simpl; [exact Hb|].
    apply IH.
    - destruct (Nat.ltb _ _); [apply Hl; now left|exact Hb].
    - intros x Hx. apply Hl. now right. }
  apply G; [vm_compute; left; reflexivity|apply incl_refl].
Qed.

(** ** The fallback parser *)

(** C10. The fallback parser returns a date only when the month it infers
    from the runs of digits is in [1, 12], the day in [1, 31] and the year
    in [1900, 2100]; when the inferred year is outside 1900-2100 it
    returns nothing, and a string cell that reaches the parser (it is not
    in the target pattern and no known pattern parses it) then passes
    through unchanged, with nothing logged. *)
Theorem C10_fallback_parser_bounds_the_year
    (now : nat -> datetime) (standard : standard)
    (column_name file_name sheet_name : pystr) (idx : Z)
    (s : pystr) (st : nstate) :
  let target := get (std_format standard) (py "%Y-%m-%d") in
  let value_str := strip s in
  let numbers := findall is_digit value_str in
  let '(year, month, day) := infer_ymd numbers in
  (forall text, _parse_date_with_regex value_str target = Some text ->
                1 <= month <= 12 /\ 1 <= day <= 31 /\ 1900 <= year <= 2100)
  /\ (year < 1900 \/ 2100 < year ->
      _parse_date_with_regex value_str target = None
      /\ (_is_target_format value_str target = false ->
          try_formats date_formats value_str target = None ->
          _normalize_dates_cell now standard column_name file_name
                                sheet_name idx (VStr s) st
          = (VStr s, st))).
Proof.
  intros target value_str numbers.
  destruct (infer_ymd numbers) as [[year month] day] eqn:Hi.
  assert (P : _parse_date_with_regex value_str target
              = if 3 <=? Z.of_nat (List.length numbers) then
                  if (1 <=? month) && (month <=? 12) && (1 <=? day)
                     && (day <=? 31) && (1900 <=? year) && (year <=? 2100)
                  then match make_datetime year month day 0 0 0 0 with
                       | Some parsed_date => Some (strftime parsed_date target)
                       | None => None
                       end
                  else None
                else None).
  { unfold _parse_date_with_regex. fold numbers. now rewrite Hi. }
  split.
  - intros text Ht. rewrite P in Ht.
    destruct (3 <=? _); [|discriminate].
    destruct (_ && _) eqn:Hb in Ht; [|discriminate].
    repeat (apply andb_true_iff in Hb as [Hb ?]).
    rewrite ?Z.leb_le in *. lia.
  - intros Hy.
    assert (N : _parse_date_with_regex value_str target = None).
    { rewrite P. destruct (3 <=? _); [|reflexivity].
      replace ((1 <=? month) && (month <=? 12) && (1 <=? day)
               && (day <=? 31) && (1900 <=? year) && (year <=? 2100))
        with false; [reflexivity|].
      symmetry. destruct Hy as [Hy|Hy].
      + replace (1900 <=? year) with false
          by (symmetry; apply Z.leb_gt; lia).
        now rewrite andb_false_r.
      + replace (year <=? 2100) with false
          by (symmetry; apply Z.leb_gt; lia).
        now rewrite andb_false_r. }
    split; [exact N|]. intros Hnt Hf.
    unfold _normalize_dates_cell. fold target. cbn [isna].
    unfold convert_date. fold value_str.
    destruct (negb (nonempty value_str)); [reflexivity|].
    now rewrite Hnt, Hf, N.
Qed.

(** The text [1800 1 1]: no pattern parses it, the fallback parser reads
    the year 1800 off it and gives it up. *)
Lemma C10_witness :
  _normalize_dates_cell (fun _ => epoch)
    (mkstandard (Some (py "date")) None None (Some (py "%Y-%m-%d"))
                None None None)
    (py "hired") (py "staff.xlsx") (py "Employees") 0
    (VStr (py "1800 1 1")) (mkstate [] 0)
  = (VStr (py "1800 1 1"), mkstate [] 0).
Proof.
  pose proof (C10_fallback_parser_bounds_the_year (fun _ => epoch)
                (mkstandard (Some (py "date")) None None
                            (Some (py "%Y-%m-%d")) None None None)
                (py "hired") (py "staff.xlsx") (py "Employees") 0
                (py "1800 1 1") (mkstate [] 0))
    as H.
  cbv zeta in H.
  replace (infer_ymd (findall is_digit (strip (py "1800 1 1"))))
    with (1800, 1, 1) in H by (vm_compute; reflexivity).
  destruct H as [_ H]. destruct H as [_ H]; [left; lia|].
  apply H; vm_compute; reflexivity.
Defined.

End DateFacts.

(* ================================================================== *)
(** * The change log ([normalizer.py], [controller.py]) *)
(* ================================================================== *)

Section LogFacts.
Import PyStr PyFloat PyDate Cell Dict Normalizer.
Variable now : nat -> datetime.
Context {U : PyUnicode}.

Lemma log_change_appends st f s i c k o n :
  exists e, kind e = k
            /\ change_logs (_log_change_dict now st f s i c k o n)
               = change_logs st ++ [e].
Proof.
  unfold _log_change_dict. cbn [change_logs].
  eexists. split; cycle 1; reflexivity.
Qed.

Lemma store_only_cell_level st f s i c k o n :
  k <> sheet_mapping -> k <> column_mapping ->
  only_cell_level st ->
  only_cell_level (snd (store now st f s i c k o n)).
Proof.
  intros K1 K2 H. unfold store. cbn [snd].
  destruct (negb _); [|exact H].
  unfold only_cell_level, _log_change_dict. cbn [change_logs].
  apply Forall_app. split; [exact H|].
  constructor; [|constructor]. split; assumption.
Qed.

Lemma series_loop_only_cell_level body :
  (forall i v st, only_cell_level st -> only_cell_level (snd (body i v st))) ->
  forall series i st,
    only_cell_level st -> only_cell_level (snd (series_loop body series i st)).
Proof.
  intros Hb. induction series as [|v series IH]; intros i st H; simpl;
    [exact H|].
  specialize (Hb i v st H). destruct (body i v st) as [v' st1].
  specialize (IH (i + 1) st1 Hb).
  destruct (series_loop body series (i + 1) st1) as [vs st2]. exact IH.
Qed.

Lemma normalize_column_only_cell_level series standard c f s st :
  only_cell_level st ->
  only_cell_level (snd (_normalize_column now series standard c f s st)).
Proof.
  intros H. unfold _normalize_column.
  destruct (str_eqb _ (py "number")).
  { apply series_loop_only_cell_level; [|exact H].
    intros i v st' H'. unfold _normalize_numbers_cell.
    destruct (isna v); [exact H'|].
    destruct (convert_number _ v); [|exact H'].
    apply store_only_cell_level; [discriminate|discriminate|exact H']. }
  destruct (str_eqb _ (py "date")).
  { apply series_loop_only_cell_level; [|exact H].
    intros i v st' H'. unfold _normalize_dates_cell.
    destruct (isna v); [exact H'|].
    destruct (convert_date _ v); [|exact H'].
    apply store_only_cell_level; [discriminate|discriminate|exact H']. }
  destruct (str_eqb _ (py "text")); [|exact H].
  apply series_loop_only_cell_level; [|exact H].
  intros i v st' H'. unfold _normalize_text_cell.
  destruct (isna v); [exact H'|].
  apply store_only_cell_level; [discriminate|discriminate|exact H'].
Qed.

Lemma normalize_columns_only_cell_level df standards f s :
  forall st, only_cell_level st ->
    only_cell_level (snd (normalize_columns now df standards f s st)).
Proof.
  induction df as [|[c series] df IH]; intros st H; simpl; [exact H|].
  assert (H1 : only_cell_level
                 (snd (match dict_get standards c with
                       | Some standard =>
                         _normalize_column now series standard c f s st
                       | None => (series, st)
                       end))).
  { destruct (dict_get standards c);
      [now apply normalize_column_only_cell_level|exact H]. }
  destruct (match dict_get standards c with
            | Some _ => _ | None => _ end) as [series' st1].
  specialize (IH st1 H1).
  destruct (normalize_columns now df standards f s st1) as [rest st2].
  exact IH.
Qed.

(** Whatever the log held before, after [normalize_data] it holds entries
    of the cells and rows of this one call only: the entries the
    controller wrote for sheet and column mappings are gone. *)
Lemma normalize_data_drops_mappings df standards f s st :
  only_cell_level (snd (normalize_data now df standards f s st)).
Proof.
  unfold normalize_data.
  assert (H : only_cell_level
                (snd (normalize_columns now df standards f s
                                        (mkstate [] (ticks st))))).
  { apply normalize_columns_only_cell_level. constructor. }
  destruct (normalize_columns now df standards f s (mkstate [] (ticks st)))
    as [normalized_df st1].
  unfold _clean_data. cbn [snd]. destruct (negb _); [|exact H].
  unfold only_cell_level, _log_change_dict. cbn [change_logs].
  apply Forall_app. split; [exact H|].
  constructor; [|constructor]. split; discriminate.
Qed.

End LogFacts.

Section LogClaims.
Import PyStr PyFloat PyDate Cell Dict Processor Normalizer Controller Scenario.

(** C2. In the run that merges [staff.xlsx] into [ref.xlsx], the controller
    appends the entry of the sheet mapping [employees -> Employees] to the
    log of the normalizer; the run completes, three entries have been
    written in all, and at its end the log holds one of them, the entry of
    the cell [ALICE -> alice]: the entry of the sheet mapping is no longer
    there. *)
Theorem C2_mapping_entries_do_not_survive :
  let st0 := mkstate [] 0 in
  let logged :=
    _log_change_dict clock st0 (py "staff.xlsx") (py "Employees") (-1)
      (py "SHEET_NAME") sheet_mapping
      (VStr (py "employees")) (VStr (py "Employees")) in
  let r := merge ["staff.xlsx"%string] in
  change_logs logged = [staff_sheet_mapping]
  /\ result r = Completed
  /\ ticks (normalizer r) = 3%nat
  /\ map kind (change_logs (normalizer r)) = [text_format]
  /\ ~ In staff_sheet_mapping (change_logs (normalizer r)).
Proof.
  cbv zeta.
  assert (E : map kind (change_logs (normalizer (merge ["staff.xlsx"%string])))
              = [text_format]) by (vm_compute; reflexivity).
  repeat split; try (vm_compute; reflexivity).
  intros Hin. apply (in_map kind) in Hin. rewrite E in Hin.
  destruct Hin as [Hin|[]]. discriminate.
Qed.

End LogClaims.

(* ================================================================== *)
(** * Compatibility validation ([controller.py]) *)
(* ================================================================== *)

Section ValidationFacts.
Import PyStr PyFloat PyDate Cell Dict Processor Normalizer Controller.
Context {U : PyUnicode}.
Variable read_file_structure : pystr -> FileStructure.
Variable read_sheet_data : pystr -> pystr -> pystr + DataFrame.
Variable path_name : pystr -> pystr.
Variable now : nat -> datetime.
Variable is_cancelled : nat -> bool.
Variable combine :
  dict (list DataFrame) -> FileStructure -> nstate -> pystr + dict DataFrame.
Variable validate_merged : dict DataFrame -> FileStructure -> validation_result.
Variable save : dict DataFrame -> pystr -> option pystr.



End ValidationFacts.

Section ValidationClaims.
Import PyStr PyFloat PyDate Cell Dict Processor Normalizer Controller Scenario.



End ValidationClaims.

(* ================================================================== *)
(** * More on matching ([processor.py]) *)
(* ================================================================== *)

Section MatchingMore.
Import PyStr Dict Processor.
Context {U : PyUnicode}.

Lemma dict_get_set_inv {V} (d : dict V) (k k' : pystr) (v v' : V) :
  dict_get (dict_set d k v) k' = Some v' ->
  (k = k' /\ v = v') \/ (k <> k' /\ dict_get d k' = Some v').
Proof.
  intros H. destruct (list_eq_dec N.eq_dec k k') as [->|Hne].
  - rewrite dict_get_set_same in H. injection H as ->. now left.
  - rewrite dict_get_set_other in H by assumption. now right.
Qed.

(** What the inner loop returns was let through by [skip], is one of the
    candidates and reaches the threshold. *)
Lemma best_candidate_meets_threshold skip threshold ref targets best score t :
  best_candidate skip threshold ref targets best score = Some t ->
  best = Some t
  \/ (skip t = false /\ In t targets
      /\ (threshold <=? calculate_similarity ref t)%float = true).
Proof.
  revert best score.
  induction targets as [|g targets IH]; intros best score H; simpl in H.
  - now left.
  - destruct (skip g) eqn:Hs.
    + apply IH in H as [H|(H1 & H2 & H3)]; [now left|].
      right. repeat split; [assumption|now right|assumption].
    + destruct (_ && _) eqn:Hc in H.
      * apply andb_true_iff in Hc as [_ Hc].
        apply IH in H as [H|(H1 & H2 & H3)].
        -- injection H as ->. right. repeat split; [assumption|now left|assumption].
        -- right. repeat split; [assumption|now right|assumption].
      * apply IH in H as [H|(H1 & H2 & H3)]; [now left|].
        right. repeat split; [assumption|now right|assumption].
Qed.

Lemma best_candidate_keeps_a_match skip threshold ref targets b score :
  best_candidate skip threshold ref targets (Some b) score <> None.
Proof.
  revert b score. induction targets as [|g targets IH]; intros b score; simpl.
  - discriminate.
  - destruct (skip g); [apply IH|]. destruct (_ && _); apply IH.
Qed.

(** The inner loop finds nothing exactly when no candidate it looks at has
    a positive score that reaches the threshold. *)
Lemma best_candidate_none skip threshold ref targets :
  best_candidate skip threshold ref targets None 0 = None
  <-> (forall t, In t targets -> skip t = false ->
         ((0 <? calculate_similarity ref t)
          && (threshold <=? calculate_similarity ref t))%float = false).
Proof.
  induction targets as [|g targets IH]; simpl.
  - split; [intros _ t []|reflexivity].
  - destruct (skip g) eqn:Hs.
    + rewrite IH. split.
      * intros H t [<-|Ht] Hk; [congruence|now apply H].
      * intros H t Ht Hk. apply H; [now right|assumption].
    + destruct (_ && _) eqn:Hc.
      * split.
        -- intros H. now apply best_candidate_keeps_a_match in H.
        -- intros H. specialize (H g (or_introl eq_refl) Hs). congruence.
      * rewrite IH. split.
        -- intros H t [<-|Ht] Hk; [assumption|now apply H].
        -- intros H t Ht Hk. apply H; [now right|assumption].
Qed.

Lemma choice_loop (choice : pystr -> option pystr) (refs : list pystr) :
  forall m r,
    dict_get
      (fold_left
         (fun matches ref =>
            match choice ref with
            | Some best_match => dict_set matches ref best_match
            | None => matches
            end) refs m) r
    = if existsb (str_eqb r) refs then
        match choice r with
        | Some t => Some t
        | None => dict_get m r
        end
      else dict_get m r.
Proof.
  induction refs as [|x refs IH]; intros m r; simpl; [reflexivity|].
  rewrite IH. destruct (str_eqb r x) eqn:E.
  - apply str_eqb_eq in E. subst x. cbn [orb].
    destruct (choice r) as [t|] eqn:Hc.
    + destruct (existsb (str_eqb r) refs); [reflexivity|].
      apply dict_get_set_same.
    + destruct (existsb (str_eqb r) refs); reflexivity.
  - cbn [orb]. apply str_eqb_neq in E.
    assert (G : dict_get match choice x with
                         | Some best_match => dict_set m x best_match
                         | None => m
                         end r = dict_get m r).
    { destruct (choice x); [|reflexivity].
      apply dict_get_set_other. congruence. }
    now rewrite G.
Qed.

(** The mapping of [match_sheets] read at a name: the choice of the inner
    loop for a reference sheet, nothing for any other name. *)
Lemma match_sheets_lookup refs targets threshold r :
  dict_get (match_sheets refs targets threshold) r
  = if existsb (str_eqb r) refs
    then sheet_choice (match threshold with
                       | Some t => t
                       | None => Config.SIMILARITY_THRESHOLD
                       end) targets r
    else None.
Proof.
  unfold match_sheets.
  etransitivity;
    [apply (choice_loop
              (sheet_choice (match threshold with
                             | Some t => t
                             | None => Config.SIMILARITY_THRESHOLD
                             end) targets))|].
  simpl dict_get.
  destruct (existsb _ refs); [|reflexivity].
  destruct (sheet_choice _ _ _); reflexivity.
Qed.

(** X1. Every pair of the sheet mapping joins a reference sheet to a
    candidate sheet with a non-empty name whose similarity reaches the
    threshold (0.6 when none is given). *)
Theorem match_sheets_sound refs targets threshold r t :
  dict_get (match_sheets refs targets threshold) r = Some t ->
  In r refs /\ In t targets /\ t <> []
  /\ (match threshold with
      | Some th => th
      | None => Config.SIMILARITY_THRESHOLD
      end <=? calculate_similarity r t)%float = true.
Proof.
  rewrite match_sheets_lookup.
  destruct (existsb (str_eqb r) refs) eqn:E; [|discriminate].
  apply existsb_str_eqb_In in E. intros H. unfold sheet_choice, found in H.
  destruct (best_candidate _ _ _ _ _ _) as [b|] eqn:Hb; [|discriminate].
  destruct (nonempty b) eqn:Hn; [|discriminate]. injection H as ->.
  apply best_candidate_meets_threshold in Hb as [Hb|(_ & H2 & H3)];
    [discriminate|].
  repeat split; try assumption. intros ->. discriminate.
Qed.

(** X2. A reference sheet is left out of the mapping exactly when no
    candidate has a positive similarity that reaches the threshold; the
    candidates being sheets with a name. *)
Theorem match_sheets_unmatched refs targets threshold r :
  In r refs ->
  (forall t, In t targets -> t <> []) ->
  let th := match threshold with
            | Some t => t
            | None => Config.SIMILARITY_THRESHOLD
            end in
  dict_get (match_sheets refs targets threshold) r = None
  <-> (forall t, In t targets ->
         ((0 <? calculate_similarity r t)
          && (th <=? calculate_similarity r t))%float = false).
Proof.
  intros Hr Hne th. rewrite match_sheets_lookup. fold th.
  replace (existsb (str_eqb r) refs) with true
    by (symmetry; now apply existsb_str_eqb_In).
  unfold sheet_choice, found.
  destruct (best_candidate _ _ _ _ _ _) as [b|] eqn:Hb.
  - assert (Hin : In b targets).
    { apply best_candidate_meets_threshold in Hb as [Hb|(_ & H & _)];
        [discriminate|exact H]. }
    specialize (Hne b Hin). destruct b; [contradiction|]. cbn [nonempty].
    split; [discriminate|]. intros H.
    assert (N : best_candidate (fun _ => false) th r targets None 0 = None)
      by (apply best_candidate_none; intros; now apply H).
    congruence.
  - split; [|reflexivity]. intros _ t Ht.
    now apply (proj1 (best_candidate_none _ _ _ _) Hb).
Qed.

(** X3. Every pair of the column mapping joins a reference column to a
    candidate column with a non-empty name whose similarity reaches the
    threshold (0.5 when none is given). *)
Theorem match_columns_sound refs targets threshold r t :
  dict_get (match_columns refs targets threshold) r = Some t ->
  In r refs /\ In t targets /\ t <> []
  /\ (match threshold with
      | Some th => th
      | None => Config.COLUMN_SIMILARITY_THRESHOLD
      end <=? calculate_similarity r t)%float = true.
Proof.
  unfold match_columns.
  set (th := match threshold with Some t => t | None => _ end).
  set (P := fun (refs : list pystr) (r t : pystr) =>
              In r refs /\ In t targets /\ t <> []
              /\ (th <=? calculate_similarity r t)%float = true).
  assert (G : forall refs st r t,
             dict_get (fst (fold_left (match_column_step targets th) refs st))
                      r = Some t ->
             dict_get (fst st) r = Some t \/ P refs r t).
  { clear r t. induction refs0 as [|x refs0 IH]; intros st r t H; simpl in H.
    - now left.
    - apply IH in H as [H|(H1 & H2)].
      + destruct st as [matches used]. unfold match_column_step in H.
        destruct (found _) as [b|] eqn:Hf; [|now left]. cbn [fst] in H.
        apply dict_get_set_inv in H as [[-> ->]|[_ H]]; [|now left].
        right. unfold found in Hf.
        destruct (best_candidate _ _ _ _ _ _) as [b|] eqn:Hb; [|discriminate].
        destruct (nonempty b) eqn:Hn; [|discriminate]. injection Hf as ->.
        apply best_candidate_meets_threshold in Hb as [Hb|(_ & H2 & H3)];
          [discriminate|].
        repeat split; [now left|assumption| |assumption].
        intros ->. discriminate.
      + right. destruct H2 as (H2 & H3 & H4).
        repeat split; [now right|assumption..]. }
  intros H. apply G in H as [H|H]; [discriminate|exact H].
Qed.

(** X22. With the default threshold, a reference sheet whose name is the
    name of a candidate sheet, letter case, white space and separators
    apart, is always matched: sheets of the same name are never left
    out. *)
Theorem same_name_is_matched refs targets r t :
  In r refs -> In t targets ->
  (forall x, In x targets -> x <> []) ->
  r <> [] ->
  normalize_string r = normalize_string t ->
  exists t', dict_get (match_sheets refs targets None) r = Some t'.
Proof.
  intros Hr Ht Hne Hrne Hn. rewrite match_sheets_lookup.
  replace (existsb (str_eqb r) refs) with true
    by (symmetry; now apply existsb_str_eqb_In).
  unfold sheet_choice, found.
  destruct (best_candidate _ _ _ _ _ _) as [b|] eqn:Hb.
  - assert (Hin : In b targets).
    { apply best_candidate_meets_threshold in Hb as [Hb|(_ & H & _)];
        [discriminate|exact H]. }
    specialize (Hne b Hin). destruct b; [contradiction|]. cbn [nonempty].
    eauto.
  - exfalso.
    pose proof (proj1 (best_candidate_none _ _ _ _) Hb t Ht eq_refl) as H.
    assert (S : calculate_similarity r t = 1.0%float).
    { unfold calculate_similarity.
      specialize (Hne t Ht). destruct r; [contradiction|].
      destruct t; [contradiction|]. cbn [nonempty negb orb].
      now rewrite Hn, str_eqb_refl. }
    rewrite S in H. vm_compute in H. discriminate.
Qed.

End MatchingMore.

Section MatchingMoreExamples.
Import PyStr Dict Processor.

(** The sheet [Data] is matched to the candidate [DATA]. *)
Lemma match_sheets_sound_witness :
  In (py "DATA") [py "DATA"]
  /\ (Config.SIMILARITY_THRESHOLD
      <=? @calculate_similarity latin (py "Data") (py "DATA"))%float = true.
Proof.
  pose proof (@match_sheets_sound latin [py "Data"; py "data"] [py "DATA"]
                None (py "Data") (py "DATA")) as H.
  split; apply H; vm_compute; reflexivity.
Defined.

(** The reference sheet [Employees] finds nothing among the candidates
    [Inventory] and [Stock]. *)
Lemma match_sheets_unmatched_witness :
  dict_get (@match_sheets latin [py "Employees"] [py "Inventory"; py "Stock"]
              None) (py "Employees") = None.
Proof.
  apply (@match_sheets_unmatched latin).
  - left. reflexivity.
  - intros t [<-|[<-|[]]]; discriminate.
  - intros t [<-|[<-|[]]]; vm_compute; reflexivity.
Defined.

(** The column [부서] is matched to the candidate [소속부서]. *)
Lemma match_columns_sound_witness :
  In (py "소속부서") [py "성명"; py "소속부서"]
  /\ (Config.COLUMN_SIMILARITY_THRESHOLD
      <=? @calculate_similarity latin (py "부서") (py "소속부서"))%float = true.
Proof.
  pose proof (@match_columns_sound latin [py "이름"; py "부서"]
                [py "성명"; py "소속부서"] None (py "부서") (py "소속부서")) as H.
  split; apply H; vm_compute; reflexivity.
Defined.

(** The sheet [Staff List] and the candidate [staff_list]. *)
Lemma same_name_is_matched_witness :
  exists t',
    dict_get (@match_sheets latin [py "Staff List"]
                [py "Stock"; py "staff_list"] None) (py "Staff List")
    = Some t'.
Proof.
  apply (@same_name_is_matched latin [py "Staff List"]
           [py "Stock"; py "staff_list"] (py "Staff List") (py "staff_list")).
  - left. reflexivity.
  - right. left. reflexivity.
  - intros x [<-|[<-|[]]]; discriminate.
  - discriminate.
  - vm_compute. reflexivity.
Defined.

End MatchingMoreExamples.

(* ================================================================== *)
(** * More on header detection ([processor.py]) *)
(* ================================================================== *)

Section HeaderMore.
Import PyStr Cell Processor.

(** A row that is scored holds a cell that counts as true and two cells or
    more that are not [None]. *)
Lemma row_score_some (row_idx : Z) (row_data : list cell) (x : float) :
  row_score row_idx row_data = Some x ->
  existsb truthy row_data = true
  /\ (2 <= List.length (non_empty_cells row_data))%nat.
Proof.
  unfold row_score. destruct (existsb truthy row_data); [|discriminate].
  cbn [negb]. destruct (_ <? 2) eqn:E; [discriminate|].
  apply Z.ltb_ge in E. intros _. split; [reflexivity|lia].
Qed.

(** The best row of the loop is the one it started with or a scored row
    among those it went through. *)
Lemma header_loop_best (rows : list (list cell)) :
  forall row_idx best_row best_score b s,
    header_loop rows row_idx best_row best_score = (b, s) ->
    (b = best_row /\ s = best_score)
    \/ (row_idx <= b < row_idx + Z.of_nat (List.length rows)
        /\ exists row, nth_error rows (Z.to_nat (b - row_idx)) = Some row
                       /\ row_score b row = Some s).
Proof.
  induction rows as [|row rows IH]; intros row_idx best_row best_score b s H;
    simpl in H.
  - injection H as <- <-. now left.
  - assert (Shift : forall b0 s0,
               (row_idx + 1 <= b0 < row_idx + 1 + Z.of_nat (List.length rows)
                /\ exists r, nth_error rows (Z.to_nat (b0 - (row_idx + 1)))
                             = Some r /\ row_score b0 r = Some s0) ->
               row_idx <= b0 < row_idx + Z.of_nat (List.length (row :: rows))
               /\ exists r, nth_error (row :: rows) (Z.to_nat (b0 - row_idx))
                            = Some r /\ row_score b0 r = Some s0).
    { intros b0 s0 (Hb & r & Hr & Hs). split; [simpl List.length; lia|].
      exists r. split; [|exact Hs].
      replace (Z.to_nat (b0 - row_idx))
        with (S (Z.to_nat (b0 - (row_idx + 1)))) by lia.
      exact Hr. }
    destruct (row_score row_idx row) as [total|] eqn:Hs.
    + destruct (best_score <? total)%float.
      * apply IH in H as [[-> ->]|H]; [|right; now apply Shift].
        right. split; [simpl List.length; lia|].
        exists row. rewrite Z.sub_diag. split; [reflexivity|exact Hs].
      * apply IH in H as [H|H]; [now left|right; now apply Shift].
    + apply IH in H as [H|H]; [now left|right; now apply Shift].
Qed.

(** The two ways header detection ends. *)
Lemma detect_header_row_cases (data : list (list cell)) :
  _detect_header_row data = -1
  \/ (0 <= _detect_header_row data < 10
      /\ exists row,
           nth_error data (Z.to_nat (_detect_header_row data)) = Some row
           /\ existsb truthy row = true
           /\ (2 <= List.length (non_empty_cells row))%nat).
Proof.
  unfold _detect_header_row. destruct data as [|r0 data0]; [now left|].
  set (data := r0 :: data0).
  destruct (header_loop (firstn 10 data) 0 (-1) 0) as [b s] eqn:H.
  destruct (0.5 <? s)%float; [|now left].
  apply header_loop_best in H as [[-> _]|(Hb & row & Hr & Hs)]; [now left|].
  right. assert (L : (List.length (firstn 10 data) <= 10)%nat)
    by apply firstn_le_length.
  split; [lia|]. exists row. rewrite Z.sub_0_r in Hr.
  apply row_score_some in Hs. split; [|exact Hs].
  assert (F : forall (n : nat) (l : list (list cell)) i x,
             nth_error (firstn n l) i = Some x -> nth_error l i = Some x).
  { induction n as [|n IHn]; intros [|y l] [|i] x Hx; simpl in Hx;
      try discriminate; [exact Hx|]. simpl. now apply IHn. }
  eapply F. exact Hr.
Qed.

(** X4. Header detection returns -1 or the index of one of the first ten
    rows of the grid, and the row it names has a cell that counts as true
    and at least two cells that are not [None]. *)
Theorem detected_header_is_a_scored_row (data : list (list cell)) :
  _detect_header_row data = -1
  \/ (0 <= _detect_header_row data < 10
      /\ exists row,
           nth_error data (Z.to_nat (_detect_header_row data)) = Some row
           /\ existsb truthy row = true
           /\ (2 <= List.length (non_empty_cells row))%nat).
Proof. exact (detect_header_row_cases data). Qed.

End HeaderMore.

(* ================================================================== *)
(** * More on the controller ([controller.py]) *)
(* ================================================================== *)

Section ControllerMore.
Import PyStr PyFloat PyDate Cell Dict Processor Normalizer Controller.
Context {U : PyUnicode}.
Variable read_file_structure : pystr -> FileStructure.
Variable read_sheet_data : pystr -> pystr -> pystr + DataFrame.
Variable path_name : pystr -> pystr.
Variable now : nat -> datetime.
Variable is_cancelled : nat -> bool.
Variable combine :
  dict (list DataFrame) -> FileStructure -> nstate -> pystr + dict DataFrame.
Variable validate_merged : dict DataFrame -> FileStructure -> validation_result.
Variable save : dict DataFrame -> pystr -> option pystr.

Lemma compatibility_issues_nil ref_sheet_names merge_files :
  forall i,
    compatibility_issues read_file_structure path_name ref_sheet_names i
                         merge_files = []
    <-> (forall f, In f merge_files ->
           has_error (read_file_structure f) = false
           /\ match_sheets ref_sheet_names
                           (sheet_names (read_file_structure f)) None <> []).
Proof.
  induction merge_files as [|f files IH]; intros i; simpl.
  - split; [intros _ f []|reflexivity].
  - split.
    + intros H. apply app_eq_nil in H as [H1 H2].
      intros g [<-|Hg]; [|now apply (proj1 (IH (i + 1)) H2)].
      unfold compatibility_issue in H1.
      destruct (has_error (read_file_structure f)); [discriminate|].
      split; [reflexivity|].
      destruct (match_sheets _ _ _); [discriminate|discriminate].
    + intros H.
      destruct (H f (or_introl eq_refl)) as [H1 H2].
      unfold compatibility_issue. rewrite H1.
      destruct (match_sheets _ _ _) as [|p m]; [contradiction|].
      simpl. apply IH. intros g Hg. apply H. now right.
Qed.

Lemma compatibility_issues_length ref_sheet_names merge_files :
  forall i,
    (List.length (compatibility_issues read_file_structure path_name
                    ref_sheet_names i merge_files)
     <= List.length merge_files)%nat.
Proof.
  induction merge_files as [|f files IH]; intros i; simpl; [lia|].
  rewrite length_app. specialize (IH (i + 1)).
  destruct (compatibility_issue _ _ _ _ _); simpl; lia.
Qed.

(** X5. The compatibility validation succeeds exactly when the reference
    file analyses without error and every candidate file analyses without
    error and has a sheet matched to a reference sheet; it never records
    more issues than there are candidate files. *)
Theorem validation_succeeds_iff (reference_file : pystr)
    (merge_files : list pystr) :
  let v := _validate_files_compatibility read_file_structure path_name
             reference_file merge_files in
  let reference := read_file_structure reference_file in
  (success v = true
   <-> has_error reference = false
       /\ forall f, In f merge_files ->
            has_error (read_file_structure f) = false
            /\ match_sheets (sheet_names reference)
                 (sheet_names (read_file_structure f)) None <> [])
  /\ (List.length (issues v) <= List.length merge_files)%nat.
Proof.
  intros v reference. unfold v, _validate_files_compatibility. fold reference.
  destruct (has_error reference).
  - cbn [success issues]. split; [|simpl; lia].
    split; [discriminate|]. intros [H _]. discriminate.
  - pose proof (compatibility_issues_nil (sheet_names reference)
                  merge_files 1) as N.
    pose proof (compatibility_issues_length (sheet_names reference)
                  merge_files 1) as L.
    destruct (compatibility_issues _ _ _ _ _) as [|i0 rest];
      cbn [success issues].
    + split; [|simpl; lia]. split; [|reflexivity].
      intros _. split; [reflexivity|]. now apply N.
    + split; [|exact L]. split; [discriminate|].
      intros [_ H]. apply N in H. discriminate.
Qed.

(** ** Alignment of the columns *)





Lemma dict_get_In {V} (d : dict V) (k : pystr) (v : V) :
  dict_get d k = Some v -> In (k, v) d.
Proof.
  induction d as [|[k0 v0] d IH]; simpl; [discriminate|].
  destruct (str_eqb k0 k) eqn:E.
  - apply str_eqb_eq in E. subst. intros H. injection H as ->. now left.
  - intros H. right. now apply IH.
Qed.



(** ** The stages of a run *)

Lemma firstn_seq_le (k : nat) :
  forall n i, (k <= n)%nat -> firstn k (seq i n) = seq i k.
Proof.
  induction k as [|k IH]; intros n i H; [reflexivity|].
  destruct n as [|n]; [lia|]. cbn. f_equal. apply IH. lia.
Qed.

Lemma firstn_stages_files (n k : nat) :
  (k <= n)%nat ->
  firstn (3 + k) (all_stages n)
  = [AnalyzeReference; ValidateCompatibility; ExtractFormatStandards]
    ++ map ProcessFile (seq 0 k).
Proof.
  intros H. unfold all_stages. cbn [firstn app Nat.add]. do 3 f_equal.
  rewrite firstn_app, length_map, length_seq.
  replace (k - n)%nat with O by lia. cbn [firstn]. rewrite app_nil_r.
  rewrite firstn_map. now rewrite firstn_seq_le.
Qed.

Lemma firstn_stages_end (n j : nat) :
  (j <= 3)%nat ->
  firstn (3 + n + j) (all_stages n)
  = [AnalyzeReference; ValidateCompatibility; ExtractFormatStandards]
    ++ map ProcessFile (seq 0 n) ++ firstn j [Combine; ValidateQuality; Save].
Proof.
  intros H. unfold all_stages.
  replace (3 + n + j)%nat with (S (S (S (n + j)))) by lia.
  cbn [firstn app]. do 3 f_equal.
  rewrite firstn_app, length_map, length_seq.
  replace (n + j - n)%nat with j by lia.
  rewrite firstn_all2; [reflexivity|]. rewrite length_map, length_seq. lia.
Qed.

(** The loop over the candidate files announces the files one after the
    other, up to the file after which the run is cancelled. *)
Lemma process_files_trace reference_structure format_standards :
  forall merge_files i merged_data c r c',
    process_files read_file_structure read_sheet_data path_name now
      is_cancelled merge_files i reference_structure format_standards
      merged_data c = (r, c') ->
    exists k,
      (k <= List.length merge_files)%nat
      /\ trace c' = trace c ++ map ProcessFile (seq i k)
      /\ match r with
         | Some _ => k = List.length merge_files
         | None => exists j, is_cancelled j = true
         end.
Proof.
  induction merge_files as [|f files IH]; intros i merged_data c r c' H.
  - cbn in H. injection H as <- <-. exists O. cbn. rewrite app_nil_r.
    repeat split. lia.
  - cbn [process_files] in H.
    destruct (_process_merge_file _ _ _ _ f _ _ _) as [r0 st0].
    destruct r0 as [e|file_data].
    + match type of H with
      | (if is_cancelled ?p then _ else _) = _ =>
        destruct (is_cancelled p) eqn:Hc
      end.
      * injection H as <- <-. exists 1%nat. cbn. repeat split; [lia|].
        eexists. exact Hc.
      * apply IH in H. destruct H as (k & Hk & Ht & Hr).
        exists (S k). split; [cbn; lia|]. split; [|destruct r; cbn; [lia|exact Hr]].
        rewrite Ht. cbn. now rewrite <- app_assoc.
    + match type of H with
      | (if is_cancelled ?p then _ else _) = _ =>
        destruct (is_cancelled p) eqn:Hc
      end.
      * injection H as <- <-. exists 1%nat. cbn. repeat split; [lia|].
        eexists. exact Hc.
      * apply IH in H. destruct H as (k & Hk & Ht & Hr).
        exists (S k). split; [cbn; lia|]. split; [|destruct r; cbn; [lia|exact Hr]].
        rewrite Ht. cbn. now rewrite <- app_assoc.
Qed.

(** X7. The stages of a run are announced in one fixed order, none left
    out and none repeated: a run that completes has announced the three
    opening stages, every candidate file and the three closing stages; a
    cancelled run has stopped before the stage that saves, and only after
    the cancellation flag was read as set; a failed run has announced a
    beginning of the same sequence. *)
Theorem stages_follow_the_fixed_order (reference_file output_file : pystr)
    (merge_files : list pystr) (st : nstate) :
  let r :=
    _merge_process read_file_structure read_sheet_data path_name now
      is_cancelled combine validate_merged save
      reference_file merge_files output_file st in
  let n := List.length merge_files in
  match result r with
  | Completed | CompletedWithWarnings => progress r = all_stages n
  | Cancelled =>
    (exists k, (1 <= k <= n + 5)%nat /\ progress r = firstn k (all_stages n))
    /\ ~ In Save (progress r)
    /\ exists j, is_cancelled j = true
  | Failed _ =>
    exists k, (1 <= k <= n + 6)%nat /\ progress r = firstn k (all_stages n)
  end.
Proof.
  intros r n. unfold r, _merge_process.
  assert (NoSave : forall k, ~ In Save (map ProcessFile (seq 0 k))).
  { intros k H. apply in_map_iff in H. destruct H as (x & H & _).
    discriminate. }
  destruct (has_error (read_file_structure reference_file)).
  { cbn. exists 1%nat. split; [lia|reflexivity]. }
  destruct (sheets (read_file_structure reference_file)) as [|s0 ss].
  { cbn. exists 1%nat. split; [lia|reflexivity]. }
  cbn [announce polls norm errors trace app polled].
  destruct (is_cancelled 0) eqn:C0.
  { cbn. split; [exists 1%nat; split; [lia|reflexivity]|].
    split; [intros [H|[]]; discriminate|]. eexists; exact C0. }
  destruct (success (_validate_files_compatibility _ _ _ _)); cbn [negb].
  2:{ cbn. exists 2%nat. split; [lia|reflexivity]. }
  destruct (is_cancelled 1) eqn:C1.
  { cbn. split; [exists 2%nat; split; [lia|reflexivity]|].
    split; [intros [H|[H|[]]]; discriminate|]. eexists; exact C1. }
  destruct (is_cancelled 2) eqn:C2.
  { cbn. split; [exists 3%nat; split; [lia|reflexivity]|].
    split; [intros [H|[H|[H|[]]]]; discriminate|]. eexists; exact C2. }
  destruct (process_files _ _ _ _ _ _ _ _ _ _ _) as [m c] eqn:P.
  apply process_files_trace in P. destruct P as (k & Hk & Ht & Hr).
  cbn [trace] in Ht. fold n in Hk.
  destruct m as [merged_data|].
  2:{ cbn [finish result progress]. rewrite Ht.
      split; [exists (3 + k)%nat; split;
              [lia|symmetry; now apply firstn_stages_files]|].
      split; [|exact Hr].
      intros H. apply in_app_or in H. destruct H as [[H|[H|[H|[]]]]|H];
        try discriminate. now apply NoSave in H. }
  fold n in Hr. subst k.
  assert (Full : ((trace c ++ [Combine]) ++ [ValidateQuality]) ++ [Save]
                 = all_stages n).
  { rewrite Ht. unfold all_stages. now rewrite <- !app_assoc. }
  assert (One : trace c ++ [Combine] = firstn (3 + n + 1) (all_stages n)).
  { rewrite Ht, firstn_stages_end by lia. cbn [firstn].
    now rewrite <- app_assoc. }
  assert (Two : (trace c ++ [Combine]) ++ [ValidateQuality]
                = firstn (3 + n + 2) (all_stages n)).
  { rewrite Ht, firstn_stages_end by lia. cbn [firstn].
    now rewrite <- !app_assoc. }
  assert (All : all_stages n = firstn (n + 6) (all_stages n)).
  { symmetry. apply firstn_all2. unfold all_stages.
    cbn [app List.length]. rewrite length_app, length_map, length_seq.
    cbn. lia. }
  assert (NoSave2 : ~ In Save ((trace c ++ [Combine]) ++ [ValidateQuality])).
  { rewrite Ht. intros H.
    repeat (apply in_app_or in H; destruct H as [H|H]);
      try (now apply NoSave in H);
      repeat (destruct H as [H|H]; try discriminate); contradiction. }
  assert (NoSave1 : ~ In Save (trace c ++ [Combine])).
  { intros H. apply NoSave2. apply in_or_app. now left. }
  destruct c as [cn ce cp ct]. cbn [trace] in *.
  unfold announce, polled, finish. cbn [polls norm errors trace].
  destruct (combine _ _ _) as [e|combined_data].
  { cbn [result progress]. exists (3 + n + 1)%nat. split; [lia|exact One]. }
  destruct (is_cancelled cp) eqn:C3.
  { cbn [result progress].
    split; [exists (3 + n + 1)%nat; split; [lia|exact One]|].
    split; [exact NoSave1|eexists; exact C3]. }
  destruct (success (validate_merged combined_data _)) eqn:Q;
    unfold _log_error; cbn [polls norm errors trace].
  - destruct (is_cancelled (S cp)) eqn:C4.
    { cbn [result progress].
      split; [exists (3 + n + 2)%nat; split; [lia|exact Two]|].
      split; [exact NoSave2|eexists; exact C4]. }
    destruct (save combined_data output_file) as [e|]; cbn [result progress].
    + exists (n + 6)%nat. split; [lia|]. rewrite Full. exact All.
    + exact Full.
  - destruct (is_cancelled (S cp)) eqn:C4.
    { cbn [result progress].
      split; [exists (3 + n + 2)%nat; split; [lia|exact Two]|].
      split; [exact NoSave2|eexists; exact C4]. }
    destruct (save combined_data output_file) as [e|]; cbn [result progress].
    + exists (n + 6)%nat. split; [lia|]. rewrite Full. exact All.
    + exact Full.
Qed.

(** X8. Unless the cancellation flag is set, a run can fail only at the
    analysis of the reference file, at the compatibility validation, when
    the frames are combined or when the result is saved: an error in the
    processing of a candidate file never ends the run. *)
Theorem file_errors_never_fail_the_run (reference_file output_file : pystr)
    (merge_files : list pystr) (st : nstate) :
  (forall j, is_cancelled j = false) ->
  let reference := read_file_structure reference_file in
  let r :=
    _merge_process read_file_structure read_sheet_data path_name now
      is_cancelled combine validate_merged save
      reference_file merge_files output_file st in
  match result r with
  | Completed | CompletedWithWarnings => True
  | Cancelled => False
  | Failed message =>
    has_error reference = true
    \/ sheets reference = []
    \/ success (_validate_files_compatibility read_file_structure path_name
                  reference_file merge_files) = false
    \/ (exists merged_data st', combine merged_data reference st' = inl message)
    \/ (exists combined_data, save combined_data output_file = Some message)
  end.
Proof.
  intros NC reference r.
  unfold r, _merge_process. fold reference.
  destruct (has_error reference); [cbn; now left|].
  destruct (sheets reference) as [|s0 ss]; [cbn; right; now left|].
  cbn [announce polls norm errors trace app polled].
  rewrite !NC.
  destruct (success (_validate_files_compatibility _ _ _ _)); cbn [negb];
    [|cbn; right; right; now left].
  destruct (process_files _ _ _ _ _ _ _ _ _ _ _) as [m c] eqn:P.
  apply process_files_trace in P. destruct P as (k & _ & _ & Hr).
  destruct m as [merged_data|];
    [|destruct Hr as [j Hj]; rewrite NC in Hj; discriminate].
  destruct (combine _ _ _) as [e|combined_data] eqn:Cb.
  { cbn. right; right; right; left. eauto. }
  rewrite !NC.
  destruct (save combined_data output_file) as [e|] eqn:Sv.
  { cbn. right; right; right; right. eauto. }
  cbn. destruct (success _); exact I.
Qed.

End ControllerMore.

Section ControllerMoreExamples.
Import PyStr PyFloat PyDate Cell Dict Processor Normalizer Controller Scenario.


(** The run on [staff.xlsx], never cancelled, does not end cancelled. *)
Lemma file_errors_never_fail_the_run_witness :
  result (merge ["staff.xlsx"%string]) <> Cancelled.
Proof.
  pose proof (@file_errors_never_fail_the_run latin files data base_name
                clock never_cancelled combine validate_merged save
                (py "ref.xlsx") (py "out.xlsx") [py "staff.xlsx"]
                (mkstate [] 0) (fun j => eq_refl)) as H.
  cbv zeta in H. intros E. unfold merge in E. cbn [map] in E.
  rewrite E in H. exact H.
Defined.

End ControllerMoreExamples.

(* ================================================================== *)
(** * More on the normalizer ([normalizer.py]) *)
(* ================================================================== *)

Section NormalizerMore.
Import PyStr PyFloat PyDate Cell Dict Normalizer.
Variable now : nat -> datetime.
Context {U : PyUnicode}.

(** ** The log of a column *)

Section SeriesLoop.
Variables file sheet column : pystr.
Variable body : Z -> cell -> nstate -> cell * nstate.
Hypothesis body_stores :
  forall idx value st,
    exists converted_value change,
      In change [number_format; date_format; text_format]
      /\ (isna value = true -> converted_value = value)
      /\ body idx value st
         = store now st file sheet idx column change value converted_value.

Lemma series_loop_log (series : list cell) :
  forall idx st result st',
    series_loop body series idx st = (result, st') ->
    List.length result = List.length series
    /\ Forall2 (fun v v' => isna v = true -> v' = v) series result
    /\ exists entries,
         change_logs st' = change_logs st ++ entries
         /\ ticks st' = (ticks st + List.length entries)%nat
         /\ map row_index entries = changed_rows series result idx
         /\ Forall (fun e =>
                      file_name e = file /\ sheet_name e = sheet
                      /\ column_name e = column
                      /\ In (kind e) [number_format; date_format; text_format]
                      /\ idx <= row_index e
                      /\ nth_error series (Z.to_nat (row_index e - idx))
                         = Some (original_value e)
                      /\ nth_error result (Z.to_nat (row_index e - idx))
                         = Some (new_value e))
                   entries.
Proof.
  induction series as [|v series IH]; intros idx st result st' H.
  - cbn in H. injection H as <- <-. split; [reflexivity|].
    split; [constructor|]. exists []. cbn. rewrite app_nil_r.
    repeat split; [lia|constructor].
  - cbn [series_loop] in H.
    destruct (body_stores idx v st) as (v' & k & Hk & Hna & Hb).
    rewrite Hb in H. unfold store in H.
    destruct (series_loop body series (idx + 1) _) as [vs st2] eqn:L.
    injection H as <- <-.
    apply IH in L. destruct L as (Hlen & Hkeep & entries & Hl & Ht & Hr & Hf).
    split; [cbn; now rewrite Hlen|]. split; [now constructor|].
    assert (Shift : Forall (fun e =>
                      file_name e = file /\ sheet_name e = sheet
                      /\ column_name e = column
                      /\ In (kind e) [number_format; date_format; text_format]
                      /\ idx <= row_index e
                      /\ nth_error (v :: series) (Z.to_nat (row_index e - idx))
                         = Some (original_value e)
                      /\ nth_error (v' :: vs) (Z.to_nat (row_index e - idx))
                         = Some (new_value e)) entries).
    { eapply Forall_impl; [|exact Hf]. cbv beta.
      intros e (E1 & E2 & E3 & E4 & E5 & E6 & E7).
      replace (Z.to_nat (row_index e - idx))
        with (S (Z.to_nat (row_index e - (idx + 1)))) by lia.
      cbn [nth_error]. repeat split; try assumption. lia. }
    cbn [changed_rows].
    destruct (negb (str_eqb (str_of v) (str_of v'))).
    + eexists (_ :: entries). cbn [_log_change_dict change_logs ticks] in Hl, Ht.
      split; [rewrite Hl, <- app_assoc; reflexivity|].
      split; [rewrite Ht; cbn; lia|].
      split; [cbn; now rewrite Hr|].
      constructor; [|exact Shift].
      cbn. rewrite Z.sub_diag. cbn. repeat split; try assumption. lia.
    + exists entries. repeat split; assumption.
Qed.

End SeriesLoop.

Lemma store_same (st : nstate) (file sheet : pystr) (idx : Z)
    (column : pystr) (change : change_type) (value : cell) :
  store now st file sheet idx column change value value = (value, st).
Proof. unfold store. now rewrite str_eqb_refl. Qed.

Lemma numbers_cell_stores (standard : standard) (column file sheet : pystr) :
  forall idx value st,
    exists converted_value change,
      In change [number_format; date_format; text_format]
      /\ (isna value = true -> converted_value = value)
      /\ _normalize_numbers_cell now standard column file sheet idx value st
         = store now st file sheet idx column change value converted_value.
Proof.
  intros idx value st. unfold _normalize_numbers_cell.
  destruct (isna value) eqn:Hna.
  - exists value, number_format. rewrite store_same.
    repeat split. now left.
  - destruct (convert_number _ value) as [x|].
    + exists (VFloat x), number_format. repeat split; [now left|discriminate].
    + exists value, number_format. rewrite store_same.
      repeat split. now left.
Qed.

Lemma dates_cell_stores (standard : standard) (column file sheet : pystr) :
  forall idx value st,
    exists converted_value change,
      In change [number_format; date_format; text_format]
      /\ (isna value = true -> converted_value = value)
      /\ _normalize_dates_cell now standard column file sheet idx value st
         = store now st file sheet idx column change value converted_value.
Proof.
  intros idx value st. unfold _normalize_dates_cell.
  destruct (isna value) eqn:Hna.
  - exists value, date_format. rewrite store_same.
    repeat split. right; now left.
  - destruct (convert_date _ value) as [x|].
    + exists (VStr x), date_format.
      repeat split; [right; now left|discriminate].
    + exists value, date_format. rewrite store_same.
      repeat split. right; now left.
Qed.

Lemma text_cell_stores (standard : standard) (column file sheet : pystr) :
  forall idx value st,
    exists converted_value change,
      In change [number_format; date_format; text_format]
      /\ (isna value = true -> converted_value = value)
      /\ _normalize_text_cell now standard column file sheet idx value st
         = store now st file sheet idx column change value converted_value.
Proof.
  intros idx value st. unfold _normalize_text_cell.
  destruct (isna value) eqn:Hna.
  - exists value, text_format. rewrite store_same.
    repeat split. right; right; now left.
  - eexists. exists text_format.
    split; [right; right; now left|]. split; [discriminate|reflexivity].
Qed.

Lemma normalize_column_log (series : list cell) (standard : standard)
    (column file sheet : pystr) (st : nstate) result st' :
  _normalize_column now series standard column file sheet st = (result, st') ->
  List.length result = List.length series
  /\ Forall2 (fun v v' => isna v = true -> v' = v) series result
  /\ exists entries,
       change_logs st' = change_logs st ++ entries
       /\ ticks st' = (ticks st + List.length entries)%nat
       /\ map row_index entries = changed_rows series result 0
       /\ Forall (fun e =>
                    file_name e = file /\ sheet_name e = sheet
                    /\ column_name e = column
                    /\ In (kind e) [number_format; date_format; text_format]
                    /\ 0 <= row_index e
                    /\ nth_error series (Z.to_nat (row_index e - 0))
                       = Some (original_value e)
                    /\ nth_error result (Z.to_nat (row_index e - 0))
                       = Some (new_value e))
                 entries.
Proof.
  unfold _normalize_column.
  destruct (str_eqb _ (py "number")).
  { apply series_loop_log, numbers_cell_stores. }
  destruct (str_eqb _ (py "date")).
  { apply series_loop_log, dates_cell_stores. }
  destruct (str_eqb _ (py "text")).
  { apply series_loop_log, text_cell_stores. }
  intros H. injection H as <- <-. split; [reflexivity|].
  split.
  { induction series; constructor; auto. }
  exists []. cbn [List.length map]. rewrite app_nil_r, Nat.add_0_r.
  repeat split; [|constructor].
  assert (G : forall l idx, changed_rows l l idx = []).
  { induction l as [|v l IH]; intros idx; [reflexivity|].
    cbn. now rewrite str_eqb_refl, IH. }
  now rewrite G.
Qed.


(** X10. A missing cell ([None] or NaN) comes out of the normalization of
    its column as it went in, whatever the type of the column. *)
Theorem missing_cells_are_kept (series : list cell) (standard : standard)
    (column file sheet : pystr) (st : nstate) (i : nat) (value : cell) :
  nth_error series i = Some value ->
  isna value = true ->
  nth_error
    (fst (_normalize_column now series standard column file sheet st)) i
  = Some value.
Proof.
  intros Hi Hna.
  destruct (_normalize_column _ _ _ _ _ _ _) as [result st'] eqn:H.
  apply normalize_column_log in H. destruct H as (_ & Hkeep & _).
  cbn [fst]. clear -Hkeep Hi Hna. revert i Hi.
  induction Hkeep as [|v v' series result Hv _ IH]; intros i Hi.
  - destruct i; discriminate.
  - destruct i as [|i]; cbn in *.
    + injection Hi as ->. now rewrite Hv.
    + now apply IH.
Qed.

(** ** Text that is already tidy *)

Lemma lstrip_head (s : pystr) :
  lstrip s = [] \/ exists c t, lstrip s = c :: t /\ is_space c = false.
Proof.
  induction s as [|c s IH]; [now left|]. cbn.
  destruct (is_space c) eqn:E; [exact IH|]. right. now exists c, s.
Qed.

Lemma lstrip_snoc (a : pystr) (c : N) :
  is_space c = false -> exists u, lstrip (a ++ [c]) = u ++ [c].
Proof.
  intros Hc. induction a as [|x a IH]; cbn.
  - rewrite Hc. now exists [].
  - destruct (is_space x); [exact IH|]. now exists (x :: a).
Qed.

(** A text without white space at either end. *)
Lemma strip_fixed (r : pystr) :
  (r = [] \/ (exists c t, r = c :: t /\ is_space c = false)
             /\ (exists u d, r = u ++ [d] /\ is_space d = false)) ->
  strip r = r.
Proof.
  intros [->|[(c & t & Hr & Hc) (u & d & Hr' & Hd)]]; [reflexivity|].
  unfold strip, rstrip.
  assert (L : lstrip r = r) by (rewrite Hr; cbn; now rewrite Hc).
  rewrite L, Hr', rev_app_distr. cbn. rewrite Hd. cbn.
  now rewrite rev_involutive.
Qed.

Lemma strip_edges (s : pystr) :
  strip s = []
  \/ (exists c t, strip s = c :: t /\ is_space c = false)
     /\ (exists u d, strip s = u ++ [d] /\ is_space d = false).
Proof.
  unfold strip, rstrip.
  destruct (lstrip_head s) as [->|(c & t & Hs & Hc)]; [now left|].
  rewrite Hs.
  destruct (lstrip_head (rev (c :: t))) as [E|(d & w & Hw & Hd)].
  - left. now rewrite E.
  - right. split.
    + cbn [rev] in Hw |- *.
      destruct (lstrip_snoc (rev t) c Hc) as [u Hu].
      rewrite Hu, rev_app_distr. cbn. now exists c, (rev u).
    + rewrite Hw. cbn. now exists (rev w), d.
Qed.

Lemma strip_idem (s : pystr) : strip (strip s) = strip s.
Proof. apply strip_fixed, strip_edges. Qed.

Lemma collapse_from_idem (s : pystr) :
  forall b,
    collapse_from (collapse_from s b) false = collapse_from s b
    /\ (b = true ->
        collapse_from (collapse_from s b) true = collapse_from s b).
Proof.
  induction s as [|c s IH]; intros b; [now split|]. cbn.
  destruct (is_space c) eqn:E.
  - destruct b.
    + apply IH.
    + split; [|discriminate]. cbn.
      now rewrite (proj2 (IH true) eq_refl).
  - cbn. rewrite E. rewrite (proj1 (IH false)). now split.
Qed.

Lemma collapse_idem (s : pystr) :
  collapse_spaces (collapse_spaces s) = collapse_spaces s.
Proof. apply collapse_from_idem. Qed.

Lemma collapse_from_snoc (u : pystr) (d : N) :
  is_space d = false ->
  forall b, collapse_from (u ++ [d]) b = collapse_from u b ++ [d].
Proof.
  intros Hd. induction u as [|c u IH]; intros b; cbn.
  - now rewrite Hd.
  - destruct (is_space c); [destruct b|]; cbn; now rewrite IH.
Qed.

Lemma strip_collapse_strip (s : pystr) :
  strip (collapse_spaces (strip s)) = collapse_spaces (strip s).
Proof.
  apply strip_fixed.
  destruct (strip_edges s) as [->|[(c & t & Hr & Hc) (u & d & Hr' & Hd)]];
    [now left|].
  right. split.
  - rewrite Hr. unfold collapse_spaces. cbn. rewrite Hc. eauto.
  - rewrite Hr'. unfold collapse_spaces.
    rewrite collapse_from_snoc by exact Hd. eauto.
Qed.

Lemma text_cell_fixed (standard : standard) (column file sheet : pystr) :
  std_case standard = None ->
  forall idx value st column' file' sheet' idx' st',
    _normalize_text_cell now standard column' file' sheet' idx'
      (fst (_normalize_text_cell now standard column file sheet idx value st))
      st'
    = (fst (_normalize_text_cell now standard column file sheet idx value st),
       st').
Proof.
  intros Hcase idx value st column' file' sheet' idx' st'.
  unfold _normalize_text_cell. rewrite Hcase. cbn [case_is].
  destruct (isna value) eqn:Hna; cbn [fst]; [now rewrite Hna|].
  unfold store. cbn [fst isna str_of].
  destruct (get (std_trim_whitespace standard) true),
           (get (std_normalize_spaces standard) true);
    rewrite ?strip_collapse_strip, ?collapse_idem, ?strip_idem,
            str_eqb_refl; reflexivity.
Qed.

Lemma text_loop_fixed (standard : standard) (column file sheet : pystr)
    (column' file' sheet' : pystr) :
  std_case standard = None ->
  forall series idx st idx' st',
    series_loop (_normalize_text_cell now standard column' file' sheet')
      (fst (series_loop (_normalize_text_cell now standard column file sheet)
              series idx st)) idx' st'
    = (fst (series_loop (_normalize_text_cell now standard column file sheet)
              series idx st), st').
Proof.
  intros Hcase. induction series as [|v series IH]; intros idx st idx' st';
    [reflexivity|].
  cbn [series_loop].
  pose proof (text_cell_fixed standard column file sheet Hcase idx v st
                column' file' sheet' idx' st') as C.
  destruct (_normalize_text_cell now standard column file sheet idx v st)
    as [v1 st1].
  specialize (IH (idx + 1) st1 (idx' + 1) st').
  destruct (series_loop _ series (idx + 1) st1) as [vs st2].
  cbn [fst] in *. cbn [series_loop]. rewrite C. now rewrite IH.
Qed.

(** X11. Text that has been normalized is left alone by a second
    normalization under the same standard when the standard has no rule
    for the case of the letters: the cells stay as they are and nothing
    is logged, whichever of the trimming and the collapsing of white space
    the standard asks for. *)
Theorem normalized_text_is_stable (series : list cell) (standard : standard)
    (column file sheet column' file' sheet' : pystr) (st st' : nstate) :
  std_case standard = None ->
  let result :=
    fst (_normalize_text now series standard column file sheet st) in
  _normalize_text now result standard column' file' sheet' st'
  = (result, st').
Proof.
  intros Hcase. cbv zeta. unfold _normalize_text.
  now apply text_loop_fixed.
Qed.

(** ** The removal of the empty rows *)

Lemma keep_rows_kept (df : DataFrame) (series : list cell) :
  forall i,
    keep_rows df series i
    = map (fun j => nth (j - i) series VNone)
          (kept_rows df i (List.length series)).
Proof.
  unfold kept_rows. induction series as [|v series IH]; intros i;
    [reflexivity|].
  cbn [keep_rows List.length seq filter]. rewrite IH.
  assert (M : map (fun j => nth (j - S i) series VNone)
                  (filter (fun j => negb (row_all_na df j))
                          (seq (S i) (List.length series)))
              = map (fun j => nth (j - i) (v :: series) VNone)
                    (filter (fun j => negb (row_all_na df j))
                            (seq (S i) (List.length series)))).
  { apply map_ext_in. intros j Hj. apply filter_In in Hj as [Hj _].
    apply in_seq in Hj.
    replace (j - i)%nat with (S (j - S i)) by lia. reflexivity. }
  destruct (row_all_na df i); cbn [negb map]; rewrite M; [reflexivity|].
  now rewrite Nat.sub_diag.
Qed.

Lemma forallb_map_ext {A B} (f : B -> bool) (g : A -> B) (h : A -> bool)
    (l : list A) :
  (forall x, f (g x) = h x) -> forallb f (map g l) = forallb h l.
Proof.
  intros H. induction l as [|x l IH]; [reflexivity|].
  cbn. now rewrite H, IH.
Qed.

Lemma rows_are_nrows (n : nat) (df : DataFrame) :
  rows_are n df -> df <> [] -> nrows df = n.
Proof.
  intros H Hne. destruct df as [|[c s] df]; [contradiction|].
  apply Forall_inv in H. exact H.
Qed.

(** What [_clean_data] does to a frame whose columns have [n] rows. *)
Lemma clean_data_spec (df : DataFrame) (n : nat)
    (file sheet : pystr) (st : nstate) :
  rows_are n df ->
  let cleaned := fst (_clean_data now df file sheet st) in
  let st' := snd (_clean_data now df file sheet st) in
  let kept := kept_rows df 0 n in
  cleaned
  = map (fun '(column, series) =>
           (column, map (fun j => nth j series VNone) kept)) df
  /\ rows_are (List.length kept) cleaned
  /\ (forall i, (i < nrows cleaned)%nat -> row_all_na cleaned i = false)
  /\ (List.length (change_logs st')
      = List.length (change_logs st)
        + (if Nat.eqb (nrows df) (nrows cleaned) then 0 else 1))%nat.
Proof.
  intros Hrows cleaned st' kept.
  assert (C : cleaned
              = map (fun '(column, series) =>
                       (column, map (fun j => nth j series VNone) kept)) df).
  { unfold cleaned, _clean_data. cbn [fst]. unfold dropna_all.
    apply map_ext_in. intros [c series] Hin.
    rewrite keep_rows_kept.
    assert (L : List.length series = n).
    { unfold rows_are in Hrows.
      rewrite Forall_forall in Hrows. exact (Hrows _ Hin). }
    rewrite L. fold kept. f_equal. apply map_ext. intros j.
    now rewrite Nat.sub_0_r. }
  assert (R : rows_are (List.length kept) cleaned).
  { rewrite C. unfold rows_are. apply Forall_forall.
    intros [c series] Hin. apply in_map_iff in Hin.
    destruct Hin as ([c0 s0] & E & _). injection E as <- <-.
    cbn. apply length_map. }
  split; [exact C|]. split; [exact R|]. split.
  - intros i Hi.
    assert (Hne : cleaned <> []) by (intros E; rewrite E in Hi; cbn in Hi; lia).
    rewrite (rows_are_nrows _ _ R Hne) in Hi.
    pose proof (nth_In kept O Hi) as K.
    change (In (nth i kept O)
               (filter (fun j => negb (row_all_na df j)) (seq 0 n))) in K.
    apply filter_In in K as [_ K].
    apply negb_true_iff in K. rewrite <- K.
    rewrite C. unfold row_all_na. apply forallb_map_ext.
    intros [c series]. f_equal.
    rewrite (nth_indep _ VNone (nth O series VNone))
      by (rewrite length_map; exact Hi).
    rewrite (map_nth (fun j => nth j series VNone)). reflexivity.
  - unfold st', cleaned, _clean_data. cbn [fst snd].
    destruct (Nat.eqb (nrows df) (nrows (dropna_all df))); cbn [negb].
    + lia.
    + cbn. rewrite length_app. cbn. lia.
Qed.


(** ** The summary of the log *)

Lemma change_type_name_injective (a b : change_type) :
  str_eqb (change_type_name a) (change_type_name b) = true -> a = b.
Proof. destruct a, b; vm_compute; intros H; first [reflexivity|discriminate]. Qed.

Lemma summary_loop (k : change_type) (logs : list log_entry) :
  forall summary : dict Z,
    get (dict_get
           (fold_left
              (fun summary change =>
                 let change_type := change_type_name (kind change) in
                 dict_set summary change_type
                          (get (dict_get summary change_type) 0 + 1))
              logs summary)
           (change_type_name k)) 0
    = get (dict_get summary (change_type_name k)) 0
      + entries_of k (mkstate logs 0)
    /\ (dict_get
          (fold_left
             (fun summary change =>
                let change_type := change_type_name (kind change) in
                dict_set summary change_type
                         (get (dict_get summary change_type) 0 + 1))
             logs summary)
          (change_type_name k) = None
        <-> dict_get summary (change_type_name k) = None
            /\ entries_of k (mkstate logs 0) = 0).
Proof.
  unfold entries_of. cbn [change_logs].
  induction logs as [|e logs IH]; intros summary.
  - cbn. split; [lia|]. tauto.
  - cbn [fold_left filter]. destruct (IH (dict_set summary
        (change_type_name (kind e))
        (get (dict_get summary (change_type_name (kind e))) 0 + 1)))
      as [IH1 IH2].
    rewrite IH1. clear IH1.
    destruct (str_eqb (change_type_name (kind e)) (change_type_name k)) eqn:E.
    + apply change_type_name_injective in E. rewrite E in *.
      split.
      * rewrite dict_get_set_same. cbn [get List.length]. lia.
      * rewrite IH2, dict_get_set_same. cbn [List.length].
        split; [intros [H _]; discriminate|intros [_ H]; lia].
    + assert (N : change_type_name (kind e) <> change_type_name k)
        by (now apply str_eqb_neq).
      split.
      * now rewrite dict_get_set_other.
      * rewrite IH2. now rewrite dict_get_set_other.
Qed.

(** X13. The summary of the log counts, for every change type, the
    entries of that type: a type without an entry has no key in the
    summary, and any other is mapped to the number of its entries. *)
Theorem summary_counts_the_entries (st : nstate) (k : change_type) :
  dict_get (get_change_summary st) (change_type_name k)
  = if entries_of k st =? 0 then None else Some (entries_of k st).
Proof.
  destruct (summary_loop k (change_logs st) []) as [H1 H2].
  unfold get_change_summary.
  assert (E : entries_of k (mkstate (change_logs st) 0) = entries_of k st)
    by reflexivity.
  rewrite E in *. cbn [dict_get get] in H1, H2.
  destruct (dict_get _ (change_type_name k)) as [v|] eqn:G.
  - cbn [get] in H1. subst v.
    destruct (entries_of k st =? 0) eqn:Z0; [|reflexivity].
    apply Z.eqb_eq in Z0.
    assert (C : Some (0 + entries_of k st) = None)
      by (apply H2; split; [reflexivity|exact Z0]).
    discriminate.
  - destruct (proj1 H2 eq_refl) as [_ H]. now rewrite H.
Qed.

End NormalizerMore.

Section NormalizerMoreExamples.
Import PyStr PyFloat PyDate Cell Dict Normalizer Scenario.

(** The empty cell of the column [name] of the sparse frame. *)
Lemma missing_cells_are_kept_witness :
  nth_error
    (fst (@_normalize_column clock latin
            [VStr (py " kim  lee "); VNone; VStr (py "park")]
            empty_standard (py "name") (py "staff.xlsx") (py "Employees")
            (mkstate [] 0))) 1
  = Some VNone.
Proof.
  apply (@missing_cells_are_kept clock latin); reflexivity.
Defined.

(** The column [name] of the sparse frame, normalized twice. *)
Lemma normalized_text_is_stable_witness :
  let result :=
    fst (@_normalize_text clock latin
           [VStr (py " kim  lee "); VNone; VStr (py "park")]
           empty_standard (py "name") (py "staff.xlsx") (py "Employees")
           (mkstate [] 0)) in
  @_normalize_text clock latin result empty_standard (py "name")
    (py "staff.xlsx") (py "Employees") (mkstate [] 7)
  = (result, mkstate [] 7).
Proof.
  apply (@normalized_text_is_stable clock latin). reflexivity.
Defined.


End NormalizerMoreExamples.

(* ================================================================== *)
(** * More on the analysis of a sheet ([processor.py]) *)
(* ================================================================== *)

Section AnalysisMore.
Import PyStr PyFloat Cell Dict Processor.

(** ** The type of a column *)

(** On ten samples or fewer the two quotients compare with 0.7 and 0.5 as
    the exact fractions do. *)
Lemma thresholds_are_exact (total count : Z) :
  1 <= total <= 10 -> 0 <= count <= 10 ->
  (0.7 <? truediv count total)%float = (7 * total <? 10 * count)
  /\ (0.5 <? truediv count total)%float = (total <? 2 * count).
Proof.
  intros Ht Hc.
  assert (T : forallb
                (fun t =>
                   forallb
                     (fun c =>
                        Bool.eqb (0.7 <? truediv c t)%float
                                 (7 * t <? 10 * c)
                        && Bool.eqb (0.5 <? truediv c t)%float
                                    (t <? 2 * c))
                     (map Z.of_nat (seq 0 11)))
                (map Z.of_nat (seq 1 10)) = true)
    by (vm_compute; reflexivity).
  rewrite forallb_forall in T.
  assert (It : In total (map Z.of_nat (seq 1 10))).
  { apply in_map_iff. exists (Z.to_nat total). split; [lia|].
    apply in_seq. lia. }
  specialize (T total It). rewrite forallb_forall in T.
  assert (Ic : In count (map Z.of_nat (seq 0 11))).
  { apply in_map_iff. exists (Z.to_nat count). split; [lia|].
    apply in_seq. lia. }
  specialize (T count Ic). apply andb_true_iff in T as [T1 T2].
  apply Bool.eqb_prop in T1, T2. now split.
Qed.

Lemma count_class_bounds (k : sample_class) (sample_values : list cell) :
  0 <= count_class k sample_values <= Z.of_nat (List.length sample_values).
Proof.
  unfold count_class. split; [lia|].
  apply inj_le, filter_length_le.
Qed.

(** X14. On one to ten samples, as the analysis of a sheet collects them,
    the inferred type is [number] exactly when more than seven tenths of
    the samples are numbers, else [date] exactly when more than half of
    them are dates, else [text]: the floating-point quotients decide as
    the exact fractions do, so that seven numbers among ten samples are
    not enough. *)
Theorem inferred_type_follows_the_counts (sample_values : list cell) :
  (1 <= List.length sample_values <= 10)%nat ->
  let total := Z.of_nat (List.length sample_values) in
  let number_count := count_class NumberSample sample_values in
  let date_count := count_class DateSample sample_values in
  _infer_data_type sample_values
  = Some (if 7 * total <? 10 * number_count then py "number"
          else if total <? 2 * date_count then py "date"
          else py "text").
Proof.
  intros H total number_count date_count. unfold _infer_data_type.
  fold total number_count date_count.
  pose proof (count_class_bounds NumberSample sample_values) as Bn.
  pose proof (count_class_bounds DateSample sample_values) as Bd.
  fold total number_count in Bn. fold total date_count in Bd.
  assert (Ht : 1 <= total <= 10) by (unfold total; lia).
  destruct (thresholds_are_exact total number_count Ht ltac:(lia)) as [N _].
  destruct (thresholds_are_exact total date_count Ht ltac:(lia)) as [_ D].
  rewrite N, D.
  replace (total =? 0) with false by (symmetry; apply Z.eqb_neq; lia).
  destruct (7 * total <? 10 * number_count); [reflexivity|].
  destruct (total <? 2 * date_count); reflexivity.
Qed.

(** ** The analysis of a sheet *)

Lemma infer_data_type_names (sample_values : list cell) (t : pystr) :
  _infer_data_type sample_values = Some t ->
  In t [py "number"; py "date"; py "text"].
Proof.
  unfold _infer_data_type. destruct (_ =? 0); [discriminate|].
  destruct (0.7 <? _)%float; [intros H; injection H as <-; now left|].
  destruct (0.5 <? _)%float; intros H; injection H as <-;
    [right; now left|right; right; now left].
Qed.

Lemma data_types_loop_names (data : list (list cell)) (data_start : Z)
    (columns : list pystr) :
  forall col_idx data_types c,
    In c columns
    \/ (exists t, dict_get data_types c = Some t
                  /\ In t [py "number"; py "date"; py "text"]) ->
    exists t,
      dict_get (data_types_loop data data_start columns col_idx data_types) c
      = Some t
      /\ In t [py "number"; py "date"; py "text"].
Proof.
  induction columns as [|col columns IH]; intros col_idx data_types c H.
  - destruct H as [[]|H]. exact H.
  - cbn [data_types_loop]. apply IH.
    destruct (str_eqb c col) eqn:E.
    + right. apply str_eqb_eq in E. subst col.
      rewrite dict_get_set_same. eexists. split; [reflexivity|].
      destruct (column_samples data data_start col_idx) as [|v vs];
        [right; right; now left|].
      destruct (_infer_data_type (v :: vs)) as [t|] eqn:I;
        [now apply infer_data_type_names in I|right; right; now left].
    + apply str_eqb_neq in E. destruct H as [[H|H]|H].
      * congruence.
      * now left.
      * right. rewrite dict_get_set_other by congruence. exact H.
Qed.

Lemma count_from_length (n : nat) : forall lo, List.length (count_from lo n) = n.
Proof. induction n as [|n IH]; intros lo; cbn; [reflexivity|now rewrite IH]. Qed.

Lemma column_names_length (headers : list cell) :
  forall i, List.length (column_names headers i) = List.length headers.
Proof.
  induction headers as [|h headers IH]; intros i; cbn;
    [reflexivity|now rewrite IH].
Qed.

Lemma sheet_data_shape (ws : Worksheet) (rows cols : Z) :
  List.length (sheet_data ws rows cols) = Z.to_nat rows
  /\ forall row, In row (sheet_data ws rows cols) ->
                 List.length row = Z.to_nat cols.
Proof.
  unfold sheet_data. split.
  - now rewrite length_map, count_from_length.
  - intros row H. apply in_map_iff in H. destruct H as (r & <- & _).
    now rewrite length_map, count_from_length.
Qed.

(** X15. A sheet that is analysed has its header among its first ten rows
    and two columns at least; the data start on the row after the header,
    the row count is what is left of the sheet below the header, one
    column name is given for each of the first fifty columns, at most five
    rows are kept as samples, and every column is given one of the three
    types. *)
Theorem analysed_sheet_shape (ws : Worksheet) (sheet_name : pystr)
    (info : SheetInfo) :
  _analyze_sheet ws sheet_name = Some info ->
  name info = sheet_name
  /\ 0 <= header_row info < 10
  /\ header_row info < max_row ws
  /\ data_start_row info = header_row info + 1
  /\ row_count info = max_row ws - data_start_row info
  /\ 2 <= max_column ws
  /\ Z.of_nat (List.length (columns info)) = Z.min (max_column ws) 50
  /\ (List.length (sample_data info) <= 5)%nat
  /\ forall c, In c (columns info) ->
       exists t, dict_get (data_types info) c = Some t
                 /\ In t [py "number"; py "date"; py "text"].
Proof.
  unfold _analyze_sheet.
  set (rows := if max_row ws =? 0 then 0 else Z.min (max_row ws) 100).
  set (cols := if max_column ws =? 0 then 0 else Z.min (max_column ws) 50).
  destruct ((rows =? 0) || (cols =? 0)); [discriminate|].
  set (data := sheet_data ws rows cols).
  destruct (sheet_data_shape ws rows cols) as [Hlen Hrow].
  fold data in Hlen, Hrow.
  destruct (detect_header_row_cases data)
    as [E|(Hb & row & Hr & _ & Hn)].
  { rewrite E. discriminate. }
  set (h := _detect_header_row data) in *.
  destruct (h =? -1) eqn:E; [apply Z.eqb_eq in E; lia|].
  intros H. injection H as <-.
  cbn [name header_row data_start_row row_count columns sample_data
       data_types].
  assert (Hin : In row data) by (eapply nth_error_In; exact Hr).
  assert (Hh : (Z.to_nat h < List.length data)%nat)
    by (apply nth_error_Some; rewrite Hr; discriminate).
  assert (Hw : (2 <= List.length row)%nat).
  { pose proof (filter_length_le (fun cell => negb (is_none cell)) row) as F.
    unfold non_empty_cells in Hn. lia. }
  rewrite (Hrow row Hin) in Hw. rewrite Hlen in Hh.
  assert (Hnth : nth (Z.to_nat h) data [] = row)
    by (now apply nth_error_nth).
  rewrite Hnth.
  assert (Rows : rows <= max_row ws)
    by (unfold rows in *; destruct (max_row ws =? 0); lia).
  assert (Cols : cols = Z.min (max_column ws) 50 /\ 2 <= max_column ws)
    by (unfold cols in *; destruct (max_column ws =? 0); lia).
  split; [reflexivity|]. split; [exact Hb|]. split; [lia|].
  split; [reflexivity|]. split; [reflexivity|]. split; [lia|].
  split; [rewrite column_names_length, (Hrow row Hin); lia|].
  split.
  { destruct (_ <? _); [exact (firstn_le_length 5 _)|cbn; lia]. }
  intros c Hc. unfold _analyze_data_types.
  apply data_types_loop_names. now left.
Qed.

End AnalysisMore.

Section AnalysisMoreExamples.
Import PyStr PyFloat Cell Dict Processor.

(** Seven numbers and three texts: not a column of numbers. *)
Lemma inferred_type_follows_the_counts_witness :
  _infer_data_type (repeat (VInt 1) 7 ++ repeat (VStr (py "a")) 3)
  = Some (py "text").
Proof.
  apply (inferred_type_follows_the_counts
           (repeat (VInt 1) 7 ++ repeat (VStr (py "a")) 3)).
  cbn. lia.
Defined.

(** The worksheet [roster]: its header is its first row. *)
Lemma analysed_sheet_shape_witness :
  exists info,
    _analyze_sheet Scenario.roster (py "Roster") = Some info
    /\ header_row info < max_row Scenario.roster.
Proof.
  eexists. split.
  - vm_compute. reflexivity.
  - refine (proj1 (proj2 (proj2
      (analysed_sheet_shape Scenario.roster (py "Roster") _ _)))).
    vm_compute. reflexivity.
Defined.

End AnalysisMoreExamples.

(* ================================================================== *)
(** * Safe file names ([helpers.py]) *)
(* ================================================================== *)

Section HelpersMore.
Import PyStr Helpers.

Lemma replace_forbidden_allowed (s : pystr) :
  forallb (fun c => negb (is_forbidden c)) (replace_forbidden s) = true.
Proof.
  unfold replace_forbidden. induction s as [|c s IH]; [reflexivity|].
  cbn [map forallb]. rewrite IH, andb_true_r.
  destruct (is_forbidden c) eqn:E; [reflexivity|now rewrite E].
Qed.

Lemma replace_forbidden_fixed (s : pystr) :
  forallb (fun c => negb (is_forbidden c)) s = true ->
  replace_forbidden s = s.
Proof.
  unfold replace_forbidden. induction s as [|c s IH]; [reflexivity|].
  cbn [map forallb]. intros H. apply andb_true_iff in H as [H1 H2].
  apply negb_true_iff in H1. rewrite H1. f_equal. now apply IH.
Qed.

Lemma replace_pairs_cons2 (c d : N) (s : pystr) :
  replace_pairs (c :: d :: s)
  = if ((c =? 95) && (d =? 95))%N then 95%N :: replace_pairs s
    else c :: replace_pairs (d :: s).
Proof. reflexivity. Qed.

(** [replace_pairs] by the length of its argument. *)
Lemma replace_pairs_facts (n : nat) :
  forall s, (List.length s <= n)%nat ->
    (List.length (replace_pairs s) <= List.length s)%nat
    /\ (contains [95; 95]%N s = true ->
        (List.length (replace_pairs s) < List.length s)%nat)
    /\ (forall P : N -> bool,
          forallb P s = true -> forallb P (replace_pairs s) = true).
Proof.
  induction n as [|n IH]; intros s Hn.
  - destruct s; [|cbn in Hn; lia]. cbn.
    split; [lia|]. split; [discriminate|reflexivity].
  - destruct s as [|c [|d s]].
    + cbn. split; [lia|]. split; [discriminate|reflexivity].
    + cbn. split; [lia|]. split; [|intros P H; exact H].
      rewrite !andb_false_r. discriminate.
    + rewrite replace_pairs_cons2.
      destruct (IH s ltac:(cbn [List.length] in Hn |- *; lia)) as (L1 & _ & P1).
      destruct (IH (d :: s) ltac:(cbn [List.length] in Hn |- *; lia)) as (L2 & C2 & P2).
      destruct ((c =? 95)%N && (d =? 95)%N) eqn:E.
      * cbn [List.length] in *. split; [lia|]. split; [intros _; lia|].
        intros P HP. cbn [forallb] in HP |- *.
        apply andb_true_iff in HP as [Hc HP].
        apply andb_true_iff in HP as [Hd HP].
        apply andb_true_iff in E as [E _]. apply N.eqb_eq in E. subst c.
        rewrite Hc. now apply P1.
      * cbn [List.length] in *. split; [lia|]. split.
        -- intros H.
           assert (Hc : contains [95; 95]%N (c :: d :: s)
                        = starts_with [95; 95]%N (c :: d :: s)
                          || contains [95; 95]%N (d :: s)) by reflexivity.
           assert (St : starts_with [95; 95]%N (c :: d :: s) = false).
           { cbn [starts_with]. unfold cp_eqb.
             rewrite (N.eqb_sym 95 c), (N.eqb_sym 95 d), andb_true_r.
             exact E. }
           rewrite Hc, St in H. cbn [orb] in H.
           specialize (C2 H). lia.
        -- intros P HP. cbn [forallb] in HP |- *.
           apply andb_true_iff in HP as [Hc HP]. rewrite Hc.
           now apply P2.
Qed.

Lemma collapse_underscores_facts (fuel : nat) :
  forall s, (List.length s <= fuel)%nat ->
    contains [95; 95]%N (collapse_underscores fuel s) = false
    /\ (forall P : N -> bool,
          forallb P s = true ->
          forallb P (collapse_underscores fuel s) = true).
Proof.
  induction fuel as [|fuel IH]; intros s H.
  - destruct s; [|cbn in H; lia]. now split.
  - cbn [collapse_underscores].
    destruct (contains [95; 95]%N s) eqn:C; [|now split].
    destruct (replace_pairs_facts (List.length s) s (le_n _))
      as (_ & L & P).
    specialize (L C).
    destruct (IH (replace_pairs s) ltac:(lia)) as [I1 I2].
    split; [exact I1|]. intros Q HQ. apply I2. now apply P.
Qed.

Lemma collapse_underscores_fixed (fuel : nat) (s : pystr) :
  contains [95; 95]%N s = false -> collapse_underscores fuel s = s.
Proof. intros H. destruct fuel; [reflexivity|]. cbn. now rewrite H. Qed.

(** ** Stripping spaces and dots *)

Lemma lstrip_chars_suffix (s : pystr) :
  exists a, s = a ++ lstrip_chars s.
Proof.
  induction s as [|c s [a IH]]; [now exists []|]. cbn.
  destruct (is_space_or_dot c); [|now exists []].
  exists (c :: a). cbn. now f_equal.
Qed.

Lemma lstrip_chars_head (s : pystr) :
  lstrip_chars s = []
  \/ exists c t, lstrip_chars s = c :: t /\ is_space_or_dot c = false.
Proof.
  induction s as [|c s IH]; [now left|]. cbn.
  destruct (is_space_or_dot c) eqn:E; [exact IH|]. right. now exists c, s.
Qed.

Lemma lstrip_chars_snoc (a : pystr) (c : N) :
  is_space_or_dot c = false -> exists u, lstrip_chars (a ++ [c]) = u ++ [c].
Proof.
  intros Hc. induction a as [|x a IH]; cbn.
  - rewrite Hc. now exists [].
  - destruct (is_space_or_dot x); [exact IH|]. now exists (x :: a).
Qed.

Lemma strip_chars_middle (s : pystr) :
  exists a b, s = a ++ strip_chars s ++ b.
Proof.
  unfold strip_chars.
  destruct (lstrip_chars_suffix s) as [a Ha].
  destruct (lstrip_chars_suffix (rev (lstrip_chars s))) as [b Hb].
  exists a, (rev b). rewrite <- rev_app_distr, <- Hb, rev_involutive.
  exact Ha.
Qed.

Lemma strip_chars_fixed (r : pystr) :
  (r = [] \/ (exists c t, r = c :: t /\ is_space_or_dot c = false)
             /\ (exists u d, r = u ++ [d] /\ is_space_or_dot d = false)) ->
  strip_chars r = r.
Proof.
  intros [->|[(c & t & Hr & Hc) (u & d & Hr' & Hd)]]; [reflexivity|].
  unfold strip_chars.
  assert (L : lstrip_chars r = r) by (rewrite Hr; cbn; now rewrite Hc).
  rewrite L, Hr', rev_app_distr. cbn. rewrite Hd. cbn.
  now rewrite rev_involutive.
Qed.

Lemma strip_chars_edges (s : pystr) :
  strip_chars s = []
  \/ (exists c t, strip_chars s = c :: t /\ is_space_or_dot c = false)
     /\ (exists u d, strip_chars s = u ++ [d] /\ is_space_or_dot d = false).
Proof.
  unfold strip_chars.
  destruct (lstrip_chars_head s) as [->|(c & t & Hs & Hc)]; [now left|].
  rewrite Hs.
  destruct (lstrip_chars_head (rev (c :: t))) as [E|(d & w & Hw & Hd)].
  - left. now rewrite E.
  - right. split.
    + cbn [rev] in Hw |- *.
      destruct (lstrip_chars_snoc (rev t) c Hc) as [u Hu].
      rewrite Hu, rev_app_distr. cbn. now exists c, (rev u).
    + rewrite Hw. cbn. now exists (rev w), d.
Qed.

Lemma starts_with_app (p s b : pystr) :
  starts_with p s = true -> starts_with p (s ++ b) = true.
Proof.
  revert s. induction p as [|x p IH]; intros s H; [reflexivity|].
  destruct s as [|y s]; [discriminate|]. cbn in *.
  apply andb_true_iff in H as [H1 H2]. rewrite H1. now apply IH.
Qed.

Lemma contains_middle (p a m b : pystr) :
  contains p m = true -> contains p (a ++ m ++ b) = true.
Proof.
  intros H. induction a as [|x a IH].
  - cbn [app]. revert H. induction m as [|y m IHm]; intros H.
    + cbn in H. rewrite orb_false_r in H.
      destruct p; [|discriminate]. destruct b; reflexivity.
    + cbn [contains] in H. apply orb_true_iff in H as [H|H].
      * cbn [app contains]. change (y :: m ++ b) with ((y :: m) ++ b).
        now rewrite (starts_with_app _ _ b H).
      * cbn [app contains]. rewrite (IHm H). apply orb_true_r.
  - cbn [app contains]. rewrite IH. apply orb_true_r.
Qed.

(** X16. The name [create_safe_filename] gives is never empty, holds none
    of the nine forbidden characters and no two underscores in a row, has
    no space or dot at either end, and is a name the function leaves as
    it is. *)
Theorem safe_filename_is_safe (filename : pystr) :
  let safe_name := create_safe_filename filename in
  nonempty safe_name = true
  /\ forallb (fun c => negb (is_forbidden c)) safe_name = true
  /\ contains [95; 95]%N safe_name = false
  /\ strip_chars safe_name = safe_name
  /\ create_safe_filename safe_name = safe_name.
Proof.
  intros safe_name.
  assert (Main : nonempty safe_name = true
                 /\ forallb (fun c => negb (is_forbidden c)) safe_name = true
                 /\ contains [95; 95]%N safe_name = false
                 /\ strip_chars safe_name = safe_name).
  { unfold safe_name, create_safe_filename.
    set (s1 := replace_forbidden filename).
    set (s2 := collapse_underscores (List.length s1) s1).
    destruct (nonempty (strip_chars s2)) eqn:NE;
      [|repeat split; vm_compute; reflexivity].
    destruct (collapse_underscores_facts (List.length s1) s1 (le_n _))
      as [C2 P2]. fold s2 in C2, P2.
    destruct (strip_chars_middle s2) as (a & b & Hab).
    split; [exact NE|]. split; [|split].
    - specialize (P2 _ (replace_forbidden_allowed filename)).
      rewrite Hab in P2. rewrite !forallb_app in P2.
      apply andb_true_iff in P2 as [_ P2].
      now apply andb_true_iff in P2 as [P2 _].
    - destruct (contains [95; 95]%N (strip_chars s2)) eqn:C; [|reflexivity].
      apply (contains_middle _ a _ b) in C. rewrite <- Hab in C. congruence.
    - apply strip_chars_fixed, strip_chars_edges. }
  destruct Main as (M1 & M2 & M3 & M4).
  repeat split; try assumption.
  unfold create_safe_filename.
  rewrite (replace_forbidden_fixed _ M2).
  rewrite (collapse_underscores_fixed _ _ M3), M4, M1. reflexivity.
Qed.

End HelpersMore.

(* ================================================================== *)
(** * More on dates ([normalizer.py] and the calendar it relies on) *)
(* ================================================================== *)

Section CalendarFacts.
Import PyStr PyDate.

Lemma all_from_spec (f : Z -> bool) (n : nat) :
  forall lo, all_from f lo n = true ->
  forall k, lo <= k < lo + Z.of_nat n -> f k = true.
Proof.
  induction n as [|n IH]; intros lo H k Hk; [lia|].
  cbn [all_from] in H. apply andb_true_iff in H as [H1 H2].
  destruct (Z.eq_dec k lo) as [->|Hne]; [exact H1|].
  apply (IH (lo + 1) H2). lia.
Qed.

(** The four hundred years of a cycle, one after the other. *)
Lemma years_checked (a b c : Z) :
  0 <= a < 4 -> 0 <= b < 25 -> 0 <= c < 4 -> year_ok a b c = true.
Proof.
  intros Ha Hb Hc.
  assert (T : all_from
                (fun a => all_from
                            (fun b => all_from (fun c => year_ok a b c) 0 4)
                            0 25) 0 4 = true)
    by (vm_compute; reflexivity).
  pose proof (all_from_spec _ _ _ T a ltac:(lia)) as Ta. cbv beta in Ta.
  pose proof (all_from_spec _ _ _ Ta b ltac:(lia)) as Tb. cbv beta in Tb.
  exact (all_from_spec _ _ _ Tb c ltac:(lia)).
Qed.

(** The days of a year, one after the other. *)
Lemma days_checked (leapyear : bool) (n : Z) :
  0 <= n < 365 -> day_ok leapyear n = true.
Proof.
  intros Hn.
  assert (T : all_from (day_ok true) 0 365 && all_from (day_ok false) 0 365
              = true)
    by (vm_compute; reflexivity).
  apply andb_true_iff in T as [T1 T2].
  destruct leapyear;
    [exact (all_from_spec _ _ _ T1 n ltac:(lia))
    |exact (all_from_spec _ _ _ T2 n ltac:(lia))].
Qed.

Lemma year_ok_spec (a b c : Z) :
  year_ok a b c = true ->
  is_leap (1 + 100 * a + 4 * b + c)
  = (c =? 3) && (negb (b =? 24) || (a =? 3))
  /\ days_before_year (1 + 100 * a + 4 * b + c)
     = 36524 * a + 1461 * b + 365 * c.
Proof.
  unfold year_ok. cbv zeta. intros H. apply andb_true_iff in H as [H1 H2].
  apply Bool.eqb_prop in H1. apply Z.eqb_eq in H2.
  unfold DI100Y, DI4Y in H2. now split.
Qed.

(** The ordinals of the first four hundred years. *)
Lemma first_cycle (r : Z) :
  1 <= r <= 146097 ->
  let '(y, m, d) := ord2ymd r in
  1 <= y <= 400 /\ (r <= 145731 -> y <= 399)
  /\ 1 <= m <= 12 /\ 1 <= d <= days_in_month y m
  /\ ymd2ord y m d = r.
Proof.
  intros H. unfold ord2ymd. cbv zeta.
  rewrite (Z.div_small (r - 1) DI400Y), (Z.mod_small (r - 1) DI400Y)
    by (unfold DI400Y; lia).
  unfold DI100Y, DI4Y.
  pose proof (Z.div_mod (r - 1) 36524 ltac:(lia)) as D1.
  pose proof (Z.mod_pos_bound (r - 1) 36524 ltac:(lia)) as B1.
  set (a := (r - 1) / 36524) in *. set (n2 := (r - 1) mod 36524) in *.
  pose proof (Z.div_mod n2 1461 ltac:(lia)) as D2.
  pose proof (Z.mod_pos_bound n2 1461 ltac:(lia)) as B2.
  set (b := n2 / 1461) in *. set (n3 := n2 mod 1461) in *.
  pose proof (Z.div_mod n3 365 ltac:(lia)) as D3.
  pose proof (Z.mod_pos_bound n3 365 ltac:(lia)) as B3.
  set (c := n3 / 365) in *. set (e := n3 mod 365) in *.
  assert (Ra : 0 <= a <= 4) by lia.
  assert (Rb : 0 <= b <= 24) by lia.
  assert (Rc : 0 <= c <= 4) by lia.
  replace (0 * 400 + 1 + a * 100 + b * 4 + c)
    with (1 + 100 * a + 4 * b + c) by lia.
  destruct ((c =? 4) || (a =? 4)) eqn:Edge.
  - (* the last day of a leap year *)
    assert (Y : exists a' b', 0 <= a' < 4 /\ 0 <= b' < 25
                 /\ 1 + 100 * a + 4 * b + c - 1
                    = 1 + 100 * a' + 4 * b' + 3
                 /\ r = 36524 * a' + 1461 * b' + 365 * 3 + 366
                 /\ (b' =? 24) && negb (a' =? 3) = false).
    { apply orb_true_iff in Edge as [E|E]; apply Z.eqb_eq in E.
      - exists a, b. assert (a <> 4) by lia. assert (b <> 24) by lia.
        do 4 (split; [lia|]).
        replace (b =? 24) with false by (symmetry; apply Z.eqb_neq; lia).
        reflexivity.
      - exists 3, 24. do 4 (split; [lia|]). reflexivity. }
    destruct Y as (a' & b' & Ha' & Hb' & -> & -> & L).
    destruct (year_ok_spec a' b' 3 (years_checked a' b' 3 Ha' Hb' ltac:(lia)))
      as [Leap Days].
    assert (Leap' : is_leap (1 + 100 * a' + 4 * b' + 3) = true).
    { rewrite Leap. cbn [Z.eqb Pos.eqb andb].
      destruct (b' =? 24), (a' =? 3); cbn in *; congruence. }
    unfold ymd2ord, days_in_month, days_before_month.
    rewrite Days, Leap'.
    change (12 =? 2) with false. change (2 <? 12) with true.
    change (DAYS_IN_MONTH 12) with 31. change (DAYS_BEFORE_MONTH 12) with 334.
    cbn [andb]. repeat split; lia.
  - apply orb_false_iff in Edge as [E1 E2].
    apply Z.eqb_neq in E1, E2.
    destruct (year_ok_spec a b c (years_checked a b c ltac:(lia) ltac:(lia)
                                    ltac:(lia))) as [Leap Days].
    set (leapyear := (c =? 3) && (negb (b =? 24) || (a =? 3))) in *.
    pose proof (days_checked leapyear e ltac:(lia)) as Dk.
    unfold day_ok, month_day in Dk. cbv zeta in Dk.
    destruct (e <? _);
      rewrite !andb_true_iff in Dk;
      destruct Dk as ((((K1 & K2) & K3) & K4) & K5);
      apply Z.leb_le in K1, K2, K3, K4; apply Z.eqb_eq in K5;
      unfold ymd2ord, days_in_month, days_before_month;
      rewrite Days, Leap;
      repeat split; lia.
Qed.

Lemma ord2ymd_period (r q : Z) :
  ord2ymd (r + DI400Y * q)
  = let '(y, m, d) := ord2ymd r in (y + 400 * q, m, d).
Proof.
  unfold ord2ymd. cbv zeta.
  replace (r + DI400Y * q - 1) with (r - 1 + q * DI400Y) by lia.
  rewrite Z.div_add, Z_mod_plus_full by (unfold DI400Y; lia).
  repeat match goal with
         | |- context [if ?c then _ else _] => destruct c
         end; f_equal; try f_equal; lia.
Qed.

Lemma is_leap_period (y q : Z) : is_leap (y + 400 * q) = is_leap y.
Proof.
  unfold is_leap.
  replace ((y + 400 * q) mod 4) with (y mod 4)
    by (replace (y + 400 * q) with (y + (100 * q) * 4) by lia;
        now rewrite Z_mod_plus_full).
  replace ((y + 400 * q) mod 100) with (y mod 100)
    by (replace (y + 400 * q) with (y + (4 * q) * 100) by lia;
        now rewrite Z_mod_plus_full).
  replace ((y + 400 * q) mod 400) with (y mod 400)
    by (replace (y + 400 * q) with (y + q * 400) by lia;
        now rewrite Z_mod_plus_full).
  reflexivity.
Qed.

Lemma ymd2ord_period (y m d q : Z) :
  ymd2ord (y + 400 * q) m d = ymd2ord y m d + DI400Y * q.
Proof.
  unfold ymd2ord, days_before_month, days_before_year.
  rewrite is_leap_period. cbv zeta.
  replace ((y + 400 * q - 1) / 4) with ((y - 1) / 4 + 100 * q)
    by (replace (y + 400 * q - 1) with (y - 1 + (100 * q) * 4) by lia;
        now rewrite Z.div_add by lia).
  replace ((y + 400 * q - 1) / 100) with ((y - 1) / 100 + 4 * q)
    by (replace (y + 400 * q - 1) with (y - 1 + (4 * q) * 100) by lia;
        now rewrite Z.div_add by lia).
  replace ((y + 400 * q - 1) / 400) with ((y - 1) / 400 + q)
    by (replace (y + 400 * q - 1) with (y - 1 + q * 400) by lia;
        now rewrite Z.div_add by lia).
  unfold DI400Y. lia.
Qed.

(** The date of an ordinal is a day of the calendar, and the ordinal of
    that day is the ordinal it came from. *)
Lemma ord2ymd_ymd2ord (n : Z) :
  1 <= n <= MAXORDINAL ->
  let '(y, m, d) := ord2ymd n in
  1 <= y <= 9999 /\ 1 <= m <= 12 /\ 1 <= d <= days_in_month y m
  /\ ymd2ord y m d = n.
Proof.
  unfold MAXORDINAL. intros H.
  set (q := (n - 1) / DI400Y). set (r := (n - 1) mod DI400Y + 1).
  assert (Hn : n = r + DI400Y * q).
  { unfold r, q. pose proof (Z.div_mod (n - 1) DI400Y) as D.
    unfold DI400Y in *. lia. }
  assert (Hr : 1 <= r <= 146097).
  { unfold r. pose proof (Z.mod_pos_bound (n - 1) DI400Y) as B.
    unfold DI400Y in *. lia. }
  assert (Hq : 0 <= q <= 24).
  { unfold q, DI400Y. split.
    - apply Z.div_pos; lia.
    - assert ((n - 1) / 146097 < 25); [|lia].
      apply Z.div_lt_upper_bound; lia. }
  pose proof (first_cycle r Hr) as C.
  rewrite Hn, ord2ymd_period.
  destruct (ord2ymd r) as [[y m] d].
  destruct C as (C1 & C2 & C3 & C4 & C5).
  assert (Y : y + 400 * q <= 9999).
  { destruct (Z.eq_dec q 24) as [E|E]; [|lia].
    unfold DI400Y in Hn. lia. }
  unfold days_in_month. rewrite is_leap_period. fold (days_in_month y m).
  rewrite ymd2ord_period. repeat split; lia.
Qed.

End CalendarFacts.

Section SerialDates.
Import PyStr PyFloat PyDate Cell Dict Normalizer.

(** The date of a serial day number, before it is written as text. *)
Lemma serial_datetime (n : Z) :
  1 <= n <= 2958465 ->
  excel_date (timedelta_days (n - 2)) = Some (plus_days epoch n).
Proof.
  intros H. unfold timedelta_days, check_delta, US_PER_DAY.
  rewrite Z.div_mul by lia.
  replace ((-999999999 <=? n - 2) && (n - 2 <=? 999999999)) with true
    by (symmetry; apply andb_true_iff; split; apply Z.leb_le; lia).
  unfold excel_date, datetime_add, plus_days.
  change (toordinal (mkdt 1900 1 1 0 0 0 0)) with 693596.
  change (toordinal epoch) with 693594.
  cbn [hour minute second microsecond]. unfold US_PER_DAY.
  replace (693596 * 86400000000 + ((0 * 60 + 0) * 60 + 0) * 1000000 + 0
           + (n - 2) * 86400000000)
    with ((693594 + n) * 86400000000) by lia.
  rewrite Z.div_mul, Z.mod_mul by lia.
  replace ((0 <? 693594 + n) && (693594 + n <=? MAXORDINAL)) with true
    by (symmetry; apply andb_true_iff; unfold MAXORDINAL;
        split; [apply Z.ltb_lt|apply Z.leb_le]; lia).
  destruct (ord2ymd (693594 + n)) as [[y m] d]. reflexivity.
Qed.

Lemma plus_days_epoch (n : Z) :
  1 <= n <= 2958465 ->
  valid_date (plus_days epoch n) = true
  /\ toordinal (plus_days epoch n) = toordinal epoch + n.
Proof.
  intros H. unfold plus_days.
  pose proof (ord2ymd_ymd2ord (toordinal epoch + n)) as R.
  change (toordinal epoch) with 693594 in *.
  specialize (R ltac:(unfold MAXORDINAL; lia)).
  destruct (ord2ymd (693594 + n)) as [[y m] d].
  destruct R as (R1 & R2 & R3 & R4).
  unfold valid_date, toordinal. cbn [year month day].
  split; [|exact R4].
  repeat (apply andb_true_iff; split); apply Z.leb_le; lia.
Qed.

(** X17. A serial day number between 1 and 2958465 becomes a day of the
    calendar, at midnight, whose ordinal is the ordinal of 1899-12-30 plus
    the serial number: serial numbers one apart are days one apart, and
    no two serial numbers give the same day. *)
Theorem serial_dates_follow_the_calendar (target : pystr) (n : Z) :
  1 <= n <= 2958465 ->
  exists t,
    excel_date (timedelta_days (n - 2)) = Some t
    /\ convert_date target (VInt n) = Some (strftime t target)
    /\ valid_date t = true
    /\ toordinal t = toordinal (mkdt 1899 12 30 0 0 0 0) + n
    /\ (hour t, minute t, second t, microsecond t) = (0, 0, 0, 0)
    /\ forall n', 1 <= n' <= 2958465 ->
         excel_date (timedelta_days (n' - 2)) = Some t -> n' = n.
Proof.
  intros H. exists (plus_days epoch n).
  destruct (plus_days_epoch n H) as [V O].
  split; [now apply serial_datetime|]. split.
  { unfold convert_date.
    replace ((1 <=? n) && (n <=? 2958465)) with true
      by (symmetry; apply andb_true_iff; split; apply Z.leb_le; lia).
    now rewrite serial_datetime. }
  split; [exact V|]. split; [exact O|]. split.
  { unfold plus_days. destruct (ord2ymd _) as [[y m] d]. reflexivity. }
  intros n' H' E. rewrite (serial_datetime n' H') in E.
  injection E as E.
  destruct (plus_days_epoch n' H') as [_ O'].
  rewrite E, O in O'. lia.
Qed.

End SerialDates.

Section SerialDatesExamples.
Import PyStr PyFloat PyDate Cell Dict Normalizer.

(** The serial number 45000 is the day 2023-03-15. *)
Lemma serial_dates_follow_the_calendar_witness :
  exists t,
    excel_date (timedelta_days (45000 - 2)) = Some t
    /\ convert_date (py "%Y-%m-%d") (VInt 45000)
       = Some (strftime t (py "%Y-%m-%d"))
    /\ valid_date t = true.
Proof.
  destruct (serial_dates_follow_the_calendar (py "%Y-%m-%d") 45000
              ltac:(lia)) as (t & H1 & H2 & H3 & _).
  exists t. repeat split; assumption.
Defined.

End SerialDatesExamples.

Section DateRoundTrip.
Import PyStr PyFloat PyDate Cell Dict Normalizer.

(** ** Reading back what [strftime] wrote *)



















Section WithClock.
Variable now : nat -> datetime.




End WithClock.

End DateRoundTrip.

Section DateRoundTripExamples.
Import PyStr PyFloat PyDate Cell Dict Normalizer Scenario.


End DateRoundTripExamples.

(* ================================================================== *)
(** * More on a frame and its standards *)
(* ================================================================== *)

Section FrameMore.
Import PyStr PyFloat PyDate Cell Dict Processor Normalizer Controller.
Context {U : PyUnicode}.
Variable now : nat -> datetime.

Lemma normalize_columns_shape (standards : dict standard)
    (file sheet : pystr) (df : DataFrame) :
  forall st result st',
    normalize_columns now df standards file sheet st = (result, st') ->
    map fst result = map fst df
    /\ (forall n, rows_are n df -> rows_are n result)
    /\ exists entries,
         change_logs st' = change_logs st ++ entries
         /\ Forall (fun e => file_name e = file /\ sheet_name e = sheet)
                   entries.
Proof.
  induction df as [|[column series] df IH]; intros st result st' H.
  - cbn in H. injection H as <- <-. split; [reflexivity|].
    split; [intros n _; constructor|]. exists []. rewrite app_nil_r.
    split; [reflexivity|constructor].
  - cbn [normalize_columns] in H.
    assert (C : exists series' st1,
               match dict_get standards column with
               | Some standard =>
                 _normalize_column now series standard column file sheet st
               | None => (series, st)
               end = (series', st1)
               /\ List.length series' = List.length series
               /\ exists entries,
                    change_logs st1 = change_logs st ++ entries
                    /\ Forall (fun e => file_name e = file
                                        /\ sheet_name e = sheet) entries).
    { destruct (dict_get standards column) as [standard|].
      - destruct (_normalize_column now series standard column file sheet st)
          as [series' st1] eqn:N.
        exists series', st1. split; [reflexivity|].
        apply normalize_column_log in N.
        destruct N as (L & _ & entries & E1 & _ & _ & E4).
        split; [exact L|]. exists entries. split; [exact E1|].
        eapply Forall_impl; [|exact E4]. cbv beta. tauto.
      - exists series, st. split; [reflexivity|]. split; [reflexivity|].
        exists []. rewrite app_nil_r. split; [reflexivity|constructor]. }
    destruct C as (series' & st1 & Eq & L & entries1 & E1 & F1).
    rewrite Eq in H.
    destruct (normalize_columns now df standards file sheet st1)
      as [rest st2] eqn:R.
    injection H as <- <-.
    apply IH in R. destruct R as (K & Rows & entries2 & E2 & F2).
    split; [cbn; now rewrite K|]. split.
    + intros n Hn. constructor.
      * cbn. rewrite L. exact (Forall_inv Hn).
      * apply Rows. exact (Forall_inv_tail Hn).
    + exists (entries1 ++ entries2). rewrite E2, E1, app_assoc.
      split; [reflexivity|]. apply Forall_app. now split.
Qed.

(** X19. [normalize_data] keeps the columns of the frame, by name and in
    order; the log it returns holds entries of the file and the sheet it
    was called for and no other, whatever the log held before; and of a
    frame whose columns have [n] rows it leaves no empty row and at most
    [n] rows. *)
Theorem normalized_frame_and_its_log (df : DataFrame)
    (standards : dict standard) (file sheet : pystr) (st : nstate) :
  let '(result, st') := normalize_data now df standards file sheet st in
  map fst result = map fst df
  /\ Forall (fun e => file_name e = file /\ sheet_name e = sheet)
            (change_logs st')
  /\ forall n, rows_are n df ->
       exists k, (k <= n)%nat /\ rows_are k result
                 /\ forall i, (i < nrows result)%nat ->
                              row_all_na result i = false.
Proof.
  unfold normalize_data.
  destruct (normalize_columns now df standards file sheet
              (mkstate [] (ticks st))) as [normalized_df st1] eqn:N.
  apply normalize_columns_shape in N.
  destruct N as (K & Rows & entries & E & F). cbn [change_logs app] in E.
  destruct (_clean_data now normalized_df file sheet st1)
    as [result st'] eqn:C.
  assert (C1 : result = fst (_clean_data now normalized_df file sheet st1))
    by now rewrite C.
  assert (C2 : st' = snd (_clean_data now normalized_df file sheet st1))
    by now rewrite C.
  split.
  { rewrite C1. unfold _clean_data, dropna_all. cbn [fst].
    rewrite <- K, map_map. apply map_ext. now intros [c series]. }
  split.
  { rewrite C2. unfold _clean_data. cbn [snd].
    destruct (negb _); [|now rewrite E].
    unfold _log_change_dict. cbn [change_logs]. rewrite E.
    apply Forall_app. split; [exact F|].
    constructor; [|constructor]. now split. }
  intros n Hn.
  destruct (clean_data_spec now normalized_df n file sheet st1 (Rows n Hn))
    as (_ & R & NE & _).
  rewrite <- C1 in R, NE.
  exists (List.length (kept_rows normalized_df 0 n)).
  split; [|now split].
  unfold kept_rows.
  pose proof (filter_length_le
                (fun j => negb (row_all_na normalized_df j)) (seq 0 n)) as L.
  now rewrite length_seq in L.
Qed.

(** ** The standards of the reference *)

Lemma analysis_follows_type (t : pystr) (series : list cell) :
  follows_type t
    (with_type t
       (if str_eqb t (py "number")
        then _analyze_number_format (samples series)
        else if str_eqb t (py "date")
        then _analyze_date_format (samples series)
        else if str_eqb t (py "text")
        then _analyze_text_format (samples series)
        else empty_standard)).
Proof.
  unfold follows_type. split; [reflexivity|]. split.
  - intros ->. cbn [str_eqb]. rewrite str_eqb_refl.
    unfold _analyze_number_format, with_type.
    cbn [std_decimal_places std_thousands_separator].
    eexists. eexists. split; [reflexivity|]. split; [|reflexivity].
    generalize (samples series). intros l.
    assert (G : forall acc, 0 <= acc ->
              0 <= fold_left
                     (fun acc v =>
                        match v with
                        | VStr s =>
                          Z.max acc
                            (if existsb (N.eqb 46) s
                             then len (after_last_dot s) else 0)
                        | VFloat x =>
                          Z.max acc
                            (if existsb (N.eqb 46) (repr x)
                             then len (after_last_dot (repr x)) else 0)
                        | _ => acc
                        end) l acc).
    { induction l as [|v l IH]; intros acc Ha; [exact Ha|].
      cbn [fold_left]. apply IH. destruct v; lia. }
    apply G. lia.
  - intros ->.
    replace (str_eqb (py "date") (py "number")) with false
      by (vm_compute; reflexivity).
    rewrite str_eqb_refl. unfold with_type. cbn [std_format].
    destruct (analyzed_date_format_is_common (samples series))
      as (fmt & F1 & F2).
    exists fmt. now split.
Qed.

Lemma standards_loop (data_types : dict pystr) (c : pystr) (df : DataFrame) :
  forall acc : dict standard,
    match dict_get
            (fold_left
               (fun standards '(column, series) =>
                  match dict_get data_types column with
                  | None => standards
                  | Some data_type =>
                    let sample_data := samples series in
                    let analysis :=
                      if str_eqb data_type (py "number")
                      then _analyze_number_format sample_data
                      else if str_eqb data_type (py "date")
                      then _analyze_date_format sample_data
                      else if str_eqb data_type (py "text")
                      then _analyze_text_format sample_data
                      else empty_standard in
                    dict_set standards column (with_type data_type analysis)
                  end) df acc) c with
    | Some std =>
      dict_get acc c = Some std
      \/ (In c (map fst df)
          /\ exists t, dict_get data_types c = Some t /\ follows_type t std)
    | None =>
      dict_get acc c = None
      /\ (In c (map fst df) -> dict_get data_types c = None)
    end.
Proof.
  induction df as [|[column series] df IH]; intros acc.
  - cbn [fold_left]. destruct (dict_get acc c); [now left|].
    split; [reflexivity|intros []].
  - cbn [fold_left map fst].
    destruct (dict_get data_types column) as [t|] eqn:T.
    + specialize (IH (dict_set acc column
                        (with_type t
                           (if str_eqb t (py "number")
                            then _analyze_number_format (samples series)
                            else if str_eqb t (py "date")
                            then _analyze_date_format (samples series)
                            else if str_eqb t (py "text")
                            then _analyze_text_format (samples series)
                            else empty_standard)))).
      cbv zeta.
      destruct (dict_get (fold_left _ df _) c) as [std|].
      * destruct IH as [IH|(I1 & I2)]; [|right; split; [now right|exact I2]].
        destruct (str_eqb column c) eqn:E.
        -- apply str_eqb_eq in E. subst column.
           rewrite dict_get_set_same in IH. injection IH as <-.
           right. split; [now left|]. exists t. split; [exact T|].
           apply analysis_follows_type.
        -- apply str_eqb_neq in E.
           rewrite dict_get_set_other in IH by exact E. now left.
      * destruct IH as [I1 I2].
        destruct (str_eqb column c) eqn:E.
        -- apply str_eqb_eq in E. subst column.
           rewrite dict_get_set_same in I1. discriminate.
        -- apply str_eqb_neq in E.
           rewrite dict_get_set_other in I1 by exact E.
           split; [exact I1|]. intros [H|H]; [contradiction|now apply I2].
    + specialize (IH acc).
      destruct (dict_get (fold_left _ df acc) c) as [std|].
      * destruct IH as [IH|(I1 & I2)]; [now left|].
        right. split; [now right|exact I2].
      * destruct IH as [I1 I2]. split; [exact I1|].
        intros [H|H]; [cbn in H; now subst column|now apply I2].
Qed.

(** X20. A column has a format standard exactly when it is a column of
    the frame to which the analysis gave a type, and its standard then
    carries that type; the standard of a number holds a count of decimal
    places that is not negative, and the standard of a date one of the
    five common formats. *)
Theorem standards_follow_the_types (df : DataFrame)
    (data_types : dict pystr) (c : pystr) :
  match dict_get (extract_format_standards df data_types) c with
  | Some std =>
    In c (map fst df)
    /\ exists t, dict_get data_types c = Some t /\ follows_type t std
  | None => ~ In c (map fst df) \/ dict_get data_types c = None
  end.
Proof.
  pose proof (standards_loop data_types c df []) as H. revert H.
  unfold extract_format_standards.
  destruct (dict_get _ c) as [std|]; intros H.
  - destruct H as [H|H]; [discriminate|exact H].
  - destruct H as [_ H].
    destruct (in_dec (list_eq_dec N.eq_dec) c (map fst df)) as [I|I];
      [right; now apply H|now left].
Qed.

End FrameMore.

Section FileMore.
Import PyStr PyFloat PyDate Cell Dict Processor Normalizer Controller.
Context {U : PyUnicode}.
Variable read_file_structure : pystr -> FileStructure.
Variable read_sheet_data : pystr -> pystr -> pystr + DataFrame.
Variable path_name : pystr -> pystr.
Variable now : nat -> datetime.






(** ** Errors do not depend on the log *)

Lemma process_sheet_error_any_state (merge_file file_name : pystr)
    (reference_structure : FileStructure)
    (format_standards : dict (dict standard))
    (ref_sheet_name target_sheet_name : pystr) (st st' : nstate) :
  match fst (process_sheet read_sheet_data now merge_file file_name
               reference_structure format_standards ref_sheet_name
               target_sheet_name st),
        fst (process_sheet read_sheet_data now merge_file file_name
               reference_structure format_standards ref_sheet_name
               target_sheet_name st') with
  | inl e, inl e' => e = e'
  | inr _, inr _ => True
  | _, _ => False
  end.
Proof.
  unfold process_sheet.
  destruct (find _ (sheets reference_structure)) as [ref_sheet|]; [|exact I].
  destruct (read_sheet_data merge_file target_sheet_name) as [e0|df];
    [reflexivity|].
  destruct (df_empty df); [exact I|].
  destruct (dict_get format_standards ref_sheet_name); [|reflexivity].
  do 2 destruct (normalize_data _ _ _ _ _ _). exact I.
Qed.

Lemma process_sheets_error_any_state (merge_file file_name : pystr)
    (reference_structure : FileStructure)
    (format_standards : dict (dict standard)) (sheet_mappings : dict pystr) :
  forall result_data result_data' st st',
    match fst (process_sheets read_sheet_data now merge_file file_name
                 reference_structure format_standards sheet_mappings
                 result_data st),
          fst (process_sheets read_sheet_data now merge_file file_name
                 reference_structure format_standards sheet_mappings
                 result_data' st') with
    | inl e, inl e' => e = e'
    | inr _, inr _ => True
    | _, _ => False
    end.
Proof.
  induction sheet_mappings as [|[r t] rest IH];
    intros result_data result_data' st st'; [exact I|].
  cbn [process_sheets].
  pose proof (process_sheet_error_any_state merge_file file_name
                reference_structure format_standards r t st st') as P.
  destruct (process_sheet _ _ _ _ _ _ r t st) as [[e|res] st1];
    destruct (process_sheet _ _ _ _ _ _ r t st') as [[e'|res'] st1'];
    cbn [fst] in P; try contradiction; [exact P|].
  apply IH.
Qed.

Lemma file_fails_any_state (merge_file : pystr)
    (reference_structure : FileStructure)
    (format_standards : dict (dict standard)) (st : nstate) :
  file_fails read_file_structure read_sheet_data path_name now merge_file
             reference_structure format_standards
  = match fst (_process_merge_file read_file_structure read_sheet_data
                 path_name now merge_file reference_structure
                 format_standards st) with
    | inl _ => true
    | inr _ => false
    end.
Proof.
  unfold file_fails, _process_merge_file.
  destruct (has_error (read_file_structure merge_file)); [reflexivity|].
  match goal with
  | |- context [process_sheets _ _ ?mf ?fn ?rs ?fs ?sm ?rd ?s0] =>
    match goal with
    | |- context [process_sheets _ _ mf fn rs fs sm rd ?s1] =>
      lazymatch s1 with
      | s0 => fail
      | _ =>
        pose proof (process_sheets_error_any_state mf fn rs fs sm rd rd s0 s1)
          as P
      end
    end
  end.
  destruct (process_sheets _ _ _ _ _ _ _ _ _) as [[e|res] st2];
    destruct (process_sheets _ _ _ _ _ _ _ _ _) as [[e'|res'] st2'];
    cbn [fst] in P |- *; try contradiction; reflexivity.
Qed.

Variable is_cancelled : nat -> bool.

(** X23. Unless the run is cancelled, the loop over the candidate files
    goes through all of them, and leaves in the error log of the
    controller exactly one line for every file whose processing raised
    an error, the lines of earlier stages kept before them. *)
Theorem every_failed_file_leaves_one_line
    (reference_structure : FileStructure)
    (format_standards : dict (dict standard)) (merge_files : list pystr) :
  (forall j, is_cancelled j = false) ->
  forall i merged_data c,
    exists merged_data' c' lines,
      process_files read_file_structure read_sheet_data path_name now
        is_cancelled merge_files i reference_structure format_standards
        merged_data c = (Some merged_data', c')
      /\ errors c' = errors c ++ lines
      /\ List.length lines
         = List.length
             (filter (fun merge_file =>
                        file_fails read_file_structure read_sheet_data
                          path_name now merge_file reference_structure
                          format_standards) merge_files)
      /\ trace c'
         = trace c ++ map ProcessFile (seq i (List.length merge_files)).
Proof.
  intros NC. induction merge_files as [|f files IH]; intros i merged_data c.
  - exists merged_data, c, []. cbn. rewrite !app_nil_r. repeat split.
  - cbn [process_files filter].
    rewrite (file_fails_any_state f reference_structure format_standards
               (norm (announce (ProcessFile i) c))).
    destruct (_process_merge_file _ _ _ _ f _ _ _) as [[e|file_data] st1].
    + cbn [fst]. rewrite NC.
      match goal with
      | |- context [process_files _ _ _ _ _ files (S i) _ _ ?m ?c1] =>
        destruct (IH (S i) m c1) as (m' & c' & lines & P & E & L & T)
      end.
      eexists m', c', (_ :: lines). split; [exact P|].
      split; [rewrite E; cbn; rewrite <- app_assoc; reflexivity|].
      split; [cbn; now rewrite L|].
      rewrite T. cbn. now rewrite <- app_assoc.
    + cbn [fst]. rewrite NC.
      match goal with
      | |- context [process_files _ _ _ _ _ files (S i) _ _ ?m ?c1] =>
        destruct (IH (S i) m c1) as (m' & c' & lines & P & E & L & T)
      end.
      exists m', c', lines. split; [exact P|].
      split; [rewrite E; reflexivity|]. split; [exact L|].
      rewrite T. cbn. now rewrite <- app_assoc.
Qed.

End FileMore.

Section FileMoreExamples.
Import PyStr PyFloat PyDate Cell Dict Processor Normalizer Controller Scenario.


(** The loop over [staff.xlsx] and a file that cannot be analysed. *)
Lemma every_failed_file_leaves_one_line_witness :
  let reference := files (py "ref.xlsx") in
  let standards := @_extract_format_standards latin data reference in
  let merge_files := [py "staff.xlsx"; py "gone.xlsx"] in
  let c := mkcstate (mkstate [] 0) [] 0 [] in
  exists merged_data' c' lines,
    @process_files latin files data base_name clock never_cancelled
      merge_files 0 reference standards [] c = (Some merged_data', c')
    /\ errors c' = errors c ++ lines
    /\ List.length lines
       = List.length
           (filter (fun merge_file =>
                      @file_fails latin files data base_name clock merge_file
                        reference standards) merge_files)
    /\ trace c'
       = trace c ++ map ProcessFile (seq 0 (List.length merge_files)).
Proof.
  cbv zeta.
  apply (@every_failed_file_leaves_one_line latin files data base_name clock
           never_cancelled).
  intros j. reflexivity.
Defined.

End FileMoreExamples.
